(** * ERA5 processing pipeline: extractor, joiner, sorter, orchestrator

    A shallow embedding of the scripts under [app-main/scripts]:

    - [era5-organized-converter.py]   (module [Extractor])
    - [era5-data-joiner.py]           (module [Joiner])
    - [era5-chronological-sorter.py]  (module [Sorter]; the copy of
      [sort_file_chronologically] in [era5-processing-pipeline2.py] differs
      only in the prefix of the error-log name)
    - [era5-processing-pipeline2.py]  (modules [Orchestrator], [Pipeline]
      and [PipelineSteps]; [find_joined_files], which the sorter has too,
      in module [JoinedFiles])

    Tables are pandas data frames: a list of column labels and a list of rows.
    Cells are null (NaN / NaT / empty field), numeric or textual.  Numbers
    stand for what pandas parsed from the file: a timestamp as an integer
    count of time units, a coordinate as a fixed-point decimal, so that the
    only thing the development uses of them is equality and order. *)

From Stdlib Require Import List String Ascii ZArith Lia Bool Sorted Permutation.
From Stdlib Require Import DecimalString DecimalNat.
From stdpp Require Import gmap strings.
Import ListNotations.
Local Open Scope string_scope.
Local Open Scope list_scope.

(** ** Comparisons *)

(** A three-way comparison that decides equality and is a strict total order
    on its [Lt] side. *)
Class LawfulCmp {A : Type} (cmp : A -> A -> comparison) : Prop := {
  cmp_eq : forall a b, cmp a b = Eq <-> a = b;
  cmp_antisym : forall a b, cmp b a = CompOpp (cmp a b);
  cmp_lt_trans : forall a b c, cmp a b = Lt -> cmp b c = Lt -> cmp a c = Lt
}.

Definition cmp_leb {A : Type} (cmp : A -> A -> comparison) (a b : A) : bool :=
  match cmp a b with Gt => false | _ => true end.

(** Lexicographic product, the order [sort_values] puts on several keys. *)
Definition lex_cmp {A B : Type} (ca : A -> A -> comparison)
    (cb : B -> B -> comparison) (x y : A * B) : comparison :=
  match ca (fst x) (fst y) with
  | Eq => cb (snd x) (snd y)
  | c => c
  end.

(** ** Tables *)

(** One field of a table.  [Null] is pandas' missing value. *)
Inductive cell : Type :=
| Null
| Num (z : Z)
| Str (s : string).

#[global] Instance cell_eq_dec : EqDecision cell.
Proof. solve_decision. Defined.

(** Order of the values of one column under [sort_values] on several keys:
    missing values go last ([na_position='last']), numbers by value, strings
    by code point.  A column that holds numbers and strings is ordered too,
    the numbers before the strings: the sort goes by the position of each
    value among the sorted distinct values of its column, and pandas sorts
    distinct values of both kinds in this way. *)
Definition cell_cmp (a b : cell) : comparison :=
  match a, b with
  | Null, Null => Eq
  | Null, _ => Gt
  | _, Null => Lt
  | Num x, Num y => Z.compare x y
  | Num _, Str _ => Lt
  | Str _, Num _ => Gt
  | Str x, Str y => String.compare x y
  end.

Definition row : Type := list cell.

Record DataFrame : Type := mkDF {
  columns : list string;
  rows : list row
}.

(** Position of the first column carrying a label. *)
Fixpoint col_index (c : string) (cols : list string) : option nat :=
  match cols with
  | [] => None
  | c' :: cols' =>
      if String.eqb c c' then Some 0%nat
      else option_map S (col_index c cols')
  end.

Definition has_col (c : string) (cols : list string) : bool :=
  existsb (String.eqb c) cols.

Definition get_cell (cols : list string) (c : string) (r : row) : cell :=
  match col_index c cols with
  | Some i => nth i r Null
  | None => Null
  end.

(** The values of one column, top to bottom. *)
Definition column (df : DataFrame) (c : string) : list cell :=
  List.map (get_cell (columns df) c) (rows df).

(** [df[c] = vals] *)
Definition set_cell (cols : list string) (c : string) (r : row) (v : cell) : row :=
  match col_index c cols with
  | Some i => <[i:=v]> r
  | None => r
  end.

Definition set_column (df : DataFrame) (c : string) (vals : list cell) : DataFrame :=
  mkDF (columns df)
       (List.map (fun rv => set_cell (columns df) c (fst rv) (snd rv))
                 (combine (rows df) vals)).

(** [df.rename(columns={old: new})] *)
Definition rename_column (old new : string) (df : DataFrame) : DataFrame :=
  mkDF (List.map (fun c => if String.eqb c old then new else c) (columns df))
       (rows df).

(** Keeping the entries of a list that a list of flags marks. *)
Fixpoint select_mask {A : Type} (mask : list bool) (l : list A) : list A :=
  match mask, l with
  | b :: mask', x :: l' => if b then x :: select_mask mask' l' else select_mask mask' l'
  | _, _ => []
  end.

(** [df.drop(columns=labels)] *)
Definition drop_columns (labels : list string) (df : DataFrame) : DataFrame :=
  let mask := List.map (fun c => negb (has_col c labels)) (columns df) in
  mkDF (select_mask mask (columns df)) (List.map (select_mask mask) (rows df)).

Definition is_null (c : cell) : bool :=
  match c with Null => true | _ => false end.

(** [series.nunique()]: how many distinct values, missing ones apart. *)
Definition nunique (col : list cell) : nat :=
  length (remove_dups (List.filter (fun c => negb (is_null c)) col)).

(** The coordinate key of a row: its time, latitude and longitude. *)
Definition sort_key : Type := cell * cell * cell.

Definition row_key (cols : list string) (r : row) : sort_key :=
  (get_cell cols "time" r, get_cell cols "latitude" r, get_cell cols "longitude" r).

#[global] Instance sort_key_eq_dec : EqDecision sort_key.
Proof. solve_decision. Defined.

Definition key_columns : list string := ["time"; "latitude"; "longitude"].

(** [df[labels]]: the columns of the labels, in their order; [None] is the
    [KeyError] for a label that is no column. *)
Definition select_cols (labels : list string) (df : DataFrame) : option DataFrame :=
  if forallb (fun c => has_col c (columns df)) labels
  then Some (mkDF labels
               (List.map (fun r => List.map (fun c => get_cell (columns df) c r) labels)
                         (rows df)))
  else None.

(** The keys of the rows, top to bottom. *)
Definition keys_of (df : DataFrame) : list sort_key :=
  List.map (row_key (columns df)) (rows df).

(** Every row has a cell for every column. *)
Definition well_formed (df : DataFrame) : Prop :=
  forall r, In r (rows df) -> length r = length (columns df).

(** [df.iloc[i:i + n]] for [i] running over [range(0, len(df), n)], [n > 0]:
    the table cut into consecutive pieces of [n] rows, the last one shorter. *)
Fixpoint chunks_fuel {A : Type} (fuel n : nat) (l : list A) : list (list A) :=
  match fuel with
  | O => []
  | S fuel' =>
      match l with
      | [] => []
      | _ => firstn n l :: chunks_fuel fuel' n (skipn n l)
      end
  end.

Definition chunks {A : Type} (n : nat) (l : list A) : list (list A) :=
  chunks_fuel (length l) n l.

(** ** A stable sort *)

(** [sort_values] on several columns is pandas' lexsort: stable, ascending.
    The result of a stable sort is determined by the input and the order, so
    it is given here by insertion: a row goes before the first row of the
    already sorted rest whose key is not smaller. *)
Section StableSort.
Context {A K : Type} (key : A -> K) (leb : K -> K -> bool).

Fixpoint insert_row (x : A) (l : list A) : list A :=
  match l with
  | [] => [x]
  | y :: l' => if leb (key x) (key y) then x :: l else y :: insert_row x l'
  end.

Definition stable_sort (l : list A) : list A := fold_right insert_row [] l.

Definition key_le (a b : A) : Prop := leb (key a) (key b) = true.

End StableSort.

(** ** Strings and paths *)

(** [str.lower()] on ASCII text (labels and file names here are ASCII; other
    bytes are left as they are). *)
Definition lower_ascii (c : ascii) : ascii :=
  let n := N_of_ascii c in
  if ((65 <=? n) && (n <=? 90))%N then ascii_of_N (n + 32) else c.

Fixpoint lower (s : string) : string :=
  match s with
  | EmptyString => EmptyString
  | String c s' => String (lower_ascii c) (lower s')
  end.

Definition is_dot (c : ascii) : bool := Ascii.eqb c ".".

Fixpoint contains_dot (s : string) : bool :=
  match s with
  | EmptyString => false
  | String c s' => is_dot c || contains_dot s'
  end.

(** [os.path.splitext(name)[1]]: the suffix from the last dot on, unless only
    dots come before it.  [seen] tells that a character other than a dot was
    already passed. *)
Fixpoint splitext_ext (seen : bool) (s : string) : string :=
  match s with
  | EmptyString => EmptyString
  | String c s' =>
      if contains_dot s' then splitext_ext (seen || negb (is_dot c)) s'
      else if is_dot c && seen then s
      else EmptyString
  end.

(** A path is the list of its directories and a file name: what
    [os.path.dirname] and [os.path.basename] take apart and [os.path.join]
    puts together. *)
Definition path : Type := list string * string.

Definition dirname (p : path) : list string := fst p.
Definition basename (p : path) : string := snd p.
Definition path_join (dir : list string) (name : string) : path := (dir, name).

(** What lies at a path.  [Table df] is a file that pandas reads as the
    table [df]; a Parquet file stores such a table with its types.
    [Csv header pieces] is a CSV file as a run of [to_csv] calls wrote it:
    the header, then the rows handed to each call.  How a piece looks as
    text is decided call by call (timestamps that all lie at midnight are
    written as dates only), and what [read_csv] makes of the text is
    decided read by read; neither is fixed here.  [Other] is any other
    file. *)
Inductive file : Type :=
| Table (df : DataFrame)
| Csv (header : list string) (pieces : list (list row))
| Other.



(** ** The chronological sorter *)

Module Sorter.

(** What the environment does to the calls that touch the disk: the run of
    one call of [sort_file_chronologically] is a function of the file system
    and of these. [write_fails_at = Some i]: the [i]-th write to the temporary
    file raises. *)
Record faults : Type := mkFaults {
  backup_fails : bool;
  read_fails : bool;
  write_fails_at : option nat;
  replace_fails : bool;
  log_fails : bool
}.

Definition no_faults : faults := mkFaults false false None false false.

Inductive exn : Type :=
| ReadError
| KeyError (label : string)
| RangeStepZero
| WriteError
| ReplaceError.

Inductive error_msg : Type :=
| NoTimeColumn                (* "No 'time' column found" *)
| ExnMessage (e : exn).       (* str(e) *)

(** The dict the function returns, without the elapsed time. *)
Record result : Type := mkResult {
  res_file : path;
  success : bool;
  error : option error_msg
}.

Inductive outcome : Type :=
| Returned (r : result)
| Raised.

Record sort_args : Type := mkArgs {
  file_path : path;
  chunk_size : Z;
  max_memory_rows : Z;
  backup : bool;
  log_dir : option (list string)
}.

Definition temp_path (p : path) : path := (dirname p, basename p +:+ ".sorted").
Definition backup_path (p : path) : path :=
  path_join (dirname p ++ ["backup"]) (basename p).
Definition error_log_path (d : list string) (p : path) : path :=
  path_join d ("error_" +:+ basename p +:+ ".log").

Definition is_parquet (p : path) : bool :=
  String.eqb (lower (splitext_ext false (basename p))) ".parquet".

Definition key_cmp : sort_key -> sort_key -> comparison :=
  lex_cmp (lex_cmp cell_cmp cell_cmp) cell_cmp.

Definition key_leb : sort_key -> sort_key -> bool := cmp_leb key_cmp.

(** [df.sort_values(['time', 'latitude', 'longitude'])]: the first label
    that is no column is a [KeyError]; otherwise the rows are put in the
    order of their keys, rows of one key staying as they were. *)
Definition sort_values (df : DataFrame) : exn + DataFrame :=
  if negb (has_col "time" (columns df)) then inl (KeyError "time")
  else if negb (has_col "latitude" (columns df)) then inl (KeyError "latitude")
  else if negb (has_col "longitude" (columns df)) then inl (KeyError "longitude")
  else inr (mkDF (columns df)
                 (stable_sort (row_key (columns df)) key_leb (rows df))).

(** [chunk.to_csv(temp_path, mode, header, index=False)]: with [mode='w']
    and the header for the first chunk, with [mode='a'] and no header for
    the others.  Appending to a file that is no such CSV file gives a file
    of which nothing is known; appending where no file is creates one
    without a header. *)
Definition to_csv (fs : gmap path file) (p : path) (cols : list string)
    (chunk : list row) (first : bool) : gmap path file :=
  if first then <[p := Csv cols [chunk]]> fs
  else match fs !! p with
       | Some (Csv header pieces) => <[p := Csv header (pieces ++ [chunk])]> fs
       | Some _ => <[p := Other]> fs
       | None => <[p := Csv [] [chunk]]> fs
       end.

(** The loop over [range(0, len(df), chunk_size)]; [i] counts the writes.  A
    write that raises leaves the file as the earlier writes made it. *)
Fixpoint write_chunks (flt : faults) (p : path) (cols : list string) (i : nat)
    (cks : list (list row)) (fs : gmap path file) : gmap path file * bool :=
  match cks with
  | [] => (fs, true)
  | c :: cks' =>
      if decide (write_fails_at flt = Some i) then (fs, false)
      else write_chunks flt p cols (S i) cks' (to_csv fs p cols c (Nat.eqb i 0))
  end.

Definition succeeded (o : outcome) : bool :=
  match o with
  | Returned r => success r
  | Raised => false
  end.

Section Run.
(** pandas' [is_datetime64_any_dtype] and [to_datetime] on a column;
    [to_datetime] gives [None] when it raises. *)
Variable is_datetime64_any_dtype : list cell -> bool.
Variable to_datetime : list cell -> option (list cell).
(** What [pd.read_csv] with a chunk size, followed by [pd.concat], makes
    of a CSV file that [to_csv] calls wrote. *)
Variable read_csv : Z -> list string -> list (list row) -> exn + DataFrame.

(** Lines 139-146: the time column becomes timestamps when it can. *)
Definition normalize_time (df : DataFrame) : DataFrame :=
  if is_datetime64_any_dtype (column df "time") then df
  else match to_datetime (column df "time") with
       | Some vals => set_column df "time" vals
       | None => df
       end.

(** Reading the table, lines 113-126.  [pd.read_csv] refuses a chunk size
    below one; the chunks it yields are concatenated again. *)
Definition read_table (a : sort_args) (flt : faults) (fs : gmap path file)
    : exn + DataFrame :=
  if read_fails flt then inl ReadError
  else if negb (is_parquet (file_path a)) && (chunk_size a <? 1)%Z then inl ReadError
  else match fs !! file_path a with
       | Some (Table df) => inr df
       | Some (Csv header pieces) =>
           if is_parquet (file_path a) then inl ReadError
           else read_csv (chunk_size a) header pieces
       | _ => inl ReadError
       end.

(** Saving the sorted table to the temporary path, lines 155-165. *)
Definition save_sorted (a : sort_args) (flt : faults) (df : DataFrame)
    (fs : gmap path file) : gmap path file * option exn :=
  let tmp := temp_path (file_path a) in
  if is_parquet (file_path a) then
    match write_fails_at flt with
    | Some _ => (<[tmp := Other]> fs, Some WriteError)
    | None => (<[tmp := Table df]> fs, None)
    end
  else
    let cs := Z.min (chunk_size a) (max_memory_rows a) in
    if (cs =? 0)%Z then (fs, Some RangeStepZero)
    else if (cs <? 0)%Z then (fs, None)
    else
      match write_chunks flt tmp (columns df) 0
              (chunks (Z.to_nat cs) (rows df)) fs with
      | (fs', true) => (fs', None)
      | (fs', false) => (fs', Some WriteError)
      end.

(** [os.replace(temp_path, file_path)] *)
Definition os_replace (flt : faults) (src dst : path) (fs : gmap path file)
    : gmap path file * option exn :=
  match fs !! src with
  | None => (fs, Some ReplaceError)
  | Some f =>
      if replace_fails flt then (fs, Some ReplaceError)
      else (<[dst := f]> (delete src fs), None)
  end.

(** The body of the [try], lines 112-178: the file system it leaves, and
    the dict it returns or the exception it raises. *)
Definition try_sort (a : sort_args) (flt : faults) (fs : gmap path file)
    : gmap path file * (exn + result) :=
  match read_table a flt fs with
  | inl e => (fs, inl e)
  | inr df =>
      if negb (has_col "time" (columns df)) then
        (fs, inr (mkResult (file_path a) false (Some NoTimeColumn)))
      else
        match sort_values (normalize_time df) with
        | inl e => (fs, inl e)
        | inr sorted =>
            match save_sorted a flt sorted fs with
            | (fs1, Some e) => (fs1, inl e)
            | (fs1, None) =>
                match os_replace flt (temp_path (file_path a)) (file_path a) fs1 with
                | (fs2, Some e) => (fs2, inl e)
                | (fs2, None) => (fs2, inr (mkResult (file_path a) true None))
                end
            end
        end
  end.

(** The backup copy, lines 89-106; [None] when it raises (nothing catches
    it there). *)
Definition make_backup (a : sort_args) (flt : faults) (fs : gmap path file)
    : option (gmap path file) :=
  if backup a then
    match fs !! file_path a with
    | None => None
    | Some f =>
        if backup_fails flt then None
        else Some (<[backup_path (file_path a) := f]> fs)
    end
  else Some fs.

Definition sort_file_chronologically (a : sort_args) (flt : faults)
    (fs : gmap path file) : outcome * gmap path file :=
  match make_backup a flt fs with
  | None => (Raised, fs)
  | Some fs0 =>
      match try_sort a flt fs0 with
      | (fs1, inr r) => (Returned r, fs1)
      | (fs1, inl e) =>
          let r := mkResult (file_path a) false (Some (ExnMessage e)) in
          match log_dir a with
          | Some d =>
              if log_fails flt then (Raised, fs1)
              else (Returned r, <[error_log_path d (file_path a) := Other]> fs1)
          | None => (Returned r, fs1)
          end
      end
  end.
End Run.




(** A joined table of May 2021 out of order, with two rows on one key, and a
    table that lacks the time column. *)
Definition demo_path : path := (["joined"; "2021"], "joined_202105.csv").

Definition demo_table : DataFrame :=
  mkDF ["time"; "latitude"; "longitude"; "t2m"]
       [ [Str "2021-05-01 01:00:00"; Num 325; Num (-970); Num 11];
         [Str "2021-05-01 00:00:00"; Num 330; Num (-970); Num 12];
         [Str "2021-05-01 00:00:00"; Num 325; Num (-970); Num 13];
         [Str "2021-05-01 00:00:00"; Num 330; Num (-970); Num 14] ].

Definition no_time_table : DataFrame :=
  mkDF ["valid_time"; "latitude"; "longitude"; "t2m"]
       [ [Str "2021-05-01 00:00:00"; Num 325; Num (-970); Num 11] ].

Definition demo_args (backup : bool) : sort_args :=
  mkArgs demo_path 3 2 backup (Some ["logs"]).

(** A time column that is text and that [to_datetime] cannot convert, and
    a reader that takes the fields of a written file as they are. *)
Definition demo_is_datetime (_ : list cell) : bool := false.
Definition demo_to_datetime (_ : list cell) : option (list cell) := None.
Definition demo_read_csv (_ : Z) (header : list string) (pieces : list (list row))
    : exn + DataFrame :=
  inr (mkDF header (concat pieces)).

End Sorter.

(** ** The variable extractor *)

Module Extractor.

(** The calendar date [datetime.now()] gives. *)
Record date : Type := mkDate { date_year : nat; date_month : nat }.

Definition str_of_nat (n : nat) : string := NilEmpty.string_of_uint (Nat.to_uint n).

(** [f"{n:02d}"] *)
Definition pad2 (n : nat) : string :=
  if (n <? 10)%nat then "0" +:+ str_of_nat n else str_of_nat n.

(** *** When [int(s)] accepts a string

    Python's [int] strips white space around the text, takes one optional
    sign, and then wants decimal digits, where single underscores may stand
    between digits.  A character of a text is a code point below 256.  The
    white space [int] strips is tab to carriage return and the space, as C
    has it, and the two characters above 127 that Unicode counts as white
    space, next line (133) and no-break space (160); the separators 28 to
    31, which [str.strip] takes off, are no white space for [int].  Below
    256 the decimal digits are the ten ASCII ones. *)
Definition is_space (c : ascii) : bool :=
  let n := N_of_ascii c in
  (((9 <=? n) && (n <=? 13)) || (n =? 32) || (n =? 133) || (n =? 160))%N.

Definition is_digit (c : ascii) : bool :=
  let n := N_of_ascii c in ((48 <=? n) && (n <=? 57))%N.

Definition is_sign (c : ascii) : bool := Ascii.eqb c "+" || Ascii.eqb c "-".

Definition is_underscore (c : ascii) : bool := Ascii.eqb c "_".

Fixpoint lstrip (s : list ascii) : list ascii :=
  match s with
  | c :: s' => if is_space c then lstrip s' else s
  | [] => []
  end.

Definition strip (s : list ascii) : list ascii := rev (lstrip (rev (lstrip s))).

Definition drop_sign (s : list ascii) : list ascii :=
  match s with
  | c :: s' => if is_sign c then s' else s
  | [] => []
  end.

(** [prev] tells that the character before was a digit. *)
Fixpoint digits_ok (prev : bool) (s : list ascii) : bool :=
  match s with
  | [] => prev
  | c :: s' =>
      if is_digit c then digits_ok true s'
      else if is_underscore c then prev && digits_ok false s'
      else false
  end.

Definition int_parses (s : string) : bool :=
  digits_ok false (drop_sign (strip (list_ascii_of_string s))).

(** [os.path.splitext(name)[0]] *)
Definition splitext_root (s : string) : string :=
  substring 0 (String.length s - String.length (splitext_ext false s)) s.

(** *** What a run leaves behind *)

Inductive log_event : Type :=
| WarnNoYearMonth (base_filename : string)
| WarnNoTimeDim (var_name : string)
| WarnMultipleVariables (var_names : list string)
| ErrorProcessing (variable_name : option string)
| WarnNoVariables
| WarnFailed (failed : list string).

Inductive output : Type :=
| Wrote (p : path) (df : DataFrame)
| Logged (e : log_event).

(** A computation that writes files and log lines as it goes and returns a
    value, or [None] when an exception leaves it. *)
Definition M (A : Type) : Type := list output * option A.

Definition ret {A : Type} (x : A) : M A := ([], Some x).
Definition raise {A : Type} : M A := ([], None).
Definition tell (o : output) : M unit := ([o], Some tt).

Definition bind {A B : Type} (m : M A) (k : A -> M B) : M B :=
  match m with
  | (o, None) => (o, None)
  | (o, Some x) => let '(o', r) := k x in (o ++ o', r)
  end.

(** [try: m except Exception: handler] *)
Definition try_except {A : Type} (m : M A) (handler : M A) : M A :=
  match m with
  | (o, None) => let '(o', r) := handler in (o ++ o', r)
  | ok => ok
  end.

#[global] Arguments bind : simpl never.
#[global] Arguments try_except : simpl never.

#[global] Instance M_ret : MRet M := @ret.
#[global] Instance M_bind : MBind M := fun A B k m => bind m k.

Fixpoint for_each {A : Type} (f : A -> M unit) (l : list A) : M unit :=
  match l with
  | [] => ret tt
  | x :: l' => f x ;; for_each f l'
  end.

Definition written {A : Type} (m : M A) : list (path * DataFrame) :=
  flat_map (fun o => match o with Wrote p df => [(p, df)] | Logged _ => [] end) m.1.

Definition logged {A : Type} (m : M A) : list log_event :=
  flat_map (fun o => match o with Logged e => [e] | Wrote _ _ => [] end) m.1.

(** *** The raw file *)

(** One variable of an opened data set.  [da_columns] are the columns of
    [to_dataframe().reset_index()]; [da_steps] holds, for each step of the
    time dimension, the rows of that step, or [None] where decoding the
    step raises.  A variable without a time dimension has its rows in
    one block. *)
Record DataArray : Type := mkDA {
  da_name : string;
  da_attrs : list (string * string);
  da_dims : list string;
  da_columns : list string;
  da_steps : list (option (list row))
}.

(** [open_dataset] is [xr.open_dataset] with or without the
    [filter_by_keys={'shortName': v}], [None] when it raises; [discovered]
    is what the discovery of lines 367-382 comes up with. *)
Record RawGriddedFile : Type := mkRaw {
  grib_path : path;
  open_dataset : option string -> option (list DataArray);
  discovered : list string
}.

Record config : Type := mkConfig {
  time_chunk_size : nat;
  remove_constant_cols : bool;
  decimal_precision : option Z
}.

Fixpoint attrs_get (k : string) (attrs : list (string * string)) : option string :=
  match attrs with
  | [] => None
  | (k', v) :: attrs' => if String.eqb k k' then Some v else attrs_get k attrs'
  end.

(** [attrs.get('GRIB_shortName', attrs.get('shortName', var_name))] *)
Definition short_name (da : DataArray) : string :=
  match attrs_get "GRIB_shortName" (da_attrs da) with
  | Some s => s
  | None =>
      match attrs_get "shortName" (da_attrs da) with
      | Some s => s
      | None => da_name da
      end
  end.

(** *** [process_variable_data] *)

Definition cols_to_check : list string := ["number"; "step"; "surface"].

(** Lines 176-181. *)
Definition cols_to_remove (df : DataFrame) : list string :=
  List.filter (fun c => has_col c (columns df) && Nat.eqb (nunique (column df c)) 1)
              cols_to_check.

(** Lines 175-185. *)
Definition remove_constant_columns (df : DataFrame) : DataFrame :=
  match cols_to_remove df with
  | [] => df
  | rm => drop_columns rm df
  end.

(** Lines 188-189. *)
Definition rename_value (var_name : string) (df : DataFrame) : DataFrame :=
  if has_col var_name (columns df) then rename_column var_name "value" df else df.

Definition is_numeric_dtype (col : list cell) : bool :=
  forallb (fun c => match c with Str _ => false | _ => true end) col.

Section Rounding.
(** [round(x, p)] on one coordinate value. *)
Variable round_value : Z -> cell -> cell.

Definition round_column (p : Z) (df : DataFrame) (c : string) : DataFrame :=
  if has_col c (columns df) && is_numeric_dtype (column df c)
  then set_column df c (List.map (round_value p) (column df c))
  else df.

(** [round_coordinates], lines 242-274. *)
Definition round_coordinates (p : Z) (df : DataFrame) : DataFrame :=
  fold_left (round_column p) 
    (["latitude"; "lat"; "Latitude"; "Lat"] ++ ["longitude"; "lon"; "Longitude"; "Lon"])
    df.

(** What happens to one frame between [to_dataframe] and [to_csv]. *)
Definition prepare_frame (cfg : config) (var_name : string) (df : DataFrame) : DataFrame :=
  let df1 := match decimal_precision cfg with
             | Some p => round_coordinates p df
             | None => df
             end in
  let df2 := if remove_constant_cols cfg then remove_constant_columns df1 else df1 in
  rename_value var_name df2.

Definition time_dim_of (dims : list string) : option string :=
  if has_col "time" dims then Some "time"
  else if has_col "time1" dims then Some "time1"
  else if has_col "time2" dims then Some "time2"
  else None.

(** [chunk_data.to_dataframe().reset_index()] *)
Fixpoint decode_steps (steps : list (option (list row))) : option (list row) :=
  match steps with
  | [] => Some []
  | None :: _ => None
  | Some rs :: steps' => option_map (app rs) (decode_steps steps')
  end.

Definition to_dataframe (cols : list string) (steps : list (option (list row)))
    : M DataFrame :=
  match decode_steps steps with
  | Some rs => ret (mkDF cols rs)
  | None => raise
  end.

Definition var_output_dir (output_dir : list string) (year month var_name : string)
    : list string :=
  output_dir ++ [year; month; var_name].

Definition chunk_filename (year month var_name : string) (chunk_start chunk_end : nat)
    : string :=
  year +:+ month +:+ "_" +:+ var_name +:+ "_chunk_" +:+ str_of_nat chunk_start
       +:+ "_" +:+ str_of_nat chunk_end +:+ ".csv".

Definition whole_filename (year month var_name : string) : string :=
  year +:+ month +:+ "_" +:+ var_name +:+ ".csv".

(** The loop of lines 149-201 over the pieces of the time dimension; [i]
    is the index of the first step of the next piece. *)
Fixpoint write_time_chunks (cfg : config) (da : DataArray) (dir : list string)
    (year month var_name : string) (time_steps i : nat)
    (pieces : list (list (option (list row)))) : M unit :=
  match pieces with
  | [] => ret tt
  | piece :: pieces' =>
      let chunk_start := i in
      let chunk_end := Nat.min (i + time_chunk_size cfg) time_steps in
      df ← to_dataframe (da_columns da) piece;
      tell (Wrote (path_join dir (chunk_filename year month var_name chunk_start chunk_end))
                  (prepare_frame cfg var_name df)) ;;
      write_time_chunks cfg da dir year month var_name time_steps
        (i + time_chunk_size cfg) pieces'
  end.

Definition process_variable_data (da : DataArray) (year month var_name : string)
    (output_dir : list string) (cfg : config) : M unit :=
  let dir := var_output_dir output_dir year month var_name in
  match time_dim_of (da_dims da) with
  | Some _ =>
      let time_steps := length (da_steps da) in
      if Nat.eqb (time_chunk_size cfg) 0 then raise
      else write_time_chunks cfg da dir year month var_name time_steps 0
             (chunks (time_chunk_size cfg) (da_steps da))
  | None =>
      tell (Logged (WarnNoTimeDim var_name)) ;;
      df ← to_dataframe (da_columns da) (da_steps da);
      tell (Wrote (path_join dir (whole_filename year month var_name))
                  (prepare_frame cfg var_name df))
  end.

(** What [process_variable_data] writes for the variable [v] of the period
    [(year, month)]: files of the directory of that period and variable,
    each one a decoded frame after [prepare_frame]. *)
Definition written_for (da : DataArray) (output_dir : list string) (cfg : config)
    (year month v : string) (o : output) : Prop :=
  match o with
  | Wrote p out =>
      dirname p = var_output_dir output_dir year month v
      /\ exists df, columns df = da_columns da
                    /\ out = prepare_frame cfg v df
  | Logged _ => True
  end.

(** Everything [decode_and_write] writes lies in a variable directory of
    the period it was given. *)
Definition under_period (output_dir : list string) (year month : string)
    (o : output) : Prop :=
  match o with
  | Wrote p _ => exists v, dirname p = output_dir ++ [year; month; v]
  | Logged _ => True
  end.

(** *** [process_era5_variable] *)

(** Lines 49-61: the period is read off the name when [int] takes both
    slices, and is today's otherwise. *)
Definition name_period (base_filename : string) : option (string * string) :=
  let year := substring 0 4 base_filename in
  let month := substring 4 2 base_filename in
  if int_parses year && int_parses month then Some (year, month) else None.

Definition current_period (now : date) : string * string :=
  (str_of_nat (date_year now), pad2 (date_month now)).

Definition extract_year_month (base_filename : string) (now : date) : M (string * string) :=
  match name_period base_filename with
  | Some ym => ret ym
  | None =>
      tell (Logged (WarnNoYearMonth base_filename)) ;;
      ret (current_period now)
  end.

(** The period the outputs of a file go under. *)
Definition period (base_filename : string) (now : date) : string * string :=
  match name_period base_filename with
  | Some ym => ym
  | None => current_period now
  end.

Definition truthy (s : option string) : option string :=
  match s with
  | Some EmptyString => None
  | other => other
  end.

Definition find_var (name : string) (ds : list DataArray) : option DataArray :=
  List.find (fun da => String.eqb (da_name da) name) ds.

(** The body of the [try], lines 66-116. *)
Definition decode_and_write (raw : RawGriddedFile) (output_dir : list string)
    (variable_name : option string) (cfg : config) (year month : string) : M bool :=
  match open_dataset raw (truthy variable_name) with
  | None => raise
  | Some ds =>
      let var_names := List.map da_name ds in
      match match truthy variable_name with
            | Some v => option_map (pair v) (find_var v ds)
            | None => None
            end with
      | Some (v, da) =>
          process_variable_data da year month v output_dir cfg ;; ret true
      | None =>
          match ds with
          | [da] =>
              process_variable_data da year month (short_name da) output_dir cfg ;;
              ret true
          | _ =>
              tell (Logged (WarnMultipleVariables var_names)) ;;
              for_each (fun da =>
                process_variable_data da year month (short_name da) output_dir cfg) ds ;;
              ret true
          end
      end
  end.

Definition process_era5_variable (raw : RawGriddedFile) (output_dir : list string)
    (variable_name : option string) (cfg : config) (now : date) : M bool :=
  let base_filename := splitext_root (basename (grib_path raw)) in
  '(year, month) ← extract_year_month base_filename now;
  try_except
    (decode_and_write raw output_dir variable_name cfg year month)
    (tell (Logged (ErrorProcessing variable_name)) ;; ret false).

(** The variable [v] of the file decodes: the body of the [try] runs to
    its end. *)
Definition decodes (raw : RawGriddedFile) (output_dir : list string)
    (cfg : config) (now : date) (v : string) : bool :=
  let ym := period (splitext_root (basename (grib_path raw))) now in
  match (decode_and_write raw output_dir (Some v) cfg ym.1 ym.2).2 with
  | Some _ => true
  | None => false
  end.

(** *** [process_era5_file] *)

(** The loop of lines 407-417.  Each call of [process_era5_variable] reads
    the clock for itself: [clock i] is the date [datetime.now()] gives in
    the call for the variable at position [i]. *)
Fixpoint process_each (raw : RawGriddedFile) (output_dir : list string)
    (cfg : config) (clock : nat -> date) (i : nat) (vars : list string)
    : M (list string * list string) :=
  match vars with
  | [] => ret ([], [])
  | v :: vars' =>
      ok ← process_era5_variable raw output_dir (Some v) cfg (clock i);
      '(successful, failed) ← process_each raw output_dir cfg clock (S i) vars';
      ret (if (ok : bool) then (v :: successful, failed) else (successful, v :: failed))
  end.

(** Lines 367-397: which variables the file is asked for. *)
Definition variables_to_process (raw : RawGriddedFile)
    (variables exclude_variables : option (list string)) : list string :=
  let chosen := match variables with
                | None => discovered raw
                | Some vs => vs
                end in
  match exclude_variables with
  | Some ex => List.filter (fun v => negb (has_col v ex)) chosen
  | None => chosen
  end.

Definition process_era5_file (raw : RawGriddedFile) (output_dir : list string)
    (variables exclude_variables : option (list string))
    (cfg : config) (clock : nat -> date) : M (list string * list string) :=
  match variables_to_process raw variables exclude_variables with
  | [] => tell (Logged WarnNoVariables) ;; ret ([], [])
  | vars =>
      '(successful, failed) ← process_each raw output_dir cfg clock 0 vars;
      (match failed with
       | [] => ret tt
       | _ => tell (Logged (WarnFailed failed))
       end) ;;
      ret (successful, failed)
  end.

(** The script run as a program: the lists [process_era5_file] returns are
    dropped, and the exit status is 0 unless an exception leaves [main]. *)
Definition main (raw : RawGriddedFile) (output_dir : list string)
    (variables exclude_variables : option (list string))
    (cfg : config) (clock : nat -> date) : list output * Z :=
  match process_era5_file raw output_dir variables exclude_variables cfg clock with
  | (o, Some _) => (o, 0%Z)
  | (o, None) => (o, 1%Z)
  end.
End Rounding.

(** A numeric YYYYMM in the narrow sense of the words: six decimal
    digits. *)
Definition is_yyyymm (s : string) : bool :=
  Nat.eqb (String.length s) 6 && forallb is_digit (list_ascii_of_string s).

(** The first time chunk of a 2 m temperature field on two grid points, as
    cfgrib hands it over: one member, one step, one surface, one hour. *)
Definition demo_chunk : DataFrame :=
  mkDF ["time"; "latitude"; "longitude"; "number"; "step"; "surface"; "valid_time"; "t2m"]
       [ [Str "2021-05-01"; Num 325; Num (-970); Num 0; Num 0; Num 0; Str "2021-05-01"; Num 290];
         [Str "2021-05-01"; Num 330; Num (-970); Num 0; Num 0; Num 0; Str "2021-05-01"; Num 291] ].

Definition demo_config : config := mkConfig 24 true None.

Definition demo_da : DataArray :=
  mkDA "t2m" [("GRIB_shortName", "2t")] ["time"; "latitude"; "longitude"]
       (columns demo_chunk) [Some (rows demo_chunk)].

(** A file named with a dash between year and month. *)
Definition dashed_raw : RawGriddedFile :=
  mkRaw (["gribs"], "2021-05.grib") (fun _ => Some [demo_da]) ["2t"].

(** A file none of whose variables can be opened. *)
Definition corrupt_raw : RawGriddedFile :=
  mkRaw (["gribs"], "202105.grib") (fun _ => None) ["2t"; "10u"].

Definition demo_now : date := mkDate 2026 11.

(** A clock that stays in November 2026, and one on which the month turns
    after the first variable. *)
Definition demo_clock (_ : nat) : date := demo_now.
Definition turning_clock (i : nat) : date :=
  match i with
  | O => mkDate 2026 11
  | _ => mkDate 2026 12
  end.

Definition no_rounding (_ : Z) (c : cell) : cell := c.

End Extractor.

(** ** The orchestrator's view of the extractor *)

Module Orchestrator.

(** The list arguments of [run_converter] reach the command line only when
    they are not empty. *)
Definition cli_list (l : option (list string)) : option (list string) :=
  match l with
  | Some [] => None
  | other => other
  end.

Record conversion : Type := mkConversion {
  conv_success : bool;
  conv_outputs : list Extractor.output
}.

Section Converter.
Variable round_value : Z -> cell -> cell.

(** [run_converter], lines 121-187: the converter runs as a process of its
    own; [popen_raises] is the case in which it cannot be started. *)
Definition run_converter (popen_raises : bool) (raw : Extractor.RawGriddedFile)
    (output_dir : list string) (variables exclude_variables : option (list string))
    (cfg : Extractor.config) (clock : nat -> Extractor.date) : conversion :=
  if popen_raises then mkConversion false []
  else
    let '(o, returncode) :=
      Extractor.main round_value raw output_dir
        (cli_list variables) (cli_list exclude_variables) cfg clock in
    mkConversion (returncode =? 0)%Z o.

(** The dict [process_grib_file] hands back to the pipeline. *)
Record grib_result : Type := mkGribResult {
  gr_file : path;
  gr_year : nat;
  gr_month : nat;
  gr_success : bool
}.

Definition process_grib_file (popen_raises : bool) (raw : Extractor.RawGriddedFile)
    (year month : nat) (processed_dir : list string)
    (variables exclude_variables : option (list string))
    (cfg : Extractor.config) (clock : nat -> Extractor.date) : grib_result :=
  let c := run_converter popen_raises raw processed_dir variables exclude_variables cfg clock in
  mkGribResult (Extractor.grib_path raw) year month (conv_success c).
End Converter.

End Orchestrator.

(** ** The coordinate-key joiner *)

Module Joiner.

Definition DEFAULT_EXCLUDE_VARS : list string :=
  ["10fg"; "cbh"; "cin"; "cp"; "i10fg"; "lsp"; "tp"; "vimd"].

(** One CSV file of a variable directory: its table, or [None] when
    [pd.read_csv] raises on it. *)
Definition csv_file : Type := option DataFrame.

(** [var_files]: variable name to files, in the order the names were first
    met.  The names are the keys of a dict, so no name comes twice. *)
Definition var_files_t : Type := list (string * list csv_file).

(** *** [inspect_file_structure] *)

Record structure : Type := mkStructure {
  time_col : option string;
  lat_col : option string;
  lon_col : option string;
  value_col : option string;
  all_columns : list string
}.

Definition rev_string (s : string) : string :=
  string_of_list_ascii (rev (list_ascii_of_string s)).

Definition is_time_label (c : string) : bool := has_col (lower c) ["time"; "time1"; "time2"].
Definition is_lat_label (c : string) : bool := has_col (lower c) ["latitude"; "lat"].
Definition is_lon_label (c : string) : bool := has_col (lower c) ["longitude"; "lon"].

Definition common_meta_cols : list string :=
  ["number"; "step"; "surface"; "valid_time"; "level"].

(** [l[-1]] when [l] is not empty. *)
Definition last_opt {A : Type} (l : list A) : option A := head (rev l).

Definition guess_value_col (var_name : string) (cols : list string) : option string :=
  if has_col "value" cols then Some "value"
  else if has_col var_name cols then Some var_name
  else if has_col (lower var_name) cols then Some (lower var_name)
  else if has_col (var_name +:+ "m") cols then Some (var_name +:+ "m")
  else if has_col (rev_string var_name) cols then Some (rev_string var_name)
  else
    let time_cols := List.filter is_time_label cols in
    let lat_cols := List.filter is_lat_label cols in
    let lon_cols := List.filter is_lon_label cols in
    last_opt (List.filter
                (fun c => negb (has_col c (time_cols ++ lat_cols ++ lon_cols ++ common_meta_cols)))
                cols).

(** [var_name] is the name of the directory the file lies in. *)
Definition inspect_file_structure (var_name : string) (f : csv_file) : option structure :=
  match f with
  | None => None
  | Some df =>
      let cols := columns df in
      Some (mkStructure (head (List.filter is_time_label cols))
                        (head (List.filter is_lat_label cols))
                        (head (List.filter is_lon_label cols))
                        (guess_value_col var_name cols)
                        cols)
  end.

(** *** [get_variable_metadata] *)

Definition var_metadata_t : Type := list (string * structure).

Fixpoint get_variable_metadata (var_files : var_files_t) : var_metadata_t :=
  match var_files with
  | [] => []
  | (var_name, files) :: rest =>
      match files with
      | [] => get_variable_metadata rest
      | sample_file :: _ =>
          match inspect_file_structure var_name sample_file with
          | None => get_variable_metadata rest
          | Some st => (var_name, st) :: get_variable_metadata rest
          end
      end
  end.

Fixpoint dict_get {A : Type} (k : string) (d : list (string * A)) : option A :=
  match d with
  | [] => None
  | (k', v) :: d' => if String.eqb k k' then Some v else dict_get k d'
  end.

(** *** [identify_join_columns] *)

(** A value that is not [None] and not the empty string. *)
Definition truthy (s : option string) : option string :=
  match s with
  | Some EmptyString => None
  | other => other
  end.

(** [counts[col] = counts.get(col, 0) + 1] on a dict that keeps the order in
    which its keys came in. *)
Fixpoint count_add (c : string) (counts : list (string * nat)) : list (string * nat) :=
  match counts with
  | [] => [(c, 1%nat)]
  | (c', n) :: rest =>
      if String.eqb c c' then (c', S n) :: rest else (c', n) :: count_add c rest
  end.

Definition count_all (cols : list string) : list (string * nat) :=
  fold_left (fun counts c => count_add c counts) cols [].

(** [max(items, key=lambda x: x[1])]: the first item with the largest count. *)
Fixpoint max_item (best : string * nat) (items : list (string * nat)) : string * nat :=
  match items with
  | [] => best
  | x :: rest => if (snd best <? snd x)%nat then max_item x rest else max_item best rest
  end.

Definition most_common (default : string) (cols : list string) : string :=
  match count_all cols with
  | [] => default
  | x :: rest => fst (max_item x rest)
  end.

Record join_cols_t : Type := mkJoinCols {
  jc_time : string;
  jc_lat : string;
  jc_lon : string
}.

Definition all_cols_of (role : structure -> option string) (var_metadata : var_metadata_t)
    : list string :=
  omap (fun vm => truthy (role vm.2)) var_metadata.

Definition identify_join_columns (var_metadata : var_metadata_t) : join_cols_t :=
  mkJoinCols (most_common "time" (all_cols_of time_col var_metadata))
             (most_common "latitude" (all_cols_of lat_col var_metadata))
             (most_common "longitude" (all_cols_of lon_col var_metadata)).

(** *** [join_data_incrementally]: one intermediate file per variable *)

Inductive log_event : Type :=
| WarnNoMetadata (var_name : string)
| WarnMissingCoordinates (var_name : string)
| WarnMissingValue (var_name : string)
| ErrorNoVariableData
| ErrorBaseFileMissing (var_name : string)
| WarnVariableFileMissing (var_name : string)
| ErrorMerging (var_name : string)
| ErrorFinalMerge.

(** [a or b] on column names. *)
Definition or_else (a : option string) (b : string) : string :=
  match truthy a with
  | Some x => x
  | None => b
  end.

Definition has_coords (tc lc oc : string) (cols : list string) : bool :=
  has_col tc cols && has_col lc cols && has_col oc cols.

(** Lines 284-313: the four columns to take from one file, [None] when the
    file is skipped. *)
Definition resolve_columns (var_name : string) (tc lc oc vc : string) (df : DataFrame)
    : option (string * string * string * string) :=
  let cols := columns df in
  let '(tc, lc, oc, vc) :=
    if negb (has_coords tc lc oc cols) then
      match inspect_file_structure var_name (Some df) with
      | Some fs => (or_else (time_col fs) tc, or_else (lat_col fs) lc,
                    or_else (lon_col fs) oc, or_else (value_col fs) vc)
      | None => (tc, lc, oc, vc)
      end
    else (tc, lc, oc, vc) in
  if negb (has_coords tc lc oc cols) then None
  else if negb (has_col vc cols) then
    match last_opt (List.filter
                      (fun c => negb (has_col c [tc; lc; oc; "number"; "step"; "surface"]))
                      cols) with
    | Some v => Some (tc, lc, oc, v)
    | None => None
    end
  else Some (tc, lc, oc, vc).

(** The [rename_map] of lines 323-328 as a function on labels; in a dict
    display the later entry of a repeated key is the one that counts. *)
Definition rename_label (tc lc oc vc : string) (c : string) : string :=
  if String.eqb c vc then "value"
  else if String.eqb c oc then "longitude"
  else if String.eqb c lc then "latitude"
  else if String.eqb c tc then "time"
  else c.

(** Lines 315-329: the four columns, filtered by time, under their new names. *)
Definition normalize_file (time_filter : option (cell -> bool))
    (tc lc oc vc : string) (df : DataFrame) : DataFrame :=
  let labels := [tc; lc; oc; vc] in
  let picked := List.map (fun r => List.map (fun c => get_cell (columns df) c r) labels)
                         (rows df) in
  let kept := match time_filter with
              | Some keep => List.filter (fun r => keep (nth 0 r Null)) picked
              | None => picked
              end in
  mkDF (List.map (rename_label tc lc oc vc) labels) kept.

(** The chunks held in memory, their row count, and the intermediate file
    of the variable ([None] while it does not exist). *)
Record stage_state : Type := mkStage {
  all_chunks : list DataFrame;
  total_rows : nat;
  staged : option DataFrame
}.

(** [pd.concat(all_chunks, ignore_index=True)] for chunks of one header. *)
Definition concat_frames (fs : list DataFrame) : DataFrame :=
  match fs with
  | [] => mkDF [] []
  | f :: _ => mkDF (columns f) (flat_map rows fs)
  end.

(** [to_csv]: with the header when the file is new, rows only when it is
    appended to. *)
Definition write_or_append (old : option DataFrame) (df : DataFrame) : option DataFrame :=
  match old with
  | Some o => Some (mkDF (columns o) (rows o ++ rows df))
  | None => Some df
  end.

Definition flush (st : stage_state) : stage_state :=
  mkStage [] 0 (write_or_append (staged st) (concat_frames (all_chunks st))).

(** Lines 334-357 for one chunk. *)
Definition add_chunk (max_rows_in_memory : Z) (st : stage_state) (chunk : DataFrame)
    : stage_state :=
  let st' := mkStage (all_chunks st ++ [chunk])
                     (total_rows st + length (rows chunk))
                     (staged st) in
  if (max_rows_in_memory <=? Z.of_nat (total_rows st'))%Z then flush st' else st'.

(** Lines 279-371 for one file.  A file that cannot be read, lacks its
    columns, or meets [range] with a step of zero leaves the state as it
    is. *)
Definition stage_file (var_name : string) (tc lc oc vc : string)
    (time_filter : option (cell -> bool)) (chunk_size max_rows_in_memory : Z)
    (st : stage_state) (f : csv_file) : stage_state :=
  match f with
  | None => st
  | Some df =>
      match resolve_columns var_name tc lc oc vc df with
      | None => st
      | Some (tc', lc', oc', vc') =>
          let nf := normalize_file time_filter tc' lc' oc' vc' df in
          if (chunk_size <=? 0)%Z then st
          else fold_left (add_chunk max_rows_in_memory)
                 (List.map (mkDF (columns nf)) (chunks (Z.to_nat chunk_size) (rows nf)))
                 st
      end
  end.

(** The rows one file adds to the intermediate file of its variable. *)
Definition file_rows (var_name : string) (tc lc oc vc : string)
    (time_filter : option (cell -> bool)) (chunk_size : Z) (f : csv_file) : list row :=
  match f with
  | None => []
  | Some df =>
      match resolve_columns var_name tc lc oc vc df with
      | None => []
      | Some (tc', lc', oc', vc') =>
          if (chunk_size <=? 0)%Z then []
          else rows (normalize_file time_filter tc' lc' oc' vc' df)
      end
  end.

(** The rows staged so far: those of the file, then those still in memory. *)
Definition content (st : stage_state) : list row :=
  match staged st with
  | Some s => rows s
  | None => []
  end ++ flat_map rows (all_chunks st).

(** The header of a renamed frame. *)
Definition staged_header (h : list string) : Prop :=
  exists tc lc oc vc, h = List.map (rename_label tc lc oc vc) [tc; lc; oc; vc].

(** The headers met while staging are headers of renamed frames. *)
Definition headers_ok (st : stage_state) : Prop :=
  Forall (fun c => staged_header (columns c)) (all_chunks st)
  /\ forall s, staged st = Some s -> staged_header (columns s).

(** The coordinates of a staged row: its first three cells. *)
Definition coords_of (r : row) : sort_key := (nth 0 r Null, nth 1 r Null, nth 2 r Null).

(** The directory [temp_joins] beside the output file: the intermediate
    file [<var_name>_data.csv] of a variable, under the variable's name.
    All joins that write into one output directory share it, and a join
    that returns [False] leaves its files there. *)
Abbreviation temp_dir := (gmap string DataFrame).

(** Lines 274-388: all files of one variable; what is left in memory goes
    to the file at the end.  [old] is the intermediate file of the
    variable as the run finds it: the rows staged are appended to it. *)
Definition stage_variable (var_name : string) (tc lc oc vc : string)
    (time_filter : option (cell -> bool)) (chunk_size max_rows_in_memory : Z)
    (old : option DataFrame) (files : list csv_file) : option DataFrame :=
  let st := fold_left (stage_file var_name tc lc oc vc time_filter chunk_size max_rows_in_memory)
                      files (mkStage [] 0 old) in
  match all_chunks st with
  | [] => staged st
  | _ => staged (flush st)
  end.

(** Lines 234-241. *)
Definition select_variables (var_files : var_files_t) (excluded_vars : list string)
    (include_vars : option (list string)) : var_files_t :=
  let included := match include_vars with
                  | Some inc => List.filter (fun vf => has_col vf.1 inc) var_files
                  | None => var_files
                  end in
  List.filter (fun vf => negb (has_col vf.1 excluded_vars)) included.

(** Lines 253-388: [var_output_files], with each intermediate file's content
    in place of its path, and the warnings for the variables left out. *)
Fixpoint stage_all (var_metadata : var_metadata_t) (time_filter : option (cell -> bool))
    (chunk_size max_rows_in_memory : Z) (temp_joins : temp_dir) (var_files : var_files_t)
    : list (string * option DataFrame) * list log_event :=
  match var_files with
  | [] => ([], [])
  | (var_name, files) :: rest =>
      let '(out, log) := stage_all var_metadata time_filter chunk_size
                           max_rows_in_memory temp_joins rest in
      match dict_get var_name var_metadata with
      | None => (out, WarnNoMetadata var_name :: log)
      | Some meta =>
          match truthy (time_col meta), truthy (lat_col meta), truthy (lon_col meta) with
          | Some tc, Some lc, Some oc =>
              match truthy (value_col meta) with
              | Some vc =>
                  ((var_name,
                    stage_variable var_name tc lc oc vc time_filter chunk_size
                      max_rows_in_memory (temp_joins !! var_name) files) :: out, log)
              | None => (out, WarnMissingValue var_name :: log)
              end
          | _, _, _ => (out, WarnMissingCoordinates var_name :: log)
          end
      end
  end.

(** *** [join_data_incrementally]: the merge *)

(** [df.drop_duplicates(['time', 'latitude', 'longitude'])]: of the rows of
    one key the first stays. *)
Fixpoint drop_duplicates_from (cols : list string) (seen : list sort_key)
    (l : list row) : list row :=
  match l with
  | [] => []
  | r :: l' =>
      if existsb (fun k => bool_decide (k = row_key cols r)) seen
      then drop_duplicates_from cols seen l'
      else r :: drop_duplicates_from cols (row_key cols r :: seen) l'
  end.

Definition drop_duplicates (df : DataFrame) : DataFrame :=
  mkDF (columns df) (drop_duplicates_from (columns df) [] (rows df)).

(** [pd.merge(base_df, var_df, on=['time', 'latitude', 'longitude'],
    how='left')] where [var_df] has the three keys and the column
    [var_name]: the rows of [base_df] in their order, each once for every
    row of [var_df] on its key, or once with a missing value when there is
    none. *)
Definition merge_left (base_df : DataFrame) (var_name : string) (var_df : DataFrame)
    : DataFrame :=
  mkDF (columns base_df ++ [var_name])
       (flat_map
          (fun r =>
             match List.filter
                     (fun r' => bool_decide (row_key (columns var_df) r'
                                             = row_key (columns base_df) r))
                     (rows var_df) with
             | [] => [r ++ [Null]]
             | matches =>
                 List.map (fun r' => r ++ [get_cell (columns var_df) var_name r']) matches
             end)
          (rows base_df)).

#[global] Arguments merge_left : simpl never.

(** Lines 430-438: the intermediate file read back with its value column
    named after the variable; [None] when a label is missing or comes
    twice, which raises in the selection or in the merge. *)
Definition read_variable (var_name : string) (var_file : DataFrame) : option DataFrame :=
  if has_col var_name key_columns then None
  else select_cols (key_columns ++ [var_name]) (rename_column "value" var_name var_file).

(** Lines 422-458 for one variable.  [merge_raises base_df var_df] tells
    that [pd.merge] raises on the two frames, as it does when a key column
    holds numbers on one side and text on the other; the variable is then
    logged and left out, like one whose file cannot be read. *)
Definition merge_variable (merge_raises : DataFrame -> DataFrame -> bool)
    (acc : DataFrame * list log_event)
    (vf : string * option DataFrame) : DataFrame * list log_event :=
  let '(base_df, log) := acc in
  let '(var_name, var_file) := vf in
  match var_file with
  | None => (base_df, log ++ [WarnVariableFileMissing var_name])
  | Some sf =>
      match read_variable var_name sf with
      | None => (base_df, log ++ [ErrorMerging var_name])
      | Some var_df =>
          if merge_raises base_df var_df then (base_df, log ++ [ErrorMerging var_name])
          else (merge_left base_df var_name var_df, log)
      end
  end.

(** The table of a variable as the joiner takes it from the variable's
    files: rows of time, latitude, longitude and value, read under the
    column names found for each file. *)
Definition variable_rows (var_metadata : var_metadata_t)
    (time_filter : option (cell -> bool)) (chunk_size : Z)
    (var_name : string) (files : list csv_file) : list row :=
  match dict_get var_name var_metadata with
  | Some meta =>
      match truthy (time_col meta), truthy (lat_col meta), truthy (lon_col meta),
            truthy (value_col meta) with
      | Some tc, Some lc, Some oc, Some vc =>
          flat_map (file_rows var_name tc lc oc vc time_filter chunk_size) files
      | _, _, _, _ => []
      end
  | None => []
  end.

(** What the column of a variable holds on a row of key [k]: the value of
    a row of the variable on that key, or the missing value when the
    variable has no such row. *)
Definition value_from (vrows : list row) (k : sort_key) (x : cell) : Prop :=
  (~ In k (List.map coords_of vrows) /\ x = Null)
  \/ exists rd, In rd vrows /\ coords_of rd = k /\ x = nth 3 rd Null.

(** The intermediate file of a variable can be read back: it exists, and
    has the key columns and the value column.  A variable named like a
    key column is never read back. *)
Definition mergeable (vf : string * option DataFrame) : bool :=
  match vf.2 with
  | Some sf => match read_variable vf.1 sf with Some _ => true | None => false end
  | None => false
  end.

(** The loop adds a column for the variable when the frame it has
    merged so far is [base_df]. *)
Definition merges (merge_raises : DataFrame -> DataFrame -> bool) (base_df : DataFrame)
    (vf : string * option DataFrame) : bool :=
  match vf.2 with
  | Some sf =>
      match read_variable vf.1 sf with
      | Some var_df => negb (merge_raises base_df var_df)
      | None => false
      end
  | None => false
  end.

(** The frame the loop has merged when it has gone through [vofs],
    starting from [base_df]. *)
Definition frame_after (merge_raises : DataFrame -> DataFrame -> bool)
    (base_df : DataFrame) (vofs : list (string * option DataFrame)) : DataFrame :=
  (fold_left (merge_variable merge_raises) vofs (base_df, [])).1.

(** The variables the merge loop adds a column for, in the order of the
    loop. *)
Fixpoint merged_names (merge_raises : DataFrame -> DataFrame -> bool) (base_df : DataFrame)
    (vofs : list (string * option DataFrame)) : list string :=
  match vofs with
  | [] => []
  | vf :: rest =>
      let names := merged_names merge_raises (frame_after merge_raises base_df [vf]) rest in
      if merges merge_raises base_df vf then vf.1 :: names else names
  end.

(** The rows of the variable on the key of a base row. *)
Definition matches_of (base_df var_df : DataFrame) (r : row) : list row :=
  List.filter (fun r' => bool_decide (row_key (columns var_df) r'
                                      = row_key (columns base_df) r))
              (rows var_df).

(** What a merged variable puts into its column: on a row whose key the
    variable has, a value of the variable on that key; on any other row, the
    missing value. *)
Definition cell_from (var_df : DataFrame) (v : string) (k : sort_key) (x : cell) : Prop :=
  (~ In k (keys_of var_df) /\ x = Null)
  \/ exists rd, In rd (rows var_df)
                /\ row_key (columns var_df) rd = k
                /\ x = get_cell (columns var_df) v rd.

(** How often a name was counted. *)
Definition count_of (c : string) (counts : list (string * nat)) : nat :=
  match dict_get c counts with
  | Some n => n
  | None => 0%nat
  end.

(** The event the merge loop logs for a variable it leaves out. *)
Definition skip_event (v : string) (f : option DataFrame) : log_event :=
  match f with
  | None => WarnVariableFileMissing v
  | Some _ => ErrorMerging v
  end.

Record join_result : Type := mkJoin {
  ok : bool;
  output : option DataFrame;
  log : list log_event
}.

(** Lines 390-518, on the intermediate files.  [save_fails]: writing the
    output file raises. *)
Definition merge_all (merge_raises : DataFrame -> DataFrame -> bool)
    (var_output_files : list (string * option DataFrame))
    (max_rows_in_memory : Z) (save_fails : bool) : join_result :=
  match var_output_files with
  | [] => mkJoin false None [ErrorNoVariableData]
  | (base_var, base_file) :: _ =>
      match base_file with
      | None => mkJoin false None [ErrorBaseFileMissing base_var]
      | Some bf =>
          if (max_rows_in_memory <? 1)%Z then mkJoin false None [ErrorFinalMerge]
          else
            match select_cols key_columns bf with
            | None => mkJoin false None [ErrorFinalMerge]
            | Some coords =>
                let '(base_df, log) :=
                  fold_left (merge_variable merge_raises) var_output_files
                            (drop_duplicates coords, []) in
                if save_fails then mkJoin false None (log ++ [ErrorFinalMerge])
                else mkJoin true (Some base_df) log
            end
      end
  end.

(** The intermediate files of a run, as [var_output_files] names them. *)
Definition var_output_files_of (temp_joins : temp_dir) (var_files : var_files_t)
    (var_metadata : var_metadata_t) (excluded_vars : list string) (chunk_size : Z)
    (time_filter : option (cell -> bool)) (include_vars : option (list string))
    (max_rows_in_memory : Z) : list (string * option DataFrame) :=
  (stage_all var_metadata time_filter chunk_size max_rows_in_memory temp_joins
     (select_variables var_files excluded_vars include_vars)).1.

(** [join_cols] is a parameter of the function that its body does not use.
    [temp_joins] is the directory of intermediate files as the run finds
    it. *)
Definition join_data_incrementally (temp_joins : temp_dir)
    (merge_raises : DataFrame -> DataFrame -> bool) (var_files : var_files_t)
    (var_metadata : var_metadata_t) (excluded_vars : list string)
    (join_cols : join_cols_t) (chunk_size : Z) (time_filter : option (cell -> bool))
    (include_vars : option (list string)) (max_rows_in_memory : Z)
    (save_fails : bool) : join_result :=
  let selected := select_variables var_files excluded_vars include_vars in
  let '(var_output_files, warnings) :=
    stage_all var_metadata time_filter chunk_size max_rows_in_memory temp_joins selected in
  let r := merge_all merge_raises var_output_files max_rows_in_memory save_fails in
  mkJoin (ok r) (output r) (warnings ++ log r).

(** The directory of intermediate files as the run leaves it: a run that
    returns [True] has removed the files of its variables (lines 496-500);
    any other run leaves them as the staging made them. *)
Definition temp_joins_after (temp_joins : temp_dir)
    (merge_raises : DataFrame -> DataFrame -> bool) (var_files : var_files_t)
    (var_metadata : var_metadata_t) (excluded_vars : list string)
    (join_cols : join_cols_t) (chunk_size : Z) (time_filter : option (cell -> bool))
    (include_vars : option (list string)) (max_rows_in_memory : Z)
    (save_fails : bool) : temp_dir :=
  let vofs := var_output_files_of temp_joins var_files var_metadata excluded_vars
                chunk_size time_filter include_vars max_rows_in_memory in
  if ok (join_data_incrementally temp_joins merge_raises var_files var_metadata
           excluded_vars join_cols chunk_size time_filter include_vars
           max_rows_in_memory save_fails)
  then fold_left (fun t vf => delete vf.1 t) vofs temp_joins
  else fold_left (fun t vf => match vf.2 with
                              | Some sf => <[vf.1 := sf]> t
                              | None => t
                              end) vofs temp_joins.

(** [main], lines 538-574: the join of one unit as the script runs it. *)
Definition main (temp_joins : temp_dir) (merge_raises : DataFrame -> DataFrame -> bool)
    (var_files : var_files_t) (exclude_vars : list string)
    (include_vars : option (list string)) (chunk_size max_memory_rows : Z)
    (save_fails : bool) : join_result :=
  let var_metadata := get_variable_metadata var_files in
  let join_cols := identify_join_columns var_metadata in
  match include_vars with
  | Some (v :: inc) =>
      join_data_incrementally temp_joins merge_raises var_files var_metadata [] join_cols
        chunk_size None (Some (v :: inc)) max_memory_rows save_fails
  | _ =>
      join_data_incrementally temp_joins merge_raises var_files var_metadata exclude_vars
        join_cols chunk_size None None max_memory_rows save_fails
  end.

(** The rows of the intermediate file of a variable when the staging is
    over: those the file held when the run began, then those of the
    variable's files. *)
Definition staged_rows (temp_joins : temp_dir) (var_metadata : var_metadata_t)
    (time_filter : option (cell -> bool)) (chunk_size : Z)
    (var_name : string) (files : list csv_file) : list row :=
  match temp_joins !! var_name with
  | Some old => rows old
  | None => []
  end ++ variable_rows var_metadata time_filter chunk_size var_name files.

(** An intermediate file as the joiner writes it: the header of a renamed
    frame and rows of four cells. *)
Definition staged_table (df : DataFrame) : Prop :=
  staged_header (columns df) /\ forall r, In r (rows df) -> length r = 4%nat.

(** The directory holds nothing but files that joins have left. *)
Definition temp_ok (temp_joins : temp_dir) : Prop :=
  forall v old, temp_joins !! v = Some old -> staged_table old.

(** A [pd.merge] that never raises, and one that raises when a key column
    holds numbers only on one side and some text on the other. *)
Definition never_raises (_ _ : DataFrame) : bool := false.

Definition holds_text (col : list cell) : bool :=
  existsb (fun c => match c with Str _ => true | _ => false end) col.

Definition key_dtype_clash (left right : DataFrame) : bool :=
  existsb (fun c => (negb (holds_text (column left c)) && holds_text (column right c))
                    || (holds_text (column left c) && negb (holds_text (column right c))))
          key_columns.

(** The names of the variables a join adds a column for: those the merge
    loop merges, starting from the coordinate frame of the base file. *)
Definition joined_names (merge_raises : DataFrame -> DataFrame -> bool)
    (var_output_files : list (string * option DataFrame)) : list string :=
  match var_output_files with
  | (_, Some base_file) :: _ =>
      match select_cols key_columns base_file with
      | Some coords =>
          merged_names merge_raises (drop_duplicates coords) var_output_files
      | None => []
      end
  | _ => []
  end.

(** The turn of a variable in the merge loop goes well: its intermediate
    file exists and can be read back, and [pd.merge] does not raise on the
    frame merged before its turn. *)
Definition merged_at (merge_raises : DataFrame -> DataFrame -> bool) (base_df : DataFrame)
    (var_output_files : list (string * option DataFrame)) (v : string) : Prop :=
  exists pre sf post var_df,
    var_output_files = pre ++ (v, Some sf) :: post
    /\ read_variable v sf = Some var_df
    /\ merge_raises (frame_after merge_raises base_df pre) var_df = false.

(** [c] is the first of the names that come most often in [cols]: no name
    comes more often, and every name met before [c] comes less often. *)
Definition first_most_frequent (cols : list string) (c : string) : Prop :=
  exists pre post,
    cols = pre ++ c :: post
    /\ ~ In c pre
    /\ (forall c', In c' pre ->
          (count_occ string_dec cols c' < count_occ string_dec cols c)%nat)
    /\ forall c', (count_occ string_dec cols c' <= count_occ string_dec cols c)%nat.

(** The name [identify_join_columns] picks among [cols]: the default when
    there is none. *)
Definition picked_name (default : string) (cols : list string) (c : string) : Prop :=
  match cols with
  | [] => c = default
  | _ => first_most_frequent cols c
  end.

(** [c] is the first column whose name in lower case is one of [names]. *)
Definition first_label (names : list string) (cols : list string) (c : string) : Prop :=
  exists pre post,
    cols = pre ++ c :: post
    /\ In (lower c) names
    /\ forall c', In c' pre -> ~ In (lower c') names.

(** The files of a unit as the extractor leaves them: 2 m temperature with
    the value under its cfgrib name and one key twice, the 10 m wind with
    other coordinate names and one unreadable file, a variable that only has
    [valid_time], and a variable whose file has a header and no rows. *)
Definition file_2t : csv_file :=
  Some (mkDF ["time"; "latitude"; "longitude"; "valid_time"; "t2m"]
     [ [Str "2021-05-01 00:00"; Num 325; Num (-970); Str "2021-05-01 00:00"; Num 290];
       [Str "2021-05-01 00:00"; Num 330; Num (-970); Str "2021-05-01 00:00"; Num 291];
       [Str "2021-05-01 01:00"; Num 325; Num (-970); Str "2021-05-01 01:00"; Num 292];
       [Str "2021-05-01 00:00"; Num 325; Num (-970); Str "2021-05-01 00:00"; Num 299] ]).

Definition file_10u : csv_file :=
  Some (mkDF ["time1"; "lat"; "lon"; "u10"]
     [ [Str "2021-05-01 00:00"; Num 325; Num (-970); Num 5];
       [Str "2021-05-01 07:00"; Num 325; Num (-970); Num 7] ]).

Definition file_valid_time : csv_file :=
  Some (mkDF ["valid_time"; "latitude"; "longitude"; "value"]
     [ [Str "2021-05-01 00:00"; Num 325; Num (-970); Num 101300] ]).

Definition file_header_only : csv_file :=
  Some (mkDF ["time"; "latitude"; "longitude"; "value"] []).

Definition demo_unit : var_files_t :=
  [("2t", [file_2t]); ("10u", [file_10u; None]); ("sp", [file_valid_time]);
   ("sd", [file_header_only])].

(** The same unit with the empty variable met first. *)
Definition empty_first_unit : var_files_t :=
  [("sd", [file_header_only]); ("2t", [file_2t])].

(** Three variables of which two call the time [time1], and one that only
    has [valid_time]. *)
Definition file_time1 (value : string) : csv_file :=
  Some (mkDF ["time1"; "latitude"; "longitude"; value]
     [ [Str "2021-05-01 00:00"; Num 325; Num (-970); Num 1] ]).

Definition file_time (value : string) : csv_file :=
  Some (mkDF ["time"; "latitude"; "longitude"; value]
     [ [Str "2021-05-01 00:00"; Num 325; Num (-970); Num 2] ]).

Definition mixed_unit : var_files_t :=
  [("sp", [file_time "sp"]); ("10u", [file_time1 "u10"]); ("10v", [file_time1 "v10"]);
   ("2d", [file_valid_time])].




Definition file_10u_epoch : csv_file :=
  Some (mkDF ["time"; "latitude"; "longitude"; "u10"]
     [ [Num 1619827200; Num 325; Num (-970); Num 5] ]).

Definition clash_unit : var_files_t :=
  [("2t", [file_2t]); ("10u", [file_10u_epoch]); ("10v", [file_time1 "v10"])].

End Joiner.

(** ** Files for the runs of the sorter *)

Module SorterCases.
Import Sorter.

(** A joined file with its header and no rows, a table some earlier run
    left under the temporary name, and the file of the month after. *)
Definition empty_table : DataFrame :=
  mkDF ["time"; "latitude"; "longitude"; "t2m"] [].

Definition leftover_table : DataFrame :=
  mkDF ["time"; "latitude"; "longitude"; "t2m"]
       [ [Str "2020-01-01 00:00:00"; Num 325; Num (-970); Num 1] ].

Definition next_path : path := (["joined"; "2021"], "joined_202106.csv").

Definition two_files : gmap path file :=
  {[ demo_path := Table demo_table; next_path := Table leftover_table ]}.

(** The same file to be sorted with other sizes. *)
Definition small_args : sort_args := mkArgs demo_path 1 1 false None.


(** A table whose rows have no latitude. *)
Definition no_latitude_table : DataFrame :=
  mkDF ["time"; "longitude"; "t2m"]
       [ [Str "2021-05-01 00:00:00"; Num (-970); Num 11] ].

End SorterCases.

(** ** The header of an intermediate file *)

Module JoinerStaging.
Import Joiner.

(** The header the intermediate file has or will have: that of the file
    when it exists, else that of the first chunk waiting in memory. *)
Definition header_of (st : stage_state) : option (list string) :=
  match staged st with
  | Some s => Some (columns s)
  | None =>
      match all_chunks st with
      | c :: _ => Some (columns c)
      | [] => None
      end
  end.

(** What [stage_variable] returns for a state. *)
Definition finish (st : stage_state) : option DataFrame :=
  match all_chunks st with
  | [] => staged st
  | _ => staged (flush st)
  end.

(** A unit in which no variable has a key twice. *)
Definition unique_unit : var_files_t :=
  [("10u", [file_10u]); ("10v", [file_time1 "v10"])].

End JoinerStaging.

(** ** The pieces of a variable that reach the disk *)

Module ExtractorChunks.
Import Extractor.

(** The rows of the pieces of the time dimension up to the first piece
    that does not decode. *)
Fixpoint decoded_prefix (pieces : list (list (option (list row)))) : list (list row) :=
  match pieces with
  | [] => []
  | piece :: pieces' =>
      match decode_steps piece with
      | Some rs => rs :: decoded_prefix pieces'
      | None => []
      end
  end.

(** The file of the [k]-th piece and what it holds. *)
Definition chunk_output (round_value : Z -> cell -> cell) (cfg : config) (da : DataArray)
    (output_dir : list string) (year month var_name : string) (k : nat) (rs : list row)
    : path * DataFrame :=
  let c := time_chunk_size cfg in
  (path_join (var_output_dir output_dir year month var_name)
     (chunk_filename year month var_name (k * c)
        (Nat.min (k * c + c) (length (da_steps da)))),
   prepare_frame round_value cfg var_name (mkDF (da_columns da) rs)).

(** Five hours of a field on one grid point, the fourth of which does
    not decode. *)
Definition hour (h : Z) : list row := [ [Num h; Num 325; Num (-970); Num (290 + h)] ].

Definition five_hours : DataArray :=
  mkDA "t2m" [("GRIB_shortName", "2t")] ["time"; "latitude"; "longitude"]
       ["time"; "latitude"; "longitude"; "t2m"]
       [Some (hour 0); Some (hour 1); Some (hour 2); Some (hour 3); Some (hour 4)].

Definition broken_hours : DataArray :=
  mkDA "t2m" [("GRIB_shortName", "2t")] ["time"; "latitude"; "longitude"]
       ["time"; "latitude"; "longitude"; "t2m"]
       [Some (hour 0); Some (hour 1); Some (hour 2); None; Some (hour 4)].

Definition two_hour_chunks : config := mkConfig 2 true None.

(** The raw file of May 2021 with that field in it. *)
Definition may_raw : RawGriddedFile :=
  mkRaw (["gribs"], "202105.grib") (fun _ => Some [five_hours]) ["2t"].

(** A file written in the call for a variable at a position below [n]
    lies in a variable directory of the period of that call. *)
Definition under_period_of_call (output_dir : list string) (base_filename : string)
    (clock : nat -> date) (n : nat) (o : output) : Prop :=
  match o with
  | Wrote p _ =>
      exists i v, (i < n)%nat
                  /\ dirname p = output_dir ++ [(period base_filename (clock i)).1;
                                                (period base_filename (clock i)).2; v]
  | Logged _ => True
  end.

(** A raw file whose name gives no period, with the temperature and a
    wind component in it. *)
Definition wind_hour : DataArray :=
  mkDA "u10" [("GRIB_shortName", "10u")] ["time"; "latitude"; "longitude"]
       ["time"; "latitude"; "longitude"; "u10"] [Some (hour 0)].

Definition unnamed_raw : RawGriddedFile :=
  mkRaw (["gribs"], "winds.grib")
        (fun v => if bool_decide (v = Some "10u") then Some [wind_hour]
                  else Some [five_hours])
        ["2t"; "10u"].

End ExtractorChunks.

(** ** The log formatter of the extractor *)

Module Logging.

(** [c in s] for a character and [p in s] for a text. *)
Definition contains_char (c : ascii) (s : string) : bool :=
  existsb (Ascii.eqb c) (list_ascii_of_string s).

Fixpoint contains (p s : string) : bool :=
  String.prefix p s
  || match s with
     | EmptyString => false
     | String _ s' => contains p s'
     end.

(** [s[-n:]] *)
Definition last_chars (n : nat) (s : string) : string :=
  substring (String.length s - n) n s.

Definition truncation_mark : string := " ... [array data truncated] ... ".

(** Line 16: the message has both brackets, or the word [array] in any
    case. *)
Definition looks_like_array (msg : string) : bool :=
  (contains_char "[" msg && contains_char "]" msg) || contains "array" (lower msg).

(** [LimitedArrayLogger.format], lines 12-21, on the message of the
    record: what goes into the log line in the place of [%(message)s]. *)
Definition format_message (msg : string) : string :=
  if (500 <? String.length msg)%nat && looks_like_array msg
  then substring 0 200 msg +:+ truncation_mark +:+ last_chars 100 msg
  else msg.

End Logging.

(** ** The files of a unit *)

Module JoinerFiles.
Import Joiner.

(** [s.zfill(2)]: zeros in front up to two characters, behind a sign
    when the text starts with one. *)
Definition zfill2 (s : string) : string :=
  match s with
  | EmptyString => "00"
  | String c EmptyString =>
      if Extractor.is_sign c then String c "0" else String "0" s
  | _ => s
  end.

(** Lines 34-39: the directory the search starts in.  [year] and [month]
    are the texts of the command line; a month without a year is not
    looked at. *)
Definition search_root (base_dir : list string) (year month : option string)
    : list string :=
  match truthy year, truthy month with
  | Some y, Some m => base_dir ++ [y; zfill2 m]
  | Some y, None => base_dir ++ [y]
  | None, _ => base_dir
  end.

(** [os.path.normpath(file_path).split(os.sep)] *)
Definition parts (p : path) : list string := dirname p ++ [basename p].

(** [parts[-2]] *)
Definition var_name_of (p : path) : string := List.last (dirname p) EmptyString.

(** [var_files[var_name].append(file_path)], with a new list for a name
    met for the first time. *)
Fixpoint group_add (v : string) (p : path) (groups : list (string * list path))
    : list (string * list path) :=
  match groups with
  | [] => [(v, [p])]
  | (v', ps) :: rest =>
      if String.eqb v v' then (v', ps ++ [p]) :: rest
      else (v', ps) :: group_add v p rest
  end.

(** Lines 47-55 for one file. *)
Definition group_file (groups : list (string * list path)) (p : path)
    : list (string * list path) :=
  if (4 <=? length (parts p))%nat then group_add (var_name_of p) p groups else groups.

(** The files the loop groups: those with four path components at least. *)
Definition eligible (found : list path) : list path :=
  List.filter (fun p => (4 <=? length (parts p))%nat) found.

Section Find.
(** [glob.glob(os.path.join(root, "**", "*.csv"), recursive=True)] *)
Variable glob_csv : list string -> list path.

Definition find_csv_files (base_dir : list string) (year month : option string)
    : list (string * list path) :=
  fold_left group_file (glob_csv (search_root base_dir year month)) [].

(** The unit as [main] hands it on, with each file read. *)
Definition read_unit (read_csv : path -> csv_file) (base_dir : list string)
    (year month : option string) : var_files_t :=
  List.map (fun vf => (vf.1, List.map read_csv vf.2))
           (find_csv_files base_dir year month).
End Find.

(** The files of two variables of May 2021, and one file that lies
    too high in the tree. *)
Definition may_files (root : list string) : list path :=
  [ (root ++ ["2t"], "202105_2t_chunk_0_24.csv");
    (root ++ ["10u"], "202105_10u_chunk_0_24.csv");
    (root ++ ["2t"], "202105_2t_chunk_24_48.csv");
    (["p"], "notes.csv") ].

End JoinerFiles.

(** ** The pipeline around the three scripts *)

Module Pipeline.

(** [int(s)] for a text of decimal digits, as the patterns below hand it
    over. *)
Definition int_of_digits (s : string) : Z :=
  match NilEmpty.uint_of_string s with
  | Some d => Z.of_nat (Nat.of_uint d)
  | None => 0
  end.

(** [str(n)] *)
Definition str_of_int (z : Z) : string :=
  if (z <? 0)%Z then "-" +:+ Extractor.str_of_nat (Z.to_nat (- z))
  else Extractor.str_of_nat (Z.to_nat z).

(** [f"{n:02d}"] *)
Definition pad2_int (z : Z) : string :=
  if (z <? 0)%Z then str_of_int z else Extractor.pad2 (Z.to_nat z).

(** *** [find_grib_files] *)

Definition grib_extensions : list string := [".grib"; ".grb"; ".grib2"; ".grb2"].

Definition text (l : list ascii) : string := string_of_list_ascii l.

(** [re.compile(r'(\d{4})(\d{2})').search(filename)]: the leftmost six
    digits in a row, read as year and month. *)
Fixpoint basic_search (s : list ascii) : option (Z * Z) :=
  match s with
  | [] => None
  | _ :: s' =>
      match s with
      | d1 :: d2 :: d3 :: d4 :: d5 :: d6 :: _ =>
          if forallb Extractor.is_digit [d1; d2; d3; d4; d5; d6]
          then Some (int_of_digits (text [d1; d2; d3; d4]), int_of_digits (text [d5; d6]))
          else basic_search s'
      | _ => basic_search s'
      end
  end.

Definition is_sep (c : ascii) : bool := Ascii.eqb c "_" || Ascii.eqb c "-".

(** [era5[_-](\d{4})[_-]?(\d{2})] with [re.IGNORECASE], matched at the
    start of [s].  The optional separator is taken when it is there: the
    digits of the month cannot start on it. *)
Definition era5_here (s : list ascii) : option (Z * Z) :=
  match s with
  | e :: r :: a :: f :: sep :: y1 :: y2 :: y3 :: y4 :: rest =>
      if Ascii.eqb (lower_ascii e) "e" && Ascii.eqb (lower_ascii r) "r"
         && Ascii.eqb (lower_ascii a) "a" && Ascii.eqb f "5"
         && is_sep sep && forallb Extractor.is_digit [y1; y2; y3; y4]
      then
        let month_at := match rest with
                        | c :: rest' => if is_sep c then rest' else rest
                        | [] => rest
                        end in
        match month_at with
        | m1 :: m2 :: _ =>
            if Extractor.is_digit m1 && Extractor.is_digit m2
            then Some (int_of_digits (text [y1; y2; y3; y4]), int_of_digits (text [m1; m2]))
            else None
        | _ => None
        end
      else None
  | _ => None
  end.

Fixpoint era5_search (s : list ascii) : option (Z * Z) :=
  match s with
  | [] => None
  | _ :: s' =>
      match era5_here s with
      | Some ym => Some ym
      | None => era5_search s'
      end
  end.

(** [part.isdigit()] *)
Definition isdigit (s : string) : bool :=
  negb (String.eqb s EmptyString) && forallb Extractor.is_digit (list_ascii_of_string s).

(** Lines 93-101: the first directory of four digits is the year, and the
    directory below it the month when it is a number from 1 to 12. *)
Fixpoint dir_search (dirs : list string) : option Z * option Z :=
  match dirs with
  | [] => (None, None)
  | part :: rest =>
      if isdigit part && Nat.eqb (String.length part) 4
      then (Some (int_of_digits part),
            match rest with
            | next :: _ =>
                if isdigit next && (1 <=? int_of_digits next)%Z
                   && (int_of_digits next <=? 12)%Z
                then Some (int_of_digits next)
                else None
            | [] => None
            end)
      else dir_search rest
  end.

(** Lines 77-106: year and month of one file, [None] when the file is
    skipped. *)
Definition file_period (p : path) : option (Z * Z) :=
  let filename := list_ascii_of_string (basename p) in
  match basic_search filename with
  | Some ym => Some ym
  | None =>
      match era5_search filename with
      | Some ym => Some ym
      | None =>
          match dir_search (dirname p) with
          | (Some year, Some month) => Some (year, month)
          | _ => None
          end
      end
  end.

(** Line 109. *)
Definition in_year_range (year_range : option (Z * Z)) (year : Z) : bool :=
  match year_range with
  | Some (lo, hi) => negb ((year <? lo)%Z || (hi <? year)%Z)
  | None => true
  end.

Definition grib_info : Type := path * Z * Z.

Definition info_file (x : grib_info) : path := x.1.1.
Definition info_period (x : grib_info) : Z * Z := (x.1.2, x.2).

Definition file_info (year_range : option (Z * Z)) (p : path) : option grib_info :=
  match file_period p with
  | Some (year, month) =>
      if in_year_range year_range year then Some (p, year, month) else None
  | None => None
  end.

Definition period_cmp : Z * Z -> Z * Z -> comparison := lex_cmp Z.compare Z.compare.
Definition period_leb : Z * Z -> Z * Z -> bool := cmp_leb period_cmp.

Section Find.
(** [glob.glob(os.path.join(input_dir, f"**/*{ext}"), recursive=True)] *)
Variable glob_ext : string -> list path.

Definition all_grib_files : list path := flat_map glob_ext grib_extensions.

Definition find_grib_files (year_range : option (Z * Z)) : list grib_info :=
  stable_sort info_period period_leb (omap (file_info year_range) all_grib_files).
End Find.

(** *** [run_joiner] and [join_month_data] *)

(** The texts of [--year] and [--month] on the command line of the
    joiner, lines 214-215. *)
Definition joiner_period_args (year month : Z) : string * string :=
  (str_of_int year, JoinerFiles.zfill2 (str_of_int month)).

(** The directory the joiner searches when the pipeline runs it for a
    month: [find_csv_files] on the arguments above. *)
Definition joiner_search_root (processed_dir : list string) (year month : Z)
    : list string :=
  let '(y, m) := joiner_period_args year month in
  JoinerFiles.search_root processed_dir (Some y) (Some m).

(** Lines 472-479. *)
Definition joined_output_file (joined_dir : list string) (output_format : option string)
    (year month : Z) : path :=
  let format := match output_format with Some f => f | None => "parquet" end in
  let ext := if String.eqb (lower format) "csv" then ".csv" else ".parquet" in
  path_join (joined_dir ++ [str_of_int year])
            ("joined_" +:+ str_of_int year +:+ pad2_int month +:+ ext).

(** Some files as a search would give them. *)
Definition demo_gribs (ext : string) : list path :=
  if String.eqb ext ".grib"
  then [ (["in"], "202107.grib"); (["in"], "era5_2021_05.grib");
         (["in"; "2020"; "11"], "winds.grib"); (["in"], "readme.grib");
         (["in"], "202105_b.grib") ]
  else [].

End Pipeline.

(** ** The steps of the pipeline between the scripts *)

Module PipelineSteps.
Import Pipeline.

(** *** The months of a run and their batches *)

(** [grouped_files[(year, month)].append(filepath)], lines 601-606. *)
Fixpoint period_group_add (k : Z * Z) (p : path) (groups : list ((Z * Z) * list path))
    : list ((Z * Z) * list path) :=
  match groups with
  | [] => [(k, [p])]
  | (k', ps) :: rest =>
      if bool_decide (k = k') then (k', ps ++ [p]) :: rest
      else (k', ps) :: period_group_add k p rest
  end.

Definition group_by_period (grib_files : list grib_info) : list ((Z * Z) * list path) :=
  fold_left (fun groups x => period_group_add (info_period x) (info_file x) groups)
            grib_files [].

Fixpoint period_get (k : Z * Z) (groups : list ((Z * Z) * list path)) : list path :=
  match groups with
  | [] => []
  | (k', ps) :: rest => if bool_decide (k = k') then ps else period_get k rest
  end.

(** [sorted(grouped_files.keys())] *)
Definition month_keys (groups : list ((Z * Z) * list path)) : list (Z * Z) :=
  stable_sort (fun k => k) period_leb (List.map fst groups).

(** The slices [month_keys[batch_start:batch_end]] of lines 617-619:
    [None] is the [ValueError] of [range] for a step of zero, and a
    negative step gives no batch at all. *)
Definition batches (batch_size : Z) (keys : list (Z * Z)) : option (list (list (Z * Z))) :=
  if (batch_size =? 0)%Z then None
  else if (batch_size <? 0)%Z then Some []
  else Some (chunks (Z.to_nat batch_size) keys).

(** The conversion tasks of one batch, lines 629-632. *)
Definition conversion_tasks (groups : list ((Z * Z) * list path)) (batch : list (Z * Z))
    : list grib_info :=
  flat_map (fun k => List.map (fun p => (p, k.1, k.2)) (period_get k groups)) batch.

(** *** [cleanup_processed_data] *)

(** [p] lies in [dir] or below it. *)
Definition under (dir : list string) (p : path) : bool :=
  bool_decide (firstn (length dir) (dirname p) = dir).

(** The entry of the directory [dir] through which [p] is reached: the
    file itself, or the subdirectory it lies in.  Directories are known
    through the files in them. *)
Definition entry_of (dir : list string) (p : path) : option string :=
  if bool_decide (dirname p = dir) then Some (basename p)
  else if under dir p then head (skipn (length dir) (dirname p))
  else None.

(** Lines 521-528: [glob.glob] finds an entry
    [joined_dir/<year>/joined_<year><month>.*], for a [joined_dir] whose
    names hold none of the special characters of [glob]. *)
Definition joined_file_found (fs : gmap path file) (joined_dir : list string)
    (year month : Z) : bool :=
  existsb (fun kv =>
             match entry_of (joined_dir ++ [str_of_int year]) kv.1 with
             | Some name =>
                 String.prefix ("joined_" +:+ str_of_int year +:+ pad2_int month +:+ ".")
                               name
             | None => false
             end)
          (map_to_list fs).

(** [shutil.rmtree(dir)]; [removed] tells which files it got to delete,
    all of them when it does not raise. *)
Definition rmtree (removed : path -> bool) (dir : list string) (fs : gmap path file)
    : gmap path file :=
  filter (fun kv => negb (under dir kv.1 && removed kv.1) = true) fs.

(** Lines 507-546. *)
Definition cleanup_processed_data (keep_processed : bool)
    (joined_dir processed_dir : list string) (year month : Z)
    (removed : path -> bool) (fs : gmap path file) : gmap path file :=
  if keep_processed then fs
  else if negb (joined_file_found fs joined_dir year month) then fs
  else rmtree removed (processed_dir ++ [str_of_int year; pad2_int month]) fs.

(** The data of two months, of which May is joined. *)
Definition two_months : gmap path file :=
  {[ (["processed"; "2021"; "05"; "2t"], "202105_2t_chunk_0_24.csv") := Other;
     (["processed"; "2021"; "06"; "2t"], "202106_2t_chunk_0_24.csv") := Other;
     (["joined"; "2021"], "joined_202105.parquet") := Other ]}.

Definition all_removed (_ : path) : bool := true.

End PipelineSteps.


(** ** The search for joined files *)

Module JoinedFiles.
Import Logging.

(** [s.split(c)] for a separator [c] of one character. *)
Fixpoint split_on (c : ascii) (s : string) : list string :=
  match s with
  | EmptyString => [EmptyString]
  | String x s' =>
      if Ascii.eqb x c then EmptyString :: split_on c s'
      else match split_on c s' with
           | h :: t => String x h :: t
           | [] => [String x EmptyString]
           end
  end.

(** Lines 54-61 of the sorter, 416-423 of the pipeline: the patterns that
    are searched for.  Both indexings find their element, as the pattern
    holds an opening brace. *)
Definition search_patterns (pattern : string) : list string :=
  if contains_char "{" pattern && contains_char "}" pattern then
    let base_pattern := nth 0 (split_on "{" pattern) EmptyString in
    let extensions_part :=
      nth 0 (split_on "}" (nth 1 (split_on "{" pattern) EmptyString)) EmptyString in
    let extensions := split_on "," extensions_part in
    List.map (fun ext => base_pattern +:+ ext) extensions
  else [pattern].

Section Find.
(** [glob.glob(os.path.join(input_dir, "**", pattern), recursive=True)] *)
Variable glob_below : list string -> string -> list path.

(** [find_joined_files], the same function in the sorter and in the
    pipeline. *)
Definition find_joined_files (input_dir : list string) (pattern : string) : list path :=
  flat_map (glob_below input_dir) (search_patterns pattern).

End Find.

(** A search that finds one file for each pattern, named as the pattern. *)
Definition echo_glob (dir : list string) (pattern : string) : list path :=
  [(dir, pattern)].

End JoinedFiles.


(** * Properties *)

Section CmpFacts.
Context {A : Type} (cmp : A -> A -> comparison) `{!LawfulCmp cmp}.

Lemma cmp_refl a : cmp a a = Eq.
Proof. by apply cmp_eq. Qed.

Lemma cmp_leb_refl a : cmp_leb cmp a a = true.
Proof. unfold cmp_leb. by rewrite cmp_refl. Qed.

Lemma cmp_leb_total a b : cmp_leb cmp a b = false -> cmp_leb cmp b a = true.
Proof.
  unfold cmp_leb. rewrite (cmp_antisym a b).
  destruct (cmp a b); simpl; congruence.
Qed.

Lemma cmp_leb_trans a b c :
  cmp_leb cmp a b = true -> cmp_leb cmp b c = true -> cmp_leb cmp a c = true.
Proof.
  unfold cmp_leb. intros Hab Hbc.
  destruct (cmp a b) eqn:Eab; try discriminate.
  - apply cmp_eq in Eab. subst b. exact Hbc.
  - destruct (cmp b c) eqn:Ebc; try discriminate.
    + apply cmp_eq in Ebc. subst c. by rewrite Eab.
    + by rewrite (cmp_lt_trans a b c Eab Ebc).
Qed.

Lemma cmp_leb_antisym a b :
  cmp_leb cmp a b = true -> cmp_leb cmp b a = true -> a = b.
Proof.
  unfold cmp_leb. rewrite (cmp_antisym a b).
  destruct (cmp a b) eqn:E; simpl; try discriminate.
  intros _ _. by apply cmp_eq.
Qed.
End CmpFacts.

#[global] Instance lex_cmp_lawful {A B : Type} (ca : A -> A -> comparison)
    (cb : B -> B -> comparison) `{!LawfulCmp ca} `{!LawfulCmp cb} :
  LawfulCmp (lex_cmp ca cb).
Proof.
  split.
  - intros [a1 b1] [a2 b2]. unfold lex_cmp. simpl. split.
    + destruct (ca a1 a2) eqn:E; try discriminate.
      intros H. apply (cmp_eq (cmp:=ca)) in E. apply (cmp_eq (cmp:=cb)) in H.
      congruence.
    + intros [= -> ->]. rewrite (cmp_refl ca). apply (cmp_refl cb).
  - intros [a1 b1] [a2 b2]. unfold lex_cmp. simpl.
    rewrite (cmp_antisym (cmp:=ca) a1 a2).
    destruct (ca a1 a2); simpl; auto. apply cmp_antisym.
  - intros [a1 b1] [a2 b2] [a3 b3]. unfold lex_cmp. simpl.
    destruct (ca a1 a2) eqn:E12; try discriminate.
    + apply (cmp_eq (cmp:=ca)) in E12. subst a2.
      destruct (ca a1 a3) eqn:E13; try discriminate; auto.
      apply cmp_lt_trans.
    + intros _. destruct (ca a2 a3) eqn:E23; try discriminate.
      * apply (cmp_eq (cmp:=ca)) in E23. subst a3. by rewrite E12.
      * by rewrite (cmp_lt_trans (cmp:=ca) a1 a2 a3 E12 E23).
Qed.

#[global] Instance Z_cmp_lawful : LawfulCmp Z.compare.
Proof.
  split.
  - intros a b. apply Z.compare_eq_iff.
  - intros a b. apply Z.compare_antisym.
  - intros a b c. rewrite !Z.compare_lt_iff. lia.
Qed.

Lemma ascii_cmp_eq (a b : ascii) : Ascii.compare a b = Eq <-> a = b.
Proof.
  unfold Ascii.compare. rewrite N.compare_eq_iff. split; [|congruence].
  intros H. rewrite <- (ascii_N_embedding a), <- (ascii_N_embedding b).
  by rewrite H.
Qed.

#[global] Instance string_cmp_lawful : LawfulCmp String.compare.
Proof.
  split.
  - intros a b. split; [apply String.compare_eq_iff|].
    intros ->. induction b as [|c b IH]; simpl; auto.
    rewrite (proj2 (ascii_cmp_eq c c) eq_refl). exact IH.
  - intros a b. apply String.compare_antisym.
  - induction a as [|x a IH]; intros [|y b] [|z c]; simpl; try discriminate; auto.
    destruct (Ascii.compare x y) eqn:Exy; try discriminate.
    + apply ascii_cmp_eq in Exy. subst y.
      destruct (Ascii.compare x z); try discriminate; auto. apply IH.
    + intros _. destruct (Ascii.compare y z) eqn:Eyz; try discriminate.
      * apply ascii_cmp_eq in Eyz. subst z. by rewrite Exy.
      * intros _. unfold Ascii.compare in *.
        rewrite N.compare_lt_iff in Exy, Eyz.
        assert (H : (N_of_ascii x < N_of_ascii z)%N) by lia.
        apply N.compare_lt_iff in H. by rewrite H.
Qed.

#[global] Instance cell_cmp_lawful : LawfulCmp cell_cmp.
Proof.
  split.
  - intros [|x|x] [|y|y]; simpl; split; try discriminate; auto.
    + intros H. apply Z.compare_eq_iff in H. congruence.
    + intros [= ->]. apply Z.compare_refl.
    + intros H. apply (cmp_eq (cmp:=String.compare)) in H. congruence.
    + intros [= ->]. apply (cmp_refl String.compare).
  - intros [|x|x] [|y|y]; simpl; auto.
    + apply Z.compare_antisym.
    + apply String.compare_antisym.
  - intros [|x|x] [|y|y] [|z|z]; simpl; try discriminate; auto.
    + apply (cmp_lt_trans (cmp:=Z.compare)).
    + apply (cmp_lt_trans (cmp:=String.compare)).
Qed.

Lemma chunks_fuel_concat {A : Type} (n : nat) :
  (0 < n)%nat -> forall fuel (l : list A),
  (length l <= fuel)%nat -> concat (chunks_fuel fuel n l) = l.
Proof.
  intros Hn. induction fuel as [|fuel IH]; intros l Hl.
  - destruct l; simpl in *; [done|lia].
  - destruct l as [|x l]; [done|].
    change (firstn n (x :: l) ++ concat (chunks_fuel fuel n (skipn n (x :: l))) = x :: l).
    rewrite IH.
    + apply firstn_skipn.
    + rewrite length_skipn. simpl in *. lia.
Qed.

Lemma chunks_concat {A : Type} (n : nat) (l : list A) :
  (0 < n)%nat -> concat (chunks n l) = l.
Proof. intros Hn. by apply chunks_fuel_concat. Qed.

Lemma chunks_fuel_nonempty {A : Type} (n : nat) :
  (0 < n)%nat -> forall fuel (l : list A),
  Forall (fun c => c <> []) (chunks_fuel fuel n l).
Proof.
  intros Hn. induction fuel as [|fuel IH]; intros l; [constructor|].
  destruct l as [|x l]; [constructor|].
  simpl. constructor; [|apply IH].
  destruct n; [lia|]. discriminate.
Qed.

Section StableSortFacts.
Context {A K : Type} (key : A -> K) (leb : K -> K -> bool).

Hypothesis leb_refl : forall k, leb k k = true.
Hypothesis leb_total : forall a b, leb a b = false -> leb b a = true.

Lemma insert_row_perm x l : Permutation (x :: l) (insert_row key leb x l).
Proof.
  induction l as [|y l IH]; simpl; [done|].
  destruct (leb (key x) (key y)); [done|].
  rewrite perm_swap. by constructor.
Qed.

Lemma stable_sort_perm l : Permutation l (stable_sort key leb l).
Proof.
  induction l as [|x l IH]; simpl; [done|].
  etransitivity; [|apply insert_row_perm]. by constructor.
Qed.

Lemma insert_row_sorted x l :
  Sorted (key_le key leb) l -> Sorted (key_le key leb) (insert_row key leb x l).
Proof using leb_total.
  induction l as [|y l IH]; simpl; intros Hs.
  - repeat constructor.
  - destruct (leb (key x) (key y)) eqn:E.
    + constructor; [done|]. constructor. exact E.
    + inversion Hs as [|? ? Hs' Hhd]; subst.
      constructor; [by apply IH|].
      destruct l as [|z l]; simpl.
      * constructor. by apply leb_total.
      * destruct (leb (key x) (key z)).
        -- constructor. by apply leb_total.
        -- constructor. by inversion Hhd.
Qed.

Lemma stable_sort_sorted l : Sorted (key_le key leb) (stable_sort key leb l).
Proof using leb_total.
  induction l as [|x l IH]; simpl; [constructor|].
  by apply insert_row_sorted.
Qed.

(** Stability: the rows of any one key keep their input order. *)
Lemma insert_row_filter (p : A -> bool) x l :
  (forall y, p x = true -> p y = true -> leb (key x) (key y) = true) ->
  List.filter p (insert_row key leb x l) = List.filter p (x :: l).
Proof.
  intros Hp. induction l as [|y l IH]; simpl; [done|].
  destruct (leb (key x) (key y)) eqn:E; [done|].
  simpl in *. rewrite IH.
  destruct (p x) eqn:Ex, (p y) eqn:Ey; try done.
  rewrite Hp in E; done.
Qed.

Lemma stable_sort_filter (p : A -> bool) l :
  (forall x y, p x = true -> p y = true -> key x = key y) ->
  List.filter p (stable_sort key leb l) = List.filter p l.
Proof using leb_refl.
  intros Hp. induction l as [|x l IH]; simpl; [done|].
  rewrite insert_row_filter.
  - simpl. by rewrite IH.
  - intros y Hx Hy. rewrite (Hp x y Hx Hy). apply leb_refl.
Qed.
End StableSortFacts.

Lemma length_string_app (a b : string) :
  String.length (a +:+ b) = (String.length a + String.length b)%nat.
Proof. induction a as [|c a IH]; simpl; [done|]. by rewrite IH. Qed.

(** ** Columns and cells *)

Lemma select_mask_filter {A : Type} (f : A -> bool) (l : list A) :
  select_mask (List.map f l) l = List.filter f l.
Proof. induction l as [|x l IH]; simpl; [done|]. rewrite IH. by destruct (f x). Qed.

Lemma filter_all {A : Type} (f : A -> bool) (l : list A) :
  (forall x, In x l -> f x = true) -> List.filter f l = l.
Proof.
  induction l as [|x l IH]; simpl; intros H; [done|].
  rewrite (H x) by auto. rewrite IH; auto.
Qed.

Lemma has_col_true c cols : has_col c cols = true <-> In c cols.
Proof.
  unfold has_col. rewrite existsb_exists. split.
  - intros (x & Hx & E). apply String.eqb_eq in E. by subst.
  - intros H. exists c. split; [done|]. apply String.eqb_refl.
Qed.

Lemma has_col_false c cols : has_col c cols = false <-> ~ In c cols.
Proof.
  rewrite <- has_col_true. destruct (has_col c cols); split; congruence.
Qed.

(** The cell of a kept column is found again after the columns are dropped. *)
Lemma get_cell_select_mask (f : string -> bool) (cols : list string) (c : string) :
  f c = true -> forall r : row,
  get_cell (List.filter f cols) c (select_mask (List.map f cols) r) = get_cell cols c r.
Proof.
  intros Hc. unfold get_cell.
  induction cols as [|c' cols IH]; intros r; simpl; [done|].
  destruct (String.eqb_spec c c') as [<-|Hne].
  - rewrite Hc. simpl. rewrite String.eqb_refl. by destruct r.
  - destruct r as [|x r].
    + destruct (f c'); simpl.
      * destruct (String.eqb_spec c c'); [done|].
        destruct (col_index c (List.filter f cols)), (col_index c cols); simpl;
          try done; by destruct n0.
      * destruct (col_index c (List.filter f cols)), (col_index c cols); simpl;
          try done; by destruct n.
    + specialize (IH r).
      destruct (f c'); simpl.
      * destruct (String.eqb_spec c c'); [done|].
        destruct (col_index c (List.filter f cols)), (col_index c cols); simpl in *; done.
      * destruct (col_index c (List.filter f cols)), (col_index c cols); simpl in *; done.
Qed.

Lemma col_index_Some c cols i :
  col_index c cols = Some i -> (i < length cols)%nat /\ nth i cols "" = c.
Proof.
  revert i. induction cols as [|c' cols IH]; intros i; simpl; [done|].
  destruct (String.eqb_spec c c') as [->|Hne].
  - intros [= <-]. split; [lia|done].
  - destruct (col_index c cols) as [j|]; [|done]. simpl. intros [= <-].
    destruct (IH j eq_refl) as [Hlt Hnth]. split; [lia|done].
Qed.

Lemma col_index_is_Some c cols :
  has_col c cols = true -> exists i, col_index c cols = Some i.
Proof.
  induction cols as [|c' cols IH]; simpl; [done|].
  destruct (String.eqb c c'); simpl; [by exists 0%nat|].
  intros H. destruct (IH H) as [i ->]. by exists (S i).
Qed.

Lemma col_index_None c cols : has_col c cols = false -> col_index c cols = None.
Proof.
  induction cols as [|c' cols IH]; simpl; [done|].
  destruct (String.eqb c c'); simpl; [done|]. intros H. by rewrite IH.
Qed.

Lemma col_index_app_l c cols extra i :
  col_index c cols = Some i -> col_index c (cols ++ extra) = Some i.
Proof.
  revert i. induction cols as [|c' cols IH]; intros i; simpl; [done|].
  destruct (String.eqb c c'); [done|].
  destruct (col_index c cols) as [j|]; [|done]. simpl. intros [= <-].
  by rewrite (IH j eq_refl).
Qed.

Lemma col_index_snoc c cols :
  has_col c cols = false -> col_index c (cols ++ [c]) = Some (length cols).
Proof.
  induction cols as [|c' cols IH]; simpl.
  - intros _. by rewrite String.eqb_refl.
  - destruct (String.eqb c c'); simpl; [done|]. intros H. by rewrite IH.
Qed.

(** A column that is there is read off the first [length cols] cells, also
    after more columns were added at the end. *)
Lemma get_cell_app c cols extra (r : row) :
  has_col c cols = true ->
  get_cell (cols ++ extra) c r = get_cell cols c (firstn (length cols) r).
Proof.
  intros H. destruct (col_index_is_Some _ _ H) as [i Hi].
  unfold get_cell. rewrite (col_index_app_l _ _ extra _ Hi), Hi.
  apply col_index_Some in Hi as [Hlt _].
  revert i Hlt. generalize (length cols) as n. intros n. revert r.
  induction n as [|n IH]; intros r i Hlt; [lia|].
  destruct r as [|x r]; simpl; [by destruct i|].
  destruct i as [|i]; [done|]. apply IH. lia.
Qed.

Lemma get_cell_snoc c cols (r : row) x :
  has_col c cols = false -> length r = length cols ->
  get_cell (cols ++ [c]) c (r ++ [x]) = x.
Proof.
  intros H Hlen. unfold get_cell. rewrite (col_index_snoc _ _ H), <- Hlen.
  by rewrite nth_middle.
Qed.

Lemma row_key_app cols extra (r : row) :
  forallb (fun c => has_col c cols) key_columns = true ->
  row_key (cols ++ extra) r = row_key cols (firstn (length cols) r).
Proof.
  simpl. rewrite !andb_true_iff. intros (Ht & Hl & Ho & _).
  unfold row_key. by rewrite !get_cell_app.
Qed.

Lemma select_cols_Some labels df out :
  select_cols labels df = Some out ->
  forallb (fun c => has_col c (columns df)) labels = true
  /\ columns out = labels
  /\ rows out = List.map (fun r => List.map (fun c => get_cell (columns df) c r) labels)
                         (rows df).
Proof.
  unfold select_cols. destruct (forallb _ labels); [|done]. by intros [= <-].
Qed.

(** ** The sorter *)

Module SorterFacts.
Import Sorter.

#[global] Instance key_cmp_lawful : LawfulCmp key_cmp.
Proof. unfold key_cmp. apply _. Qed.




(** The paths the function writes to differ from the path it sorts. *)
Lemma string_app_ne (s t : string) : t <> "" -> s +:+ t <> s.
Proof.
  intros Ht E. apply (f_equal String.length) in E.
  rewrite length_string_app in E. destruct t; [done|]. simpl in E. lia.
Qed.

Lemma temp_path_ne p : temp_path p <> p.
Proof.
  destruct p as [d n]. unfold temp_path. simpl. intros [= E].
  by apply string_app_ne in E.
Qed.

Lemma backup_path_ne p : backup_path p <> p.
Proof.
  destruct p as [d n]. unfold backup_path, path_join. simpl. intros [= E].
  apply (f_equal (@length string)) in E. rewrite length_app in E. simpl in E. lia.
Qed.

Lemma backup_path_ne_temp p : backup_path p <> temp_path p.
Proof.
  destruct p as [d n]. unfold backup_path, temp_path, path_join. simpl.
  intros [= E _].
  apply (f_equal (@length string)) in E. rewrite length_app in E. simpl in E. lia.
Qed.


Lemma pair_from_fst {A B : Type} (x : A * B) (a : A) : x.1 = a -> x = (a, x.2).
Proof. destruct x. simpl. by intros ->. Qed.

(** Writing the chunks touches the temporary file only. *)
Lemma to_csv_other fs p cols c first q :
  q <> p -> to_csv fs p cols c first !! q = fs !! q.
Proof.
  intros Hq. unfold to_csv.
  destruct first; [by rewrite lookup_insert_ne|].
  destruct (fs !! p) as [[old|h pcs|]|]; by rewrite lookup_insert_ne.
Qed.

Lemma write_chunks_other flt p cols cks q :
  q <> p -> forall i fs, (write_chunks flt p cols i cks fs).1 !! q = fs !! q.
Proof.
  intros Hq. induction cks as [|c cks IH]; intros i fs; simpl; [done|].
  destruct (decide (write_fails_at flt = Some i)); [done|].
  rewrite IH. by apply to_csv_other.
Qed.



Lemma chunks_nil_inv {A : Type} (n : nat) (l : list A) : chunks n l = [] -> l = [].
Proof. unfold chunks. destruct l; [done|]. discriminate. Qed.

Lemma sort_values_inr df sorted :
  sort_values df = inr sorted ->
  sorted = mkDF (columns df) (stable_sort (row_key (columns df)) key_leb (rows df)).
Proof.
  unfold sort_values.
  repeat (match goal with |- context [if ?b then _ else _] => destruct b end; [done|]).
  by intros [= <-].
Qed.



Section RunFacts.
Variable is_datetime64_any_dtype : list cell -> bool.
Variable to_datetime : list cell -> option (list cell).
Variable read_csv : Z -> list string -> list (list row) -> exn + DataFrame.

#[local] Abbreviation sort_file :=
  (sort_file_chronologically is_datetime64_any_dtype to_datetime read_csv).
#[local] Abbreviation try_sort := (Sorter.try_sort is_datetime64_any_dtype to_datetime read_csv).
#[local] Abbreviation normalize_time := (Sorter.normalize_time is_datetime64_any_dtype to_datetime).
#[local] Abbreviation read_table := (Sorter.read_table read_csv).

Lemma save_sorted_other a flt df fs q :
  q <> temp_path (file_path a) -> (save_sorted a flt df fs).1 !! q = fs !! q.
Proof.
  intros Hq. unfold save_sorted.
  destruct (is_parquet (file_path a)).
  - destruct (write_fails_at flt); simpl; by rewrite lookup_insert_ne.
  - destruct (_ =? 0)%Z; [done|]. destruct (_ <? 0)%Z; [done|].
    destruct (write_chunks _ _ _ _ _ _) as [fs' b] eqn:E.
    assert (fs' !! q = fs !! q) as H.
    { change fs' with (fs', b).1. rewrite <- E. by apply write_chunks_other. }
    by destruct b.
Qed.




(** Normalizing the time column keeps the rows in place and the other
    columns as they are, when [to_datetime] answers with as many values as
    it was given. *)
Lemma nth_insert_ne (r : row) i j v :
  i <> j -> nth j (<[i:=v]> r) Null = nth j r Null.
Proof.
  revert i j. induction r as [|x r IH]; intros [|i] [|j] Hne; simpl; try done.
  apply IH. lia.
Qed.

Lemma normalize_time_rows df :
  (forall l v, to_datetime l = Some v -> length v = length l) ->
  length (rows (normalize_time df)) = length (rows df)
  /\ forall c, c <> "time" -> column (normalize_time df) c = column df c.
Proof.
  intros Hlen. unfold Sorter.normalize_time.
  destruct (is_datetime64_any_dtype (column df "time")); [done|].
  destruct (to_datetime (column df "time")) as [vals|] eqn:E; [|done].
  apply Hlen in E. unfold column in E. rewrite length_map in E.
  unfold set_column, column. simpl. split.
  - by rewrite length_map, length_combine, E, Nat.min_id.
  - intros c Hc. rewrite List.map_map.
    revert vals E. induction (rows df) as [|r l IH]; intros [|v vals] E; simpl in *;
      try done.
    f_equal; [|apply IH; lia].
    unfold set_cell, get_cell.
    destruct (col_index "time" (columns df)) as [i|] eqn:Ei; [|done].
    destruct (col_index c (columns df)) as [j|] eqn:Ej; [|done].
    apply nth_insert_ne. intros ->.
    apply col_index_Some in Ei as [_ Hi]. apply col_index_Some in Ej as [_ Hj].
    congruence.
Qed.

Lemma make_backup_keeps a flt fs fs0 :
  make_backup a flt fs = Some fs0 ->
  forall q, q <> backup_path (file_path a) -> fs0 !! q = fs !! q.
Proof.
  unfold make_backup. destruct (backup a); [|by intros [= <-]].
  destruct (fs !! file_path a) as [f|]; [|done].
  destruct (backup_fails flt); [done|].
  intros [= <-] q Hq. by rewrite lookup_insert_ne.
Qed.



Lemma try_sort_success a flt fs fs' r :
  try_sort a flt fs = (fs', inr r) -> success r = true ->
  exists df sorted fs1 f,
    read_table a flt fs = inr df
    /\ has_col "time" (columns df) = true
    /\ sort_values (normalize_time df) = inr sorted
    /\ save_sorted a flt sorted fs = (fs1, None)
    /\ fs1 !! temp_path (file_path a) = Some f
    /\ fs' = <[file_path a := f]> (delete (temp_path (file_path a)) fs1).
Proof.
  unfold Sorter.try_sort. intros H Hr.
  destruct (read_table _ _ _) as [e|df] eqn:Er; [done|].
  destruct (has_col _ _) eqn:Et; simpl in H;
    [|injection H as _ <-; discriminate Hr].
  destruct (sort_values _) as [e|sorted] eqn:Es; [done|].
  destruct (save_sorted a flt sorted fs) as [fs1 [e|]] eqn:Ev; [done|].
  unfold os_replace in H.
  destruct (fs1 !! temp_path (file_path a)) as [f|] eqn:Ef; [|done].
  destruct (replace_fails flt); [done|].
  injection H as <- _. by exists df, sorted, fs1, f.
Qed.

Lemma sort_file_success a flt fs fs' r :
  sort_file a flt fs = (Returned r, fs') -> success r = true ->
  exists fs0, make_backup a flt fs = Some fs0 /\ try_sort a flt fs0 = (fs', inr r).
Proof.
  unfold sort_file_chronologically. intros H Hr.
  destruct (make_backup a flt fs) as [fs0|]; [|done].
  exists fs0. split; [done|].
  destruct (try_sort a flt fs0) as [fs1 [e|r']] eqn:E.
  - destruct (log_dir a); [destruct (log_fails flt)|];
      try done; injection H as <- _; discriminate Hr.
  - by injection H as -> ->.
Qed.




(** C10, as the code has it.  A table without a column named [time] makes
    the sorter return the failure ["No 'time' column found"].  The file at
    the input path stays as it is and nothing appears under the temporary
    path; the one write that can have happened is the backup copy, which is
    made before the table is read when a backup is asked for. *)
Theorem sorter_no_time_column a flt fs df :
  fs !! file_path a = Some (Table df) ->
  has_col "time" (columns df) = false ->
  read_fails flt = false ->
  (is_parquet (file_path a) = true \/ (1 <= chunk_size a)%Z) ->
  (backup a = true -> backup_fails flt = false) ->
  let fs' := if backup a then <[backup_path (file_path a) := Table df]> fs else fs in
  sort_file a flt fs
    = (Returned (mkResult (file_path a) false (Some NoTimeColumn)), fs')
  /\ fs' !! file_path a = Some (Table df)
  /\ fs' !! temp_path (file_path a) = fs !! temp_path (file_path a).
Proof.
  intros Hdf Ht Hr Hcs Hb fs'.
  assert (make_backup a flt fs = Some fs') as Hmb.
  { unfold make_backup, fs'. destruct (backup a); [|done].
    rewrite Hdf. by rewrite Hb. }
  assert (fs' !! file_path a = Some (Table df)) as Hdf'.
  { rewrite (make_backup_keeps _ _ _ _ Hmb); [done|].
    intros E. by apply (backup_path_ne (file_path a)). }
  split; [|split; [done|]].
  - unfold sort_file_chronologically. rewrite Hmb.
    unfold Sorter.try_sort, Sorter.read_table. rewrite Hr, Hdf'.
    assert (negb (is_parquet (file_path a)) && (chunk_size a <? 1)%Z = false) as ->.
    { destruct Hcs as [->|Hcs]; [done|].
      apply andb_false_iff. right. apply Z.ltb_ge. lia. }
    by rewrite Ht.
  - apply (make_backup_keeps _ _ _ _ Hmb).
    intros E. by apply (backup_path_ne_temp (file_path a)).
Qed.
End RunFacts.

#[local] Abbreviation demo_sort :=
  (sort_file_chronologically demo_is_datetime demo_to_datetime demo_read_csv).

Example demo_sorted :
  (demo_sort (demo_args false) no_faults {[ demo_path := Table demo_table ]}).2 !! demo_path
  = Some (Csv ["time"; "latitude"; "longitude"; "t2m"]
       [ [ [Str "2021-05-01 00:00:00"; Num 325; Num (-970); Num 13];
           [Str "2021-05-01 00:00:00"; Num 330; Num (-970); Num 12] ];
         [ [Str "2021-05-01 00:00:00"; Num 330; Num (-970); Num 14];
           [Str "2021-05-01 01:00:00"; Num 325; Num (-970); Num 11] ] ]).
Proof. vm_compute. reflexivity. Qed.





Lemma sorter_no_time_column_witness :
  demo_sort (demo_args true) no_faults {[ demo_path := Table no_time_table ]}
  = (Returned (mkResult demo_path false (Some NoTimeColumn)),
     <[backup_path demo_path := Table no_time_table]>
       {[ demo_path := Table no_time_table ]}).
Proof.
  apply (sorter_no_time_column demo_is_datetime demo_to_datetime demo_read_csv
           (demo_args true) no_faults {[ demo_path := Table no_time_table ]}
           no_time_table).
  - vm_compute. reflexivity.
  - reflexivity.
  - reflexivity.
  - right. simpl. lia.
  - reflexivity.
Defined.

(** With a backup asked for, the run on a table without a time column does
    write: the backup copy is there afterwards and was not before. *)
Lemma sorter_no_time_column_writes_backup :
  has_col "time" (columns no_time_table) = false
  /\ ({[ demo_path := Table no_time_table ]} : gmap path file) !! backup_path demo_path = None
  /\ (demo_sort (demo_args true) no_faults {[ demo_path := Table no_time_table ]}).2
      !! backup_path demo_path = Some (Table no_time_table).
Proof. split; [reflexivity|]. split; vm_compute; reflexivity. Qed.

End SorterFacts.

(** ** The extractor *)

Module ExtractorFacts.
Import Extractor.

(** *** Pruning of constant columns *)

(** A label is among the columns to remove exactly when it is one of the
    three names, is a column, and has one distinct value. *)
Lemma cols_to_remove_spec df c :
  In c (columns df) ->
  has_col c (cols_to_remove df)
  = has_col c cols_to_check && Nat.eqb (nunique (column df c)) 1.
Proof.
  intros Hc. apply has_col_true in Hc.
  apply eq_true_iff_eq. rewrite andb_true_iff, !has_col_true.
  unfold cols_to_remove. rewrite filter_In, andb_true_iff, Hc. tauto.
Qed.

(** C7, as the code has it.  The pruning step drops exactly the columns
    that are named [number], [step] or [surface] and hold one distinct
    non-missing value in the chunk.  Every other column stays, with its
    values: one with several values, and also one that is constant but has
    another name.  With the removal enabled, a chunk is written as the
    pruning leaves it, up to the renaming of the value column. *)
Theorem constant_columns_pruned (df : DataFrame) :
  columns (remove_constant_columns df)
  = List.filter (fun c => negb (has_col c cols_to_check
                                && Nat.eqb (nunique (column df c)) 1))
                (columns df)
  /\ (forall c, In c (columns (remove_constant_columns df)) ->
        column (remove_constant_columns df) c = column df c)
  /\ forall round_value cfg var_name chunk,
       remove_constant_cols cfg = true ->
       df = match decimal_precision cfg with
            | Some p => round_coordinates round_value p chunk
            | None => chunk
            end ->
       prepare_frame round_value cfg var_name chunk
       = rename_value var_name (remove_constant_columns df).
Proof.
  assert (forall rm,
    columns (drop_columns rm df)
    = List.filter (fun c => negb (has_col c rm)) (columns df)) as Hdrop.
  { intros rm. unfold drop_columns. simpl. apply select_mask_filter. }
  split; [|split].
  - unfold remove_constant_columns.
    destruct (cols_to_remove df) as [|c0 rm] eqn:E.
    + symmetry. apply filter_all. intros c Hc.
      by rewrite <- (cols_to_remove_spec df c Hc), E.
    + rewrite <- E, Hdrop. apply filter_ext_in. intros c Hc.
      by rewrite (cols_to_remove_spec df c Hc).
  - unfold remove_constant_columns.
    destruct (cols_to_remove df) as [|c0 rm] eqn:E; [done|].
    rewrite <- E. clear E c0 rm.
    intros c Hc. rewrite Hdrop in Hc. apply filter_In in Hc as [_ Hc].
    unfold column. rewrite Hdrop. unfold drop_columns. simpl.
    rewrite List.map_map. apply map_ext. intros r.
    by apply (get_cell_select_mask (fun c => negb (has_col c (cols_to_remove df)))).
  - intros round_value cfg var_name chunk Hcfg ->.
    unfold prepare_frame. by rewrite Hcfg.
Qed.

(** In the demo chunk the hour, the longitude and the valid time are
    constant as well; they are written all the same. *)
Lemma constant_column_kept :
  nunique (column demo_chunk "valid_time") = 1%nat
  /\ nunique (column demo_chunk "longitude") = 1%nat
  /\ remove_constant_cols demo_config = true
  /\ columns (prepare_frame no_rounding demo_config "t2m" demo_chunk)
     = ["time"; "latitude"; "longitude"; "valid_time"; "value"].
Proof. repeat split; vm_compute; reflexivity. Qed.

(** *** Outputs of a computation *)

Lemma bind_fst {A B : Type} (m : M A) (k : A -> M B) :
  (bind m k).1 = m.1 ++ match m.2 with Some x => (k x).1 | None => [] end.
Proof.
  destruct m as [o [x|]]; unfold bind; simpl.
  - by destruct (k x).
  - by rewrite app_nil_r.
Qed.

Lemma bind_snd {A B : Type} (m : M A) (k : A -> M B) :
  (bind m k).2 = match m.2 with Some x => (k x).2 | None => None end.
Proof.
  destruct m as [o [x|]]; unfold bind; simpl; [|done].
  by destruct (k x).
Qed.

Lemma try_except_fst {A : Type} (m h : M A) :
  (try_except m h).1 = m.1 ++ match m.2 with Some _ => [] | None => h.1 end.
Proof.
  destruct m as [o [x|]]; unfold try_except; simpl.
  - by rewrite app_nil_r.
  - by destruct h.
Qed.

Lemma try_except_snd {A : Type} (m h : M A) :
  (try_except m h).2 = match m.2 with Some x => Some x | None => h.2 end.
Proof. destruct m as [o [x|]]; unfold try_except; simpl; [done|]. by destruct h. Qed.

Lemma bind_Forall {A B : Type} (P : output -> Prop) (m : M A) (k : A -> M B) :
  Forall P m.1 -> (forall x, m.2 = Some x -> Forall P (k x).1) ->
  Forall P (bind m k).1.
Proof.
  intros Hm Hk. rewrite bind_fst. apply Forall_app. split; [done|].
  destruct m.2; [by apply Hk|constructor].
Qed.

Lemma for_each_Forall {A : Type} (P : output -> Prop) (f : A -> M unit) (l : list A) :
  (forall x, In x l -> Forall P (f x).1) -> Forall P (for_each f l).1.
Proof.
  induction l as [|x l IH]; intros H; simpl; [constructor|].
  apply bind_Forall; [apply H; by left|].
  intros _ _. apply IH. intros y Hy. apply H. by right.
Qed.

Lemma in_written {A : Type} (m : M A) p df :
  In (p, df) (written m) <-> In (Wrote p df) m.1.
Proof.
  unfold written. rewrite in_flat_map. split.
  - intros ([q d|e] & Ho & Hin); simpl in Hin; [|done].
    destruct Hin as [[= -> ->]|[]]. done.
  - intros H. exists (Wrote p df). split; [done|]. by left.
Qed.

Lemma in_logged {A : Type} (m : M A) e :
  In e (logged m) <-> In (Logged e) m.1.
Proof.
  unfold logged. rewrite in_flat_map. split.
  - intros ([q d|e'] & Ho & Hin); simpl in Hin; [done|].
    destruct Hin as [->|[]]. done.
  - intros H. exists (Logged e). split; [done|]. by left.
Qed.

Section ExtractorRun.
Variable round_value : Z -> cell -> cell.

Lemma to_dataframe_columns cols steps df :
  (to_dataframe cols steps).2 = Some df -> columns df = cols.
Proof.
  unfold to_dataframe. destruct (decode_steps steps); [|done].
  by intros [= <-].
Qed.

Lemma to_dataframe_silent cols steps : (to_dataframe cols steps).1 = [].
Proof. unfold to_dataframe. by destruct (decode_steps steps). Qed.

Lemma write_time_chunks_outputs cfg da dir year month v n pieces output_dir :
  dir = var_output_dir output_dir year month v ->
  forall i, Forall (written_for round_value da output_dir cfg year month v)
              (write_time_chunks round_value cfg da dir year month v n i pieces).1.
Proof.
  intros ->. induction pieces as [|piece pieces IH]; intros i; [constructor|].
  change (Forall (written_for round_value da output_dir cfg year month v)
    (bind (to_dataframe (da_columns da) piece) (fun df =>
       bind (tell (Wrote (path_join (var_output_dir output_dir year month v)
                     (chunk_filename year month v i
                        (Nat.min (i + time_chunk_size cfg) n)))
                  (prepare_frame round_value cfg v df))) (fun _ =>
       write_time_chunks round_value cfg da (var_output_dir output_dir year month v)
         year month v n (i + time_chunk_size cfg) pieces))).1).
  apply bind_Forall; [by rewrite to_dataframe_silent|].
  intros df Hdf. apply bind_Forall; [|intros; apply IH].
  repeat constructor. exists df. split; [|done].
  by apply to_dataframe_columns in Hdf.
Qed.

Lemma process_variable_data_outputs da year month v output_dir cfg :
  Forall (written_for round_value da output_dir cfg year month v)
    (process_variable_data round_value da year month v output_dir cfg).1.
Proof.
  unfold process_variable_data.
  destruct (time_dim_of (da_dims da)).
  - destruct (Nat.eqb _ 0); [constructor|].
    by apply write_time_chunks_outputs.
  - apply bind_Forall; [by repeat constructor|]. intros _ _.
    apply bind_Forall; [by rewrite to_dataframe_silent|].
    intros df Hdf. repeat constructor. exists df. split; [|done].
    by apply to_dataframe_columns in Hdf.
Qed.

Lemma written_for_under da output_dir cfg year month v o :
  written_for round_value da output_dir cfg year month v o ->
  under_period output_dir year month o.
Proof. destruct o as [p out|e]; [|done]. intros [H _]. by exists v. Qed.

Lemma process_variable_data_under da year month v output_dir cfg :
  Forall (under_period output_dir year month)
    (process_variable_data round_value da year month v output_dir cfg).1.
Proof.
  eapply List.Forall_impl; [|apply process_variable_data_outputs].
  apply written_for_under.
Qed.

Lemma decode_and_write_under raw output_dir variable_name cfg year month :
  Forall (under_period output_dir year month)
    (decode_and_write round_value raw output_dir variable_name cfg year month).1.
Proof.
  unfold decode_and_write.
  destruct (open_dataset raw _) as [ds|]; [|constructor].
  destruct (match truthy variable_name with
            | Some v => option_map (pair v) (find_var v ds)
            | None => None end) as [[v da]|].
  - apply bind_Forall; [apply process_variable_data_under|]. intros; constructor.
  - destruct ds as [|da [|da' ds]].
    + apply bind_Forall; [by repeat constructor|]. intros _ _.
      apply bind_Forall; [constructor|]. intros; constructor.
    + apply bind_Forall; [apply process_variable_data_under|]. intros; constructor.
    + apply bind_Forall; [by repeat constructor|]. intros _ _.
      apply bind_Forall; [|intros; constructor].
      apply for_each_Forall. intros; apply process_variable_data_under.
Qed.

(** *** [process_era5_variable] in terms of the body of its [try] *)

Lemma extract_year_month_snd base now :
  (extract_year_month base now).2 = Some (period base now).
Proof. unfold extract_year_month, period. by destruct (name_period base). Qed.

Lemma extract_year_month_fst base now :
  (extract_year_month base now).1
  = match name_period base with
    | Some _ => []
    | None => [Logged (WarnNoYearMonth base)]
    end.
Proof. unfold extract_year_month. by destruct (name_period base). Qed.

Lemma process_era5_variable_fst raw output_dir variable_name cfg now :
  let base := splitext_root (basename (grib_path raw)) in
  let body := decode_and_write round_value raw output_dir variable_name cfg
                (period base now).1 (period base now).2 in
  (process_era5_variable round_value raw output_dir variable_name cfg now).1
  = (extract_year_month base now).1 ++ body.1
    ++ match body.2 with
       | Some _ => []
       | None => [Logged (ErrorProcessing variable_name)]
       end.
Proof.
  intros base body. unfold process_era5_variable. fold base.
  unfold mbind, M_bind. rewrite bind_fst, extract_year_month_snd.
  destruct (period base now) as [year month] eqn:E.
  rewrite try_except_fst. subst body. simpl.
  by destruct (decode_and_write _ _ _ _ _ _ _).2.
Qed.

Lemma process_era5_variable_snd raw output_dir variable_name cfg now :
  let base := splitext_root (basename (grib_path raw)) in
  let body := decode_and_write round_value raw output_dir variable_name cfg
                (period base now).1 (period base now).2 in
  (process_era5_variable round_value raw output_dir variable_name cfg now).2
  = Some (match body.2 with Some b => b | None => false end).
Proof.
  intros base body. unfold process_era5_variable. fold base.
  unfold mbind, M_bind. rewrite bind_snd, extract_year_month_snd.
  destruct (period base now) as [year month] eqn:E.
  rewrite try_except_snd. subst body. simpl.
  by destruct (decode_and_write _ _ _ _ _ _ _).2.
Qed.

(** The body of the [try] returns [True] when it returns. *)
Lemma decode_and_write_true raw output_dir variable_name cfg year month b :
  (decode_and_write round_value raw output_dir variable_name cfg year month).2 = Some b ->
  b = true.
Proof.
  unfold decode_and_write.
  destruct (open_dataset raw _) as [ds|]; [|done].
  destruct (match truthy variable_name with
            | Some v => option_map (pair v) (find_var v ds)
            | None => None end) as [[v da]|].
  - unfold mbind, M_bind. rewrite bind_snd.
    destruct (process_variable_data _ _ _ _ _ _ _).2; [|done]. by intros [= <-].
  - destruct ds as [|da [|da' ds]]; unfold mbind, M_bind; rewrite !bind_snd; simpl;
      repeat match goal with
             | |- context [match ?x with Some _ => _ | None => _ end] => destruct x
             end; try done; by intros [= <-].
Qed.

(** Whether the body of the [try] runs to its end does not depend on the
    period it files the outputs under. *)
Lemma write_time_chunks_verdict cfg da v pieces :
  forall dir year month n i dir' year' month' n' i',
  (write_time_chunks round_value cfg da dir year month v n i pieces).2
  = (write_time_chunks round_value cfg da dir' year' month' v n' i' pieces).2.
Proof.
  induction pieces as [|piece pieces IH]; intros; [done|].
  cbn [write_time_chunks]. unfold mbind, M_bind. rewrite !bind_snd.
  destruct (to_dataframe (da_columns da) piece).2; [|done].
  rewrite !bind_snd. simpl. apply IH.
Qed.

Lemma process_variable_data_verdict da v output_dir cfg year month year' month' :
  (process_variable_data round_value da year month v output_dir cfg).2
  = (process_variable_data round_value da year' month' v output_dir cfg).2.
Proof.
  unfold process_variable_data.
  destruct (time_dim_of (da_dims da)).
  - destruct (Nat.eqb _ 0); [done|]. apply write_time_chunks_verdict.
  - unfold mbind, M_bind. by rewrite !bind_snd.
Qed.

Lemma for_each_verdict {A : Type} (f g : A -> M unit) (l : list A) :
  (forall x, (f x).2 = (g x).2) -> (for_each f l).2 = (for_each g l).2.
Proof.
  intros H. induction l as [|x l IH]; [done|].
  cbn [for_each]. unfold mbind, M_bind. rewrite !bind_snd, H.
  by destruct (g x).2.
Qed.

Lemma decode_and_write_verdict raw output_dir variable_name cfg year month year' month' :
  (decode_and_write round_value raw output_dir variable_name cfg year month).2
  = (decode_and_write round_value raw output_dir variable_name cfg year' month').2.
Proof.
  unfold decode_and_write.
  destruct (open_dataset raw _) as [ds|]; [|done].
  destruct (match truthy variable_name with
            | Some v => option_map (pair v) (find_var v ds)
            | None => None end) as [[v da]|].
  - unfold mbind, M_bind. rewrite !bind_snd.
    by rewrite (process_variable_data_verdict da v output_dir cfg year month year' month').
  - destruct ds as [|da [|da' ds]].
    + done.
    + unfold mbind, M_bind. rewrite !bind_snd.
      by rewrite (process_variable_data_verdict da _ output_dir cfg year month year' month').
    + unfold mbind, M_bind. rewrite !bind_snd. unfold tell. cbn [snd].
      by rewrite (for_each_verdict
                    (fun da0 => process_variable_data round_value da0 year month
                                  (short_name da0) output_dir cfg)
                    (fun da0 => process_variable_data round_value da0 year' month'
                                  (short_name da0) output_dir cfg))
        by (intros; apply process_variable_data_verdict).
Qed.

Lemma decodes_any_date raw output_dir cfg now today v :
  decodes round_value raw output_dir cfg now v
  = decodes round_value raw output_dir cfg today v.
Proof.
  unfold decodes.
  by rewrite (decode_and_write_verdict raw output_dir (Some v) cfg _ _
                (period (splitext_root (basename (grib_path raw))) today).1
                (period (splitext_root (basename (grib_path raw))) today).2).
Qed.

Lemma process_era5_variable_verdict raw output_dir cfg now v :
  (process_era5_variable round_value raw output_dir (Some v) cfg now).2
  = Some (decodes round_value raw output_dir cfg now v).
Proof.
  rewrite process_era5_variable_snd. unfold decodes. f_equal.
  destruct (decode_and_write _ _ _ _ _ _ _).2 as [b|] eqn:E; [|done].
  by apply decode_and_write_true in E.
Qed.

(** C9, as the code has it.  When [int] rejects the first four characters
    of the base name or the two after them, the extractor goes on with the
    file: it logs the warning, runs the decoding as for any other file, lets
    no exception out, and everything it writes lies under the current year
    and month. *)
Theorem extractor_falls_back_to_current_period raw output_dir variable_name cfg now :
  let base := splitext_root (basename (grib_path raw)) in
  int_parses (substring 0 4 base) = false \/ int_parses (substring 4 2 base) = false ->
  let run := process_era5_variable round_value raw output_dir variable_name cfg now in
  let body := decode_and_write round_value raw output_dir variable_name cfg
                (str_of_nat (date_year now)) (pad2 (date_month now)) in
  In (WarnNoYearMonth base) (logged run)
  /\ run.2 = Some (match body.2 with Some b => b | None => false end)
  /\ (forall p df, In (p, df) (written body) -> In (p, df) (written run))
  /\ forall p df, In (p, df) (written run) ->
       exists v, dirname p
                 = output_dir ++ [str_of_nat (date_year now); pad2 (date_month now); v].
Proof.
  intros base Hint run body.
  assert (name_period base = None) as Hnp.
  { unfold name_period. fold base.
    destruct Hint as [-> | ->]; [done|]. by rewrite andb_false_r. }
  assert (period base now = current_period now) as Hp.
  { unfold period. by rewrite Hnp. }
  pose proof (process_era5_variable_fst raw output_dir variable_name cfg now) as Hfst.
  pose proof (process_era5_variable_snd raw output_dir variable_name cfg now) as Hsnd.
  simpl in Hfst, Hsnd. fold base in Hfst, Hsnd. rewrite Hp in Hfst, Hsnd.
  rewrite extract_year_month_fst, Hnp in Hfst.
  change (decode_and_write round_value raw output_dir variable_name cfg
            (current_period now).1 (current_period now).2) with body in Hfst, Hsnd.
  fold run in Hfst, Hsnd.
  split; [|split; [done|split]].
  - apply in_logged. rewrite Hfst. by left.
  - intros p df Hin. apply in_written. apply in_written in Hin.
    rewrite Hfst, !in_app_iff. right. by left.
  - intros p df Hin. apply in_written in Hin.
    rewrite Hfst, !in_app_iff in Hin. destruct Hin as [Hin|[Hin|Hin]].
    + by destruct Hin.
    + pose proof (decode_and_write_under raw output_dir variable_name cfg
                    (str_of_nat (date_year now)) (pad2 (date_month now))) as Hu.
      rewrite List.Forall_forall in Hu. apply (Hu _ Hin).
    + destruct body.2; [done|]. by destruct Hin.
Qed.

(** *** The loop over the variables *)

Lemma process_each_unfold raw output_dir cfg clock i v vars :
  process_each round_value raw output_dir cfg clock i (v :: vars)
  = bind (process_era5_variable round_value raw output_dir (Some v) cfg (clock i))
      (fun ok => bind (process_each round_value raw output_dir cfg clock (S i) vars)
         (fun '(successful, failed) =>
            ret (if (ok : bool) then (v :: successful, failed)
                 else (successful, v :: failed)))).
Proof. done. Qed.

Lemma process_each_snd raw output_dir cfg clock today vars : forall i,
  (process_each round_value raw output_dir cfg clock i vars).2
  = Some (List.filter (decodes round_value raw output_dir cfg today) vars,
          List.filter (fun v => negb (decodes round_value raw output_dir cfg today v)) vars).
Proof.
  induction vars as [|v vars IH]; intros i; [done|].
  rewrite process_each_unfold.
  rewrite bind_snd, process_era5_variable_verdict, bind_snd, IH. simpl.
  rewrite (decodes_any_date raw output_dir cfg (clock i) today).
  by destruct (decodes round_value raw output_dir cfg today v).
Qed.

Lemma process_each_logs_failure raw output_dir cfg clock today vars v : forall i,
  In v vars -> decodes round_value raw output_dir cfg today v = false ->
  In (Logged (ErrorProcessing (Some v)))
     (process_each round_value raw output_dir cfg clock i vars).1.
Proof.
  intros i Hin Hv. revert i. induction vars as [|v' vars IH]; intros i; [done|].
  rewrite process_each_unfold.
  rewrite bind_fst, process_era5_variable_verdict.
  apply in_or_app. destruct Hin as [->|Hin].
  - left. rewrite process_era5_variable_fst. simpl.
    apply in_or_app. right. apply in_or_app. right.
    rewrite (decodes_any_date raw output_dir cfg today (clock i)) in Hv.
    unfold decodes in Hv.
    destruct (decode_and_write _ _ _ _ _ _ _).2; [done|]. by left.
  - right. rewrite bind_fst. apply in_or_app. left. by apply IH.
Qed.

Lemma process_era5_file_snd raw output_dir variables exclude_variables cfg clock today :
  let vars := variables_to_process raw variables exclude_variables in
  (process_era5_file round_value raw output_dir variables exclude_variables cfg clock).2
  = Some (List.filter (decodes round_value raw output_dir cfg today) vars,
          List.filter (fun v => negb (decodes round_value raw output_dir cfg today v)) vars).
Proof.
  intros vars. unfold process_era5_file. fold vars.
  destruct vars as [|v vs] eqn:E; [done|]. rewrite <- E. clear E.
  unfold mbind, M_bind. rewrite bind_snd, (process_each_snd _ _ _ _ today). simpl.
  rewrite bind_snd.
  by destruct (List.filter (fun v => negb _) _).
Qed.

Lemma process_era5_file_logs_failure raw output_dir variables exclude_variables cfg
    clock today v :
  In v (variables_to_process raw variables exclude_variables) ->
  decodes round_value raw output_dir cfg today v = false ->
  In (ErrorProcessing (Some v))
     (logged (process_era5_file round_value raw output_dir variables
                exclude_variables cfg clock)).
Proof.
  intros Hin Hv. apply in_logged. unfold process_era5_file.
  destruct (variables_to_process raw variables exclude_variables) as [|v' vars] eqn:E;
    [done|].
  unfold mbind, M_bind. rewrite bind_fst. apply in_or_app. left.
  by apply (process_each_logs_failure _ _ _ _ today).
Qed.

(** C6, as the code has it.  A variable whose decoding raises is logged
    and put on the list of failed variables, and each of the other
    variables of the file is still processed and listed by its own
    outcome, whatever the clock shows while the file is processed.  The
    converter ends with exit status 0 whatever the lists are, so the
    orchestrator records the extraction as successful even when no
    variable decoded; it records a failure only when the converter process
    cannot be started. *)
Theorem extractor_isolates_failed_variables raw output_dir variables exclude_variables
    cfg clock now popen_raises :
  let vars := Orchestrator.cli_list variables in
  let excl := Orchestrator.cli_list exclude_variables in
  let todo := variables_to_process raw vars excl in
  let run := process_era5_file round_value raw output_dir vars excl cfg clock in
  run.2 = Some (List.filter (decodes round_value raw output_dir cfg now) todo,
                List.filter (fun v => negb (decodes round_value raw output_dir cfg now v)) todo)
  /\ (forall v, In v todo -> decodes round_value raw output_dir cfg now v = false ->
        In (ErrorProcessing (Some v)) (logged run))
  /\ (main round_value raw output_dir vars excl cfg clock).2 = 0%Z
  /\ Orchestrator.conv_success
       (Orchestrator.run_converter round_value popen_raises raw output_dir
          variables exclude_variables cfg clock) = negb popen_raises.
Proof.
  intros vars excl todo run.
  pose proof (process_era5_file_snd raw output_dir vars excl cfg clock now) as Hsnd.
  simpl in Hsnd. fold todo run in Hsnd.
  assert ((main round_value raw output_dir vars excl cfg clock).2 = 0%Z) as Hmain.
  { unfold main. fold run. destruct run as [o r]. simpl in Hsnd. by rewrite Hsnd. }
  split; [done|]. split; [|split; [done|]].
  - intros v Hin Hv. by apply (process_era5_file_logs_failure _ _ _ _ _ _ now).
  - unfold Orchestrator.run_converter. destruct popen_raises; [done|].
    fold vars excl. destruct (main _ _ _ _ _ _ _) as [o code]. simpl in *.
    by rewrite Hmain.
Qed.
End ExtractorRun.

Example int_parses_examples :
  List.map int_parses ["2021"; "05"; "-0"; " 12"; "1_0"; "era5"; "_1"; "1_"; ""; "+"; "1 2"; "0x"]
  = [true; true; true; true; true; false; false; false; false; false; false; false].
Proof. reflexivity. Qed.

(** A no-break space or a next-line character beside the digits is
    stripped; a file separator (28) or a unit separator (31) is not. *)
Example int_parses_white_space :
  List.map (fun c => int_parses (String (ascii_of_nat c) "5")) [160; 133; 9; 32; 28; 31; 127]%nat
  = [true; true; true; true; false; false; false]
  /\ List.map (fun c => int_parses ("20" +:+ String (ascii_of_nat c) EmptyString))
       [160; 28]%nat
     = [true; false].
Proof. split; reflexivity. Qed.

Example splitext_examples :
  List.map (splitext_ext false) ["joined_202105.csv"; "a.tar.gz"; ".hidden"; "noext"; "x.PARQUET"]
  = [".csv"; ".gz"; ""; ""; ".PARQUET"]
  /\ List.map splitext_root ["202105.grib"; "era5_2021_05.grib"; "2021-05.grib"]
     = ["202105"; "era5_2021_05"; "2021-05"].
Proof. split; reflexivity. Qed.

(** A no-break space in the month is stripped and the name gives the
    period; a file separator is not, and the period is today's. *)
Example name_period_white_space :
  name_period ("2021" +:+ String (ascii_of_nat 160) "5")
  = Some ("2021", String (ascii_of_nat 160) "5")
  /\ name_period ("2021" +:+ String (ascii_of_nat 28) "5") = None.
Proof. split; reflexivity. Qed.

(** A file named [2021-05.grib]: [int] takes ["2021"] and ["-0"], so the
    first six characters are no YYYYMM and yet nothing falls back; the chunk
    goes under the month ["-0"] of 2021 and no warning is logged. *)
Lemma extractor_dashed_name_not_current :
  is_yyyymm (substring 0 6 (splitext_root (basename (grib_path dashed_raw)))) = false
  /\ List.map (fun w => dirname w.1)
       (written (process_era5_variable no_rounding dashed_raw ["processed"]
                   (Some "2t") demo_config demo_now))
     = [["processed"; "2021"; "-0"; "2t"]]
  /\ logged (process_era5_variable no_rounding dashed_raw ["processed"]
               (Some "2t") demo_config demo_now) = [].
Proof. repeat split; vm_compute; reflexivity. Qed.

(** A file none of whose variables decodes: both end up on the failed list,
    nothing is written, and the orchestrator is told the conversion
    succeeded. *)
Lemma extractor_zero_decoded_reported_success :
  (process_era5_file no_rounding corrupt_raw ["processed"] None None
     demo_config demo_clock).2 = Some ([], ["2t"; "10u"])
  /\ written (process_era5_file no_rounding corrupt_raw ["processed"] None None
                demo_config demo_clock) = []
  /\ Orchestrator.gr_success
       (Orchestrator.process_grib_file no_rounding false corrupt_raw 2021 5
          ["processed"] None None demo_config demo_clock) = true.
Proof. repeat split; vm_compute; reflexivity. Qed.

Lemma extractor_falls_back_to_current_period_witness :
  In (WarnNoYearMonth "era5_2021_05")
     (logged (process_era5_variable no_rounding
                (mkRaw (["gribs"], "era5_2021_05.grib") (fun _ => Some [demo_da]) ["2t"])
                ["processed"] (Some "2t") demo_config demo_now)).
Proof.
  apply (extractor_falls_back_to_current_period no_rounding
           (mkRaw (["gribs"], "era5_2021_05.grib") (fun _ => Some [demo_da]) ["2t"])
           ["processed"] (Some "2t") demo_config demo_now).
  left. vm_compute. reflexivity.
Defined.

End ExtractorFacts.

(** ** The joiner *)

Module JoinerFacts.
Import Joiner JoinerStaging.

(** *** One left merge *)

Lemma in_merge_left base_df v var_df r' :
  In r' (rows (merge_left base_df v var_df)) <->
  exists r, In r (rows base_df)
    /\ ((matches_of base_df var_df r = [] /\ r' = r ++ [Null])
        \/ exists rd, In rd (matches_of base_df var_df r)
                      /\ r' = r ++ [get_cell (columns var_df) v rd]).
Proof.
  unfold merge_left. cbn [rows]. rewrite in_flat_map.
  split; intros (r & Hr & H); exists r; (split; [done|]).
  - fold (matches_of base_df var_df r) in H.
    destruct (matches_of base_df var_df r) as [|m ms] eqn:E.
    + left. destruct H as [<-|[]]. done.
    + right.
      apply (in_map_iff (fun r' => r ++ [get_cell (columns var_df) v r']) (m :: ms))
        in H as (rd & <- & Hrd).
      by exists rd.
  - fold (matches_of base_df var_df r).
    destruct H as [[-> ->]|(rd & Hrd & ->)]; [by left|].
    destruct (matches_of base_df var_df r) as [|m ms] eqn:E; [done|].
    apply (in_map_iff (fun r' => r ++ [get_cell (columns var_df) v r']) (m :: ms)).
    by exists rd.
Qed.

Lemma in_matches_of base_df var_df r rd :
  In rd (matches_of base_df var_df r) <->
  In rd (rows var_df) /\ row_key (columns var_df) rd = row_key (columns base_df) r.
Proof.
  unfold matches_of. rewrite filter_In, bool_decide_eq_true. tauto.
Qed.

Lemma merge_left_covers base_df v var_df r :
  In r (rows base_df) -> exists x, In (r ++ [x]) (rows (merge_left base_df v var_df)).
Proof.
  intros Hr. destruct (matches_of base_df var_df r) as [|rd ms] eqn:E.
  - exists Null. apply in_merge_left. exists r. split; [done|]. by left.
  - exists (get_cell (columns var_df) v rd). apply in_merge_left.
    exists r. split; [done|]. right. exists rd. split; [|done].
    rewrite E. by left.
Qed.

Lemma flat_map_length_ge {A B : Type} (g : A -> list B) (l : list A) :
  (forall x, 1 <= length (g x))%nat -> (length l <= length (flat_map g l))%nat.
Proof.
  intros Hg. induction l as [|x l IH]; simpl; [done|].
  rewrite length_app. specialize (Hg x). lia.
Qed.

Lemma merge_left_length base_df v var_df :
  (length (rows base_df) <= length (rows (merge_left base_df v var_df)))%nat.
Proof.
  unfold merge_left. cbn [rows]. apply flat_map_length_ge. intros r.
  destruct (List.filter _ _); simpl; lia.
Qed.

Lemma merge_left_well_formed base_df v var_df :
  well_formed base_df -> well_formed (merge_left base_df v var_df).
Proof.
  intros Hwf r' Hr'. apply in_merge_left in Hr' as (r & Hr & H).
  assert (exists x, r' = r ++ [x]) as [x ->].
  { destruct H as [[_ ->]|(rd & _ & ->)]; eauto. }
  unfold merge_left. cbn [columns]. rewrite !length_app, (Hwf r Hr). done.
Qed.

(** *** The merge loop *)

Lemma merge_variable_fst mr acc vf :
  (merge_variable mr acc vf).1
  = match vf.2 with
    | Some sf =>
        match read_variable vf.1 sf with
        | Some var_df =>
            if mr acc.1 var_df then acc.1 else merge_left acc.1 vf.1 var_df
        | None => acc.1
        end
    | None => acc.1
    end.
Proof.
  destruct acc as [b l], vf as [v [sf|]]; simpl; [|done].
  destruct (read_variable v sf); [|done]. by destruct (mr b _).
Qed.

Lemma frame_after_one mr b vf :
  frame_after mr b [vf] = (merge_variable mr (b, []) vf).1.
Proof. done. Qed.

Lemma merge_variable_frame mr acc vf :
  (merge_variable mr acc vf).1 = frame_after mr acc.1 [vf].
Proof. by rewrite frame_after_one, !merge_variable_fst. Qed.

Lemma fold_merge_frame mr vofs : forall acc,
  (fold_left (merge_variable mr) vofs acc).1 = frame_after mr acc.1 vofs.
Proof.
  unfold frame_after. induction vofs as [|vf vofs IH]; intros acc; [done|].
  cbn [fold_left].
  rewrite (IH (merge_variable mr acc vf)), (IH (merge_variable mr (acc.1, []) vf)).
  by rewrite !merge_variable_fst.
Qed.

Lemma frame_after_cons mr b vf vofs :
  frame_after mr b (vf :: vofs) = frame_after mr (frame_after mr b [vf]) vofs.
Proof.
  unfold frame_after at 1. cbn [fold_left]. by rewrite fold_merge_frame.
Qed.

Lemma frame_after_app mr pre : forall b post,
  frame_after mr b (pre ++ post) = frame_after mr (frame_after mr b pre) post.
Proof.
  induction pre as [|vf pre IH]; intros b post; [done|].
  simpl. by rewrite frame_after_cons, IH, <- frame_after_cons.
Qed.

Lemma frame_after_step mr b vf :
  frame_after mr b [vf]
  = if merges mr b vf
    then match vf.2 with
         | Some sf =>
             match read_variable vf.1 sf with
             | Some var_df => merge_left b vf.1 var_df
             | None => b
             end
         | None => b
         end
    else b.
Proof.
  rewrite frame_after_one, merge_variable_fst. unfold merges. cbn [fst].
  destruct (vf.2) as [sf|]; [|done]. destruct (read_variable vf.1 sf); [|done].
  by destruct (mr b _).
Qed.

Lemma firstn_snoc {A : Type} (l : list A) (x : A) (n : nat) :
  length l = n -> firstn n (l ++ [x]) = l.
Proof.
  intros <-. rewrite firstn_app, Nat.sub_diag, firstn_all. simpl.
  by rewrite app_nil_r.
Qed.

Lemma firstn_firstn_app {A : Type} (l : list A) (n m : nat) :
  firstn n (firstn (n + m) l) = firstn n l.
Proof. rewrite List.firstn_firstn. f_equal. lia. Qed.

Lemma frame_after_spec mr vofs : forall b,
  well_formed b ->
  let out := frame_after mr b vofs in
  let n := length (columns b) in
  columns out = columns b ++ merged_names mr b vofs
  /\ well_formed out
  /\ (forall r', In r' (rows out) -> In (firstn n r') (rows b))
  /\ (forall r, In r (rows b) -> exists r', In r' (rows out) /\ firstn n r' = r)
  /\ (length (rows b) <= length (rows out))%nat.
Proof.
  induction vofs as [|vf vofs IH]; intros b Hwf.
  - cbn zeta. change (frame_after mr b []) with b. simpl. rewrite app_nil_r.
    split; [done|]. split; [done|]. split; [|split; [|done]].
    + intros r' Hr'. rewrite firstn_all2; [done|]. by rewrite (Hwf r' Hr').
    + intros r Hr. exists r. split; [done|].
      rewrite firstn_all2; [done|]. by rewrite (Hwf r Hr).
  - cbn zeta. rewrite frame_after_cons. cbn [merged_names].
    pose proof (frame_after_step mr b vf) as H1.
    set (b1 := frame_after mr b [vf]) in *. clearbody b1.
    destruct (merges mr b vf) eqn:Em; [|rewrite H1; by apply IH].
    unfold merges in Em.
    destruct vf as [v [sf|]]; cbn [fst snd] in *; [|done].
    destruct (read_variable v sf) as [var_df|] eqn:Erd; [|done].
    assert (well_formed b1) as Hwf1
      by (rewrite H1; by apply merge_left_well_formed).
    assert (columns b1 = columns b ++ [v]) as Hcb by (by rewrite H1).
    destruct (IH b1 Hwf1) as (Hc & Hw & Hin & Hcov & Hlen).
    rewrite Hcb in Hc, Hin, Hcov. subst b1.
    rewrite length_app in Hin, Hcov. change (length [v]) with 1%nat in Hin, Hcov.
    split; [by rewrite Hc, <- app_assoc|]. split; [done|]. split; [|split].
    + intros r' Hr'. specialize (Hin r' Hr').
      apply in_merge_left in Hin as (r & Hr & Hshape).
      assert (exists x, firstn (length (columns b) + 1) r' = r ++ [x]) as [x Hx].
      { destruct Hshape as [[_ ->]|(rd & _ & ->)]; eauto. }
      rewrite <- (firstn_firstn_app r' _ 1), Hx.
      by rewrite (firstn_snoc r x _ (Hwf r Hr)).
    + intros r Hr. destruct (merge_left_covers b v var_df r Hr) as [x Hx].
      destruct (Hcov _ Hx) as (r' & Hr' & Hf). exists r'. split; [done|].
      rewrite <- (firstn_firstn_app r' _ 1), Hf.
      by rewrite (firstn_snoc r x _ (Hwf r Hr)).
    + pose proof (merge_left_length b v var_df). lia.
Qed.

Lemma merge_left_cell base_df v var_df r' :
  well_formed base_df ->
  has_col v (columns base_df) = false ->
  forallb (fun c => has_col c (columns base_df)) key_columns = true ->
  In r' (rows (merge_left base_df v var_df)) ->
  cell_from var_df v (row_key (columns (merge_left base_df v var_df)) r')
            (get_cell (columns (merge_left base_df v var_df)) v r').
Proof.
  intros Hwf Hv Hkeys Hr'. apply in_merge_left in Hr' as (r & Hr & Hshape).
  assert (forall x, row_key (columns (merge_left base_df v var_df)) (r ++ [x])
                    = row_key (columns base_df) r) as Hkey.
  { intros x. unfold merge_left. cbn [columns].
    by rewrite row_key_app, (firstn_snoc r x _ (Hwf r Hr)). }
  assert (forall x, get_cell (columns (merge_left base_df v var_df)) v (r ++ [x]) = x)
    as Hcell.
  { intros x. unfold merge_left. cbn [columns]. apply get_cell_snoc; [done|].
    by apply Hwf. }
  destruct Hshape as [[Hnone ->]|(rd & Hrd & ->)]; rewrite Hkey, Hcell.
  - left. split; [|done]. unfold keys_of. rewrite in_map_iff.
    intros (rd & Hk & Hrd).
    assert (In rd (matches_of base_df var_df r)) as Hin
      by (by apply in_matches_of).
    by rewrite Hnone in Hin.
  - right. apply in_matches_of in Hrd as [Hrd Hk]. by exists rd.
Qed.

Lemma merges_read mr b v sf var_df :
  read_variable v sf = Some var_df -> merges mr b (v, Some sf) = negb (mr b var_df).
Proof. unfold merges. cbn [fst snd]. by intros ->. Qed.

Lemma merges_mergeable mr b vf : merges mr b vf = true -> mergeable vf = true.
Proof.
  unfold merges, mergeable. destruct (vf.2) as [sf|]; [|done].
  by destruct (read_variable vf.1 sf).
Qed.

Lemma merged_names_names mr vofs : forall b v,
  In v (merged_names mr b vofs) -> In v (List.map fst vofs).
Proof.
  induction vofs as [|vf vofs IH]; intros b v; cbn [merged_names List.map]; [done|].
  destruct (merges mr b vf); [intros [<-|H]|intros H]; try (by left); right; by eapply IH.
Qed.

(** A name is among the merged ones exactly when its turn goes well. *)
Lemma merged_names_iff mr vofs : forall b v,
  In v (merged_names mr b vofs) <-> merged_at mr b vofs v.
Proof.
  induction vofs as [|vf vofs IH]; intros b v; cbn [merged_names].
  - split; [done|]. intros (pre & sf & post & var_df & H & _). by destruct pre.
  - set (b1 := frame_after mr b [vf]).
    assert (In v (merged_names mr b1 vofs) -> merged_at mr b (vf :: vofs) v) as Hlater.
    { intros H. apply IH in H as (pre & sf & post & var_df & -> & Hrd & Hm).
      exists (vf :: pre), sf, post, var_df. split; [done|]. split; [done|].
      by rewrite frame_after_cons. }
    assert (merged_at mr b (vf :: vofs) v ->
            (vf.1 = v /\ merges mr b vf = true) \/ In v (merged_names mr b1 vofs)) as Hinv.
    { intros (pre & sf & post & var_df & Heq & Hrd & Hm).
      destruct pre as [|vf' pre]; simpl in Heq; injection Heq as -> ->.
      - left. split; [done|]. rewrite (merges_read _ _ _ _ _ Hrd).
        change (frame_after mr b []) with b in Hm. by rewrite Hm.
      - right. apply IH. exists pre, sf, post, var_df. split; [done|]. split; [done|].
        by rewrite frame_after_cons in Hm. }
    split.
    + destruct (merges mr b vf) eqn:Em; [intros [<-|H]|intros H]; try by apply Hlater.
      unfold merges in Em. destruct vf as [v0 [sf|]]; cbn [fst snd] in *; [|done].
      destruct (read_variable v0 sf) as [var_df|] eqn:Erd; [|done].
      exists [], sf, vofs, var_df. split; [done|]. split; [done|].
      change (frame_after mr b []) with b. by destruct (mr b var_df).
    + intros H. apply Hinv in H as [[<- ->]|H]; [by left|].
      destruct (merges mr b vf); [by right|done].
Qed.

Lemma merged_names_inv mr b v vofs :
  In v (merged_names mr b vofs) ->
  exists sf var_df, In (v, Some sf) vofs /\ read_variable v sf = Some var_df.
Proof.
  intros H. apply merged_names_iff in H as (pre & sf & post & var_df & -> & Hrd & _).
  exists sf, var_df. split; [|done]. apply in_or_app. right. by left.
Qed.

Lemma keys_present_app cols extra :
  forallb (fun c => has_col c cols) key_columns = true ->
  forallb (fun c => has_col c (cols ++ extra)) key_columns = true.
Proof.
  rewrite !forallb_forall. intros H c Hc.
  apply has_col_true, in_or_app. left. apply has_col_true. by apply H.
Qed.

Lemma frame_after_values mr vofs : forall b,
  well_formed b ->
  forallb (fun c => has_col c (columns b)) key_columns = true ->
  List.NoDup (List.map fst vofs) ->
  (forall v, In v (merged_names mr b vofs) -> has_col v (columns b) = false) ->
  let out := frame_after mr b vofs in
  forall v sf var_df, In (v, Some sf) vofs -> read_variable v sf = Some var_df ->
  In v (merged_names mr b vofs) ->
  forall r', In r' (rows out) ->
  cell_from var_df v (row_key (columns out) r') (get_cell (columns out) v r').
Proof.
  induction vofs as [|vf vofs IH];
    intros b Hwf Hkeys Hnd Hfresh out v sf var_df Hin Hrd Hv r' Hr'; [done|].
  unfold out in *. clear out. rewrite frame_after_cons in Hr' |- *.
  pose proof (frame_after_step mr b vf) as H1.
  cbn [merged_names] in Hv, Hfresh.
  set (b1 := frame_after mr b [vf]) in *. clearbody b1.
  apply List.NoDup_cons_iff in Hnd as [Hhd Hnd].
  destruct Hin as [->|Hin].
  - (* the variable merged in this step *)
    cbn [fst snd] in *. rewrite Hrd in H1.
    rewrite (merges_read _ _ _ _ _ Hrd) in Hv, Hfresh, H1.
    destruct (mr b var_df); cbn [negb] in *.
    { exfalso. apply Hhd. by eapply merged_names_names. }
    assert (has_col v (columns b) = false) as Hfv by (apply Hfresh; by left).
    assert (well_formed b1) as Hwf1
      by (rewrite H1; by apply merge_left_well_formed).
    destruct (frame_after_spec mr vofs b1 Hwf1) as (Hc & _ & Hpre & _).
    specialize (Hpre r' Hr').
    assert (forallb (fun c => has_col c (columns b1)) key_columns = true) as Hkeys1.
    { rewrite H1. unfold merge_left. cbn [columns]. by apply keys_present_app. }
    rewrite Hc, row_key_app by done.
    rewrite get_cell_app.
    2:{ rewrite H1. unfold merge_left. cbn [columns].
        apply has_col_true, in_or_app. right. by left. }
    revert Hpre. generalize (firstn (length (columns b1)) r'). intros r1 Hr1.
    rewrite H1 in Hr1 |- *. by apply merge_left_cell.
  - (* a variable merged later *)
    assert (v <> vf.1) as Hne.
    { intros ->. apply Hhd. apply in_map_iff. by exists (vf.1, Some sf). }
    assert (In v (merged_names mr b1 vofs)) as Hv1.
    { destruct (merges mr b vf); [|done]. by destruct Hv as [?|?]. }
    assert (forall v', In v' (merged_names mr b1 vofs) -> has_col v' (columns b) = false)
      as Hfresh'.
    { intros v' Hv'. apply Hfresh. destruct (merges mr b vf); [by right|done]. }
    assert (forall names,
              (forall v', In v' names -> has_col v' (columns b) = false) ->
              well_formed b1
              /\ forallb (fun c => has_col c (columns b1)) key_columns = true
              /\ forall v', In v' names -> v' <> vf.1 -> has_col v' (columns b1) = false)
      as Hgen.
    { intros names Hnames.
      assert (well_formed b /\ forallb (fun c => has_col c (columns b)) key_columns = true
              /\ forall v', In v' names -> v' <> vf.1 ->
                   has_col v' (columns b) = false) as Hsame.
      { split; [done|]. split; [done|]. intros v' Hv' _. by apply Hnames. }
      rewrite H1. destruct (merges mr b vf); [|exact Hsame].
      destruct vf as [v1 [sf1|]]; cbn [fst snd] in *;
        [destruct (read_variable v1 sf1) as [d1|]|]; try exact Hsame.
      split; [by apply merge_left_well_formed|]. split.
      - unfold merge_left. cbn [columns]. by apply keys_present_app.
      - intros v' Hv' Hne'. unfold merge_left. cbn [columns].
        apply has_col_false. intros Hin'. apply in_app_or in Hin' as [Hin'|[Hin'|[]]].
        + apply has_col_true in Hin'. by rewrite Hnames in Hin'.
        + by subst. }
    destruct (Hgen _ Hfresh') as (Hwf1 & Hkeys1 & Hfresh1).
    eapply (IH b1); try done.
    intros v' Hv'. apply Hfresh1; [done|]. intros ->. apply Hhd.
    by eapply merged_names_names.
Qed.

(** *** Dropping duplicate keys *)

Lemma key_in_spec (k : sort_key) seen :
  existsb (fun k' => bool_decide (k' = k)) seen = true <-> In k seen.
Proof.
  rewrite existsb_exists. split.
  - intros (k' & Hin & E). apply bool_decide_eq_true in E. by subst.
  - intros H. exists k. split; [done|]. by apply bool_decide_eq_true.
Qed.

Lemma drop_duplicates_from_spec cols l : forall seen,
  let out := drop_duplicates_from cols seen l in
  (forall r, In r out -> In r l /\ ~ In (row_key cols r) seen)
  /\ (forall r, In r l -> In (row_key cols r) seen
                          \/ In (row_key cols r) (List.map (row_key cols) out))
  /\ List.NoDup (List.map (row_key cols) out).
Proof.
  induction l as [|r l IH]; intros seen; simpl.
  - split; [done|]. split; [done|]. constructor.
  - destruct (existsb _ seen) eqn:E.
    + apply key_in_spec in E. destruct (IH seen) as (H1 & H2 & H3).
      split; [|split; [|done]].
      * intros r0 Hr0. destruct (H1 r0 Hr0). auto.
      * intros r0 [<-|Hr0]; [by left|]. by apply H2.
    + assert (~ In (row_key cols r) seen) as Hnot.
      { intros Hin. apply key_in_spec in Hin. congruence. }
      destruct (IH (row_key cols r :: seen)) as (H1 & H2 & H3).
      split; [|split].
      * intros r0 [<-|Hr0]; [by auto|].
        destruct (H1 r0 Hr0) as [Hin Hn]. split; [by right|].
        intros Hs. apply Hn. by right.
      * intros r0 [<-|Hr0]; [right; by left|].
        destruct (H2 r0 Hr0) as [[Heq|Hs]|Ho]; [|by left|right; by right].
        right. left. done.
      * simpl. constructor; [|done]. rewrite in_map_iff. intros (r0 & Hk & Hr0).
        destruct (H1 r0 Hr0) as [_ Hn]. apply Hn. left. done.
Qed.

Lemma drop_duplicates_keys df k :
  In k (keys_of (drop_duplicates df)) <-> In k (keys_of df).
Proof.
  unfold keys_of, drop_duplicates. simpl.
  destruct (drop_duplicates_from_spec (columns df) (rows df) []) as (H1 & H2 & _).
  rewrite !in_map_iff. split.
  - intros (r & <- & Hr). exists r. split; [done|]. by apply H1.
  - intros (r & <- & Hr). destruct (H2 r Hr) as [[]|Hin]. by apply in_map_iff in Hin.
Qed.

Lemma drop_duplicates_columns df : columns (drop_duplicates df) = columns df.
Proof. done. Qed.

Lemma drop_duplicates_NoDup df : List.NoDup (keys_of (drop_duplicates df)).
Proof.
  unfold keys_of, drop_duplicates. simpl.
  by destruct (drop_duplicates_from_spec (columns df) (rows df) []) as (_ & _ & H).
Qed.

Lemma drop_duplicates_well_formed df : well_formed df -> well_formed (drop_duplicates df).
Proof.
  intros Hwf r Hr. unfold drop_duplicates in *. simpl in *.
  destruct (drop_duplicates_from_spec (columns df) (rows df) []) as (H1 & _ & _).
  apply Hwf. by apply H1.
Qed.

(** The coordinate frame read from the base file. *)
Lemma select_key_columns bf coords :
  select_cols key_columns bf = Some coords ->
  columns coords = key_columns /\ well_formed coords /\ keys_of coords = keys_of bf.
Proof.
  intros H. apply select_cols_Some in H as (_ & Hc & Hr).
  split; [done|]. split.
  - intros r Hin. rewrite Hr in Hin. apply in_map_iff in Hin as (r0 & <- & _).
    by rewrite Hc.
  - unfold keys_of. rewrite Hc, Hr, List.map_map. by apply map_ext.
Qed.

(** *** [identify_join_columns] picks a most frequent name *)

Lemma count_of_add c c' counts :
  count_of c' (count_add c counts)
  = (count_of c' counts + if String.eqb c' c then 1 else 0)%nat.
Proof.
  unfold count_of. induction counts as [|[c0 n0] counts IH]; simpl.
  - destruct (String.eqb c' c); done.
  - destruct (String.eqb_spec c c0) as [->|Hne]; simpl.
    + destruct (String.eqb c' c0); lia.
    + destruct (String.eqb_spec c' c0) as [->|Hne'].
      * destruct (String.eqb_spec c0 c); [by subst|lia].
      * apply IH.
Qed.

Lemma count_of_all cols c' : forall counts,
  count_of c' (fold_left (fun counts c => count_add c counts) cols counts)
  = (count_of c' counts + count_occ string_dec cols c')%nat.
Proof.
  induction cols as [|c cols IH]; intros counts; simpl; [lia|].
  rewrite IH, count_of_add.
  destruct (string_dec c c') as [->|Hne].
  - rewrite String.eqb_refl. lia.
  - destruct (String.eqb_spec c' c); [by subst|lia].
Qed.

Lemma count_add_keys c counts :
  List.map fst (count_add c counts)
  = if has_col c (List.map fst counts) then List.map fst counts
    else List.map fst counts ++ [c].
Proof.
  induction counts as [|[c0 n0] counts IH]; simpl; [done|].
  destruct (String.eqb c c0); simpl; [done|].
  rewrite IH. by destruct (has_col c (List.map fst counts)).
Qed.

Lemma count_all_keys_NoDup cols : forall counts,
  List.NoDup (List.map fst counts) ->
  List.NoDup (List.map fst (fold_left (fun counts c => count_add c counts) cols counts)).
Proof.
  induction cols as [|c cols IH]; intros counts Hnd; simpl; [done|].
  apply IH. rewrite count_add_keys.
  destruct (has_col c (List.map fst counts)) eqn:E; [done|].
  apply has_col_false in E. apply List.NoDup_app; [done| |].
  - repeat constructor. by intros [].
  - intros x Hx [<-|[]]. done.
Qed.

Lemma dict_get_In {A : Type} (k : string) (v : A) (d : list (string * A)) :
  List.NoDup (List.map fst d) -> In (k, v) d -> dict_get k d = Some v.
Proof.
  induction d as [|[k0 v0] d IH]; simpl; [done|].
  intros Hnd. apply List.NoDup_cons_iff in Hnd as [Hhd Hnd].
  intros [[= -> ->]|Hin]; [by rewrite String.eqb_refl|].
  destruct (String.eqb_spec k k0) as [->|]; [|by apply IH].
  exfalso. apply Hhd. apply in_map_iff. by exists (k0, v).
Qed.

Lemma dict_get_Some {A : Type} (k : string) (v : A) (d : list (string * A)) :
  dict_get k d = Some v -> In (k, v) d.
Proof.
  induction d as [|[k0 v0] d IH]; simpl; [done|].
  destruct (String.eqb_spec k k0) as [->|]; [intros [= ->]; by left|].
  intros H. right. by apply IH.
Qed.

Lemma max_item_spec items : forall best,
  In (max_item best items) (best :: items)
  /\ forall x, In x (best :: items) -> (snd x <= snd (max_item best items))%nat.
Proof.
  induction items as [|y items IH]; intros best; simpl.
  - split; [by left|]. intros x [<-|[]]. done.
  - destruct (Nat.ltb_spec (snd best) (snd y)).
    + destruct (IH y) as [Hin Hmax]. split.
      * destruct Hin as [<-|Hin]; [right; by left|right; by right].
      * intros x [<-|[<-|Hx]].
        -- specialize (Hmax y (or_introl eq_refl)). lia.
        -- apply Hmax. by left.
        -- apply Hmax. by right.
    + destruct (IH best) as [Hin Hmax]. split.
      * destruct Hin as [<-|Hin]; [by left|right; by right].
      * intros x [<-|[<-|Hx]].
        -- apply Hmax. by left.
        -- specialize (Hmax best (or_introl eq_refl)). lia.
        -- apply Hmax. by right.
Qed.

(** No name occurs more often among the given ones than the name chosen. *)
Lemma most_common_plurality default cols c :
  (count_occ string_dec cols c
   <= count_occ string_dec cols (most_common default cols))%nat.
Proof.
  unfold most_common, count_all.
  assert (forall c', count_occ string_dec cols c'
            = count_of c' (fold_left (fun counts c => count_add c counts) cols []))
    as Hocc.
  { intros c'. by rewrite (count_of_all cols c' []). }
  pose proof (count_all_keys_NoDup cols [] (List.NoDup_nil _)) as Hnd.
  destruct (fold_left (fun counts c => count_add c counts) cols []) as [|x rest] eqn:E.
  - rewrite Hocc. unfold count_of. simpl. lia.
  - destruct (max_item_spec rest x) as [Hin Hmax].
    destruct (max_item x rest) as [cm nm] eqn:Em. simpl in *.
    rewrite !Hocc. unfold count_of at 2.
    rewrite (dict_get_In cm nm (x :: rest) Hnd Hin).
    unfold count_of. destruct (dict_get c (x :: rest)) as [n|] eqn:Ec; [|lia].
    apply dict_get_Some in Ec. apply (Hmax (c, n) Ec).
Qed.

Lemma most_common_In default cols :
  cols <> [] -> In (most_common default cols) cols.
Proof.
  intros Hne. destruct cols as [|c0 cols]; [done|].
  pose proof (most_common_plurality default (c0 :: cols) c0) as H.
  apply (count_occ_In string_dec).
  assert (count_occ string_dec (c0 :: cols) c0 > 0)%nat; [|lia].
  apply count_occ_In. by left.
Qed.

Lemma count_keys_In cols : forall counts c,
  In c (List.map fst (fold_left (fun counts c => count_add c counts) cols counts))
  <-> In c (List.map fst counts) \/ In c cols.
Proof.
  induction cols as [|c0 cols IH]; intros counts c; simpl; [tauto|].
  rewrite IH, count_add_keys.
  destruct (has_col c0 (List.map fst counts)) eqn:E.
  - apply has_col_true in E. split; [tauto|]. intros [H|[<-|H]]; tauto.
  - rewrite in_app_iff. simpl. tauto.
Qed.

(** The names counted stand in the order in which they were first met. *)
Lemma count_keys_prefix cols : forall counts,
  exists tl,
    List.map fst (fold_left (fun counts c => count_add c counts) cols counts)
    = List.map fst counts ++ tl.
Proof.
  induction cols as [|c cols IH]; intros counts; simpl.
  - exists []. by rewrite app_nil_r.
  - destruct (IH (count_add c counts)) as [tl ->]. rewrite count_add_keys.
    destruct (has_col c (List.map fst counts)); [by exists tl|].
    exists (c :: tl). by rewrite <- app_assoc.
Qed.

Lemma app_prefix_notin {A : Type} (c : A) l1 : forall tl kpre kpost,
  l1 ++ tl = kpre ++ c :: kpost -> ~ In c l1 -> exists m, kpre = l1 ++ m.
Proof.
  induction l1 as [|x l1 IH]; intros tl kpre kpost H Hc; [by exists kpre|].
  destruct kpre as [|y kpre]; simpl in H; injection H as -> H.
  - exfalso. apply Hc. by left.
  - destruct (IH tl kpre kpost H) as [m ->]; [|by exists m].
    intros Hin. apply Hc. by right.
Qed.

Lemma count_keys_first cols : forall counts kpre c kpost,
  List.map fst (fold_left (fun counts c => count_add c counts) cols counts)
  = kpre ++ c :: kpost ->
  ~ In c (List.map fst counts) ->
  exists pre post,
    cols = pre ++ c :: post /\ ~ In c pre /\ forall c', In c' pre -> In c' kpre.
Proof.
  induction cols as [|c0 cols IH]; intros counts kpre c kpost Hk Hc.
  - exfalso. apply Hc. simpl in Hk. rewrite Hk. apply in_or_app. right. by left.
  - simpl in Hk. destruct (string_dec c0 c) as [->|Hne].
    + exists [], cols. split; [done|]. split; [by intros []|]. by intros ? [].
    + assert (In c0 (List.map fst (count_add c0 counts))
              /\ ~ In c (List.map fst (count_add c0 counts))) as [Hc0 Hc'].
      { rewrite count_add_keys.
        destruct (has_col c0 (List.map fst counts)) eqn:E.
        - split; [by apply has_col_true|done].
        - rewrite !in_app_iff. simpl. split; [tauto|]. intros [?|[?|[]]]; done. }
      destruct (IH _ _ _ _ Hk Hc') as (pre & post & -> & Hpre & Hincl).
      exists (c0 :: pre), post. split; [done|]. split.
      { intros [?|?]; done. }
      intros c' [<-|Hin]; [|by apply Hincl].
      destruct (count_keys_prefix (pre ++ c :: post) (count_add c0 counts)) as [tl Htl].
      rewrite Htl in Hk. destruct (app_prefix_notin _ _ _ _ _ Hk Hc') as [m ->].
      apply in_or_app. by left.
Qed.

Lemma max_item_first items : forall best,
  exists pre post,
    best :: items = pre ++ max_item best items :: post
    /\ (forall x, In x pre -> (snd x < snd (max_item best items))%nat)
    /\ (forall x, In x post -> (snd x <= snd (max_item best items))%nat).
Proof.
  induction items as [|y items IH]; intros best; simpl.
  - exists [], []. split; [done|]. split; by intros ? [].
  - destruct (Nat.ltb_spec (snd best) (snd y)).
    + destruct (IH y) as (pre & post & Heq & Hpre & Hpost).
      destruct (max_item_spec items y) as [_ Hmax].
      exists (best :: pre), post. split; [by rewrite Heq|]. split; [|done].
      intros x [<-|Hx]; [|by apply Hpre].
      specialize (Hmax y (or_introl eq_refl)). lia.
    + destruct (IH best) as (pre & post & Heq & Hpre & Hpost).
      set (m := max_item best items) in *. clearbody m.
      destruct pre as [|b pre]; simpl in Heq; injection Heq as Hb Heq.
      * exists [], (y :: post). subst m items. split; [done|].
        split; [by intros ? []|]. intros x [<-|Hx]; [lia|]. by apply Hpost.
      * subst b items. exists (best :: y :: pre), post. split; [done|].
        split; [|done]. intros x [<-|[<-|Hx]].
        -- apply Hpre. by left.
        -- specialize (Hpre best (or_introl eq_refl)). lia.
        -- apply Hpre. by right.
Qed.

(** The name chosen is the first met of the most frequent ones. *)
Lemma most_common_first default cols :
  cols <> [] -> first_most_frequent cols (most_common default cols).
Proof.
  intros Hne. pose proof (most_common_plurality default cols) as Hplur.
  unfold most_common, count_all in *.
  assert (forall c', count_occ string_dec cols c'
            = count_of c' (fold_left (fun counts c => count_add c counts) cols []))
    as Hocc.
  { intros c'. by rewrite (count_of_all cols c' []). }
  pose proof (count_all_keys_NoDup cols [] (List.NoDup_nil _)) as Hnd.
  pose proof (count_keys_first cols []) as Hfirst.
  destruct (fold_left (fun counts c => count_add c counts) cols []) as [|x rest] eqn:E.
  { destruct cols as [|c0 cols]; [done|].
    assert (In c0 (List.map fst (fold_left (fun counts c => count_add c counts)
                                   (c0 :: cols) []))) as Hin.
    { apply count_keys_In. right. by left. }
    by rewrite E in Hin. }
  destruct (max_item_first rest x) as (ipre & ipost & Heq & Hpre & _).
  destruct (max_item x rest) as [cm nm] eqn:Em. cbn [fst snd] in *.
  destruct (Hfirst (List.map fst ipre) cm (List.map fst ipost)) as (pre & post & Hc & Hn & Hi).
  { by rewrite Heq, List.map_app. }
  { by intros []. }
  exists pre, post. split; [done|]. split; [done|]. split; [|done].
  intros c' Hc'. apply Hi in Hc'. apply in_map_iff in Hc' as ([c1 n1] & <- & Hin).
  specialize (Hpre _ Hin). cbn [fst snd] in *.
  rewrite !Hocc. unfold count_of.
  rewrite (dict_get_In c1 n1 (x :: rest) Hnd).
  2:{ rewrite Heq. apply in_or_app. by left. }
  rewrite (dict_get_In cm nm (x :: rest) Hnd); [done|].
  rewrite Heq. apply in_or_app. right. by left.
Qed.

Lemma most_common_picked default cols : picked_name default cols (most_common default cols).
Proof.
  destruct cols as [|c cols']; [done|]. by apply most_common_first.
Qed.

(** *** The names [inspect_file_structure] recognises *)

Lemma head_filter_first_label names cols c :
  head (List.filter (fun c => has_col (lower c) names) cols) = Some c
  <-> first_label names cols c.
Proof.
  split.
  - induction cols as [|x cols IH]; simpl; [done|].
    destruct (has_col (lower x) names) eqn:E.
    + intros [= <-]. exists [], cols. split; [done|].
      split; [by apply has_col_true|]. by intros ? [].
    + intros H. destruct (IH H) as (pre & post & -> & Hc & Hpre).
      exists (x :: pre), post. split; [done|]. split; [done|].
      intros c' [<-|Hc']; [by apply has_col_false|by apply Hpre].
  - intros (pre & post & -> & Hc & Hpre). induction pre as [|x pre IH]; simpl.
    + apply has_col_true in Hc. by rewrite Hc.
    + assert (has_col (lower x) names = false) as ->.
      { apply has_col_false. apply Hpre. by left. }
      apply IH. intros c' Hc'. apply Hpre. by right.
Qed.

Lemma head_filter_no_label names cols :
  head (List.filter (fun c => has_col (lower c) names) cols) = None
  <-> forall c, In c cols -> ~ In (lower c) names.
Proof.
  induction cols as [|x cols IH]; simpl; [by split|].
  destruct (has_col (lower x) names) eqn:E.
  - split; [done|]. intros H. apply has_col_true in E. exfalso. apply (H x); auto.
  - rewrite IH. apply has_col_false in E. split.
    + intros H c [<-|Hc]; auto.
    + intros H c Hc. apply H. by right.
Qed.

Lemma truthy_first_label names cols c :
  ~ In "" names ->
  truthy (head (List.filter (fun c => has_col (lower c) names) cols)) = Some c
  <-> first_label names cols c.
Proof.
  intros Hn. rewrite <- head_filter_first_label.
  destruct (head _) as [[|a x]|] eqn:E; simpl; [|done|done].
  apply head_filter_first_label in E as (_ & _ & _ & H & _). done.
Qed.

Lemma truthy_no_label names cols :
  ~ In "" names ->
  truthy (head (List.filter (fun c => has_col (lower c) names) cols)) = None
  <-> forall c, In c cols -> ~ In (lower c) names.
Proof.
  intros Hn. rewrite <- head_filter_no_label.
  destruct (head _) as [[|a x]|] eqn:E; simpl; [|done|done].
  apply head_filter_first_label in E as (_ & _ & _ & H & _). done.
Qed.

Lemma get_variable_metadata_get var_files v df rest :
  List.NoDup (List.map fst var_files) -> In (v, Some df :: rest) var_files ->
  dict_get v (get_variable_metadata var_files) = inspect_file_structure v (Some df).
Proof.
  induction var_files as [|[v0 files0] var_files IH]; [done|].
  intros Hnd. apply List.NoDup_cons_iff in Hnd as [Hhd Hnd].
  intros [[= -> ->]|Hin].
  - simpl. by rewrite String.eqb_refl.
  - assert (v <> v0) as Hne.
    { intros ->. apply Hhd. apply in_map_iff. by exists (v0, Some df :: rest). }
    assert (String.eqb v v0 = false) as Eq by (by apply String.eqb_neq).
    simpl. destruct files0 as [|[df0|] rest0]; simpl; rewrite ?Eq; by apply IH.
Qed.

Lemma get_variable_metadata_inv var_files v meta :
  dict_get v (get_variable_metadata var_files) = Some meta ->
  exists df rest,
    In (v, Some df :: rest) var_files /\ inspect_file_structure v (Some df) = Some meta.
Proof.
  induction var_files as [|[v0 files0] var_files IH]; [done|].
  assert (dict_get v (get_variable_metadata var_files) = Some meta ->
          exists df rest,
            In (v, Some df :: rest) ((v0, files0) :: var_files)
            /\ inspect_file_structure v (Some df) = Some meta) as IH'.
  { intros H. destruct (IH H) as (df & rest & Hin & Hi). exists df, rest.
    split; [by right|done]. }
  simpl. destruct files0 as [|[df0|] rest0]; simpl; try done.
  destruct (String.eqb_spec v v0) as [->|Hne]; [|done].
  intros [= <-]. exists df0, rest0. split; [by left|done].
Qed.

(** The value column that is guessed is a column of the file. *)
Lemma guess_value_col_In v cols c : guess_value_col v cols = Some c -> In c cols.
Proof.
  unfold guess_value_col.
  repeat (match goal with
          | |- context [if has_col ?x cols then _ else _] =>
              destruct (has_col x cols) eqn:?; [intros [= <-]; by apply has_col_true|]
          end).
  unfold last_opt. intros H.
  match type of H with head (rev ?l) = _ => assert (In c (rev l)) as Hin end.
  { destruct (rev _) as [|y ys]; [done|]. injection H as ->. by left. }
  apply in_rev, filter_In in Hin. tauto.
Qed.

(** The columns detected in a file are found in that file as they are. *)
Lemma resolve_columns_direct v tc lc oc vc df :
  has_coords tc lc oc (columns df) = true -> has_col vc (columns df) = true ->
  resolve_columns v tc lc oc vc df = Some (tc, lc, oc, vc).
Proof. unfold resolve_columns. intros Hc Hv. rewrite Hc. simpl. by rewrite Hc, Hv. Qed.

Lemma file_rows_direct v tc lc oc vc time_filter chunk_size df :
  (0 < chunk_size)%Z ->
  has_coords tc lc oc (columns df) = true -> has_col vc (columns df) = true ->
  file_rows v tc lc oc vc time_filter chunk_size (Some df)
  = rows (normalize_file time_filter tc lc oc vc df).
Proof.
  intros Hcs Hc Hv. unfold file_rows. rewrite (resolve_columns_direct _ _ _ _ _ _ Hc Hv).
  by destruct (Z.leb_spec chunk_size 0); [lia|].
Qed.

Lemma sample_file_columns v df meta tc lc oc vc :
  inspect_file_structure v (Some df) = Some meta ->
  truthy (time_col meta) = Some tc -> truthy (lat_col meta) = Some lc ->
  truthy (lon_col meta) = Some oc -> truthy (value_col meta) = Some vc ->
  first_label ["time"; "time1"; "time2"] (columns df) tc
  /\ first_label ["latitude"; "lat"] (columns df) lc
  /\ first_label ["longitude"; "lon"] (columns df) oc
  /\ has_coords tc lc oc (columns df) = true
  /\ has_col vc (columns df) = true.
Proof.
  intros [= <-]. cbn [time_col lat_col lon_col value_col]. intros Ht Hl Ho Hv.
  assert (forall names c, first_label names (columns df) c -> has_col c (columns df) = true)
    as Hhas.
  { intros names c (pre & post & -> & _). apply has_col_true, in_or_app. right. by left. }
  apply (truthy_first_label ["time"; "time1"; "time2"]) in Ht;
    [|simpl; intuition discriminate].
  apply (truthy_first_label ["latitude"; "lat"]) in Hl; [|simpl; intuition discriminate].
  apply (truthy_first_label ["longitude"; "lon"]) in Ho; [|simpl; intuition discriminate].
  split; [done|]. split; [done|]. split; [done|]. split.
  - unfold has_coords. by rewrite (Hhas _ _ Ht), (Hhas _ _ Hl), (Hhas _ _ Ho).
  - apply has_col_true. apply (guess_value_col_In v).
    destruct (guess_value_col v (columns df)) as [[|a x]|]; simpl in Hv; congruence.
Qed.

(** *** Staging keeps every row *)

Lemma rows_concat_frames fs : rows (concat_frames fs) = flat_map rows fs.
Proof. by destruct fs. Qed.

Lemma content_flush st : content (flush st) = content st.
Proof.
  unfold content, flush. simpl. rewrite app_nil_r.
  destruct (staged st) as [s|]; simpl; by rewrite rows_concat_frames.
Qed.

Lemma content_add_chunk max_rows st chunk :
  content (add_chunk max_rows st chunk) = content st ++ rows chunk.
Proof.
  unfold add_chunk. destruct (_ <=? _)%Z; [rewrite content_flush|];
    unfold content; simpl; by rewrite flat_map_app, app_assoc; simpl; rewrite app_nil_r.
Qed.

Lemma content_add_chunks max_rows cks : forall st,
  content (fold_left (add_chunk max_rows) cks st) = content st ++ flat_map rows cks.
Proof.
  induction cks as [|c cks IH]; intros st; simpl; [by rewrite app_nil_r|].
  by rewrite IH, content_add_chunk, <- app_assoc.
Qed.

Lemma flat_map_rows_mkDF cols (cks : list (list row)) :
  flat_map rows (List.map (mkDF cols) cks) = concat cks.
Proof. induction cks as [|c cks IH]; simpl; [done|]. by rewrite IH. Qed.

Lemma content_stage_file var_name tc lc oc vc time_filter chunk_size max_rows st f :
  content (stage_file var_name tc lc oc vc time_filter chunk_size max_rows st f)
  = content st ++ file_rows var_name tc lc oc vc time_filter chunk_size f.
Proof.
  unfold stage_file, file_rows. destruct f as [df|]; [|by rewrite app_nil_r].
  destruct (resolve_columns var_name tc lc oc vc df) as [[[[tc' lc'] oc'] vc']|];
    [|by rewrite app_nil_r].
  destruct (Z.leb_spec chunk_size 0); [by rewrite app_nil_r|].
  rewrite content_add_chunks, flat_map_rows_mkDF, chunks_concat; [done|lia].
Qed.

Lemma content_stage_files var_name tc lc oc vc time_filter chunk_size max_rows files :
  forall st,
  content (fold_left (stage_file var_name tc lc oc vc time_filter chunk_size max_rows)
             files st)
  = content st ++ flat_map (file_rows var_name tc lc oc vc time_filter chunk_size) files.
Proof.
  induction files as [|f files IH]; intros st; simpl; [by rewrite app_nil_r|].
  by rewrite IH, content_stage_file, <- app_assoc.
Qed.

Lemma headers_ok_add_chunk max_rows st chunk :
  headers_ok st -> staged_header (columns chunk) ->
  headers_ok (add_chunk max_rows st chunk).
Proof.
  intros [Hc Hs] Hchunk. unfold add_chunk.
  assert (Forall (fun c => staged_header (columns c)) (all_chunks st ++ [chunk])) as Hall.
  { apply Forall_app. split; [done|]. by constructor. }
  destruct (_ <=? _)%Z; [|by split].
  split; [constructor|]. simpl. intros s.
  destruct (staged st) as [o|] eqn:E; simpl; intros [= <-]; simpl; [by apply Hs|].
  destruct (all_chunks st ++ [chunk]) as [|c0 cs] eqn:E'; [by destruct (all_chunks st)|].
  simpl. by inversion Hall.
Qed.

Lemma headers_ok_add_chunks max_rows cks : forall st,
  headers_ok st -> Forall (fun c => staged_header (columns c)) cks ->
  headers_ok (fold_left (add_chunk max_rows) cks st).
Proof.
  induction cks as [|c cks IH]; intros st Hst Hcks; simpl; [done|].
  inversion Hcks; subst. apply IH; [|done]. by apply headers_ok_add_chunk.
Qed.

Lemma headers_ok_stage_file var_name tc lc oc vc time_filter chunk_size max_rows st f :
  headers_ok st ->
  headers_ok (stage_file var_name tc lc oc vc time_filter chunk_size max_rows st f).
Proof.
  intros Hst. unfold stage_file. destruct f as [df|]; [|done].
  destruct (resolve_columns var_name tc lc oc vc df) as [[[[tc' lc'] oc'] vc']|]; [|done].
  destruct (_ <=? 0)%Z; [done|].
  apply headers_ok_add_chunks; [done|].
  apply List.Forall_forall. intros c Hc. apply in_map_iff in Hc as (ck & <- & _).
  simpl. by exists tc', lc', oc', vc'.
Qed.

Lemma headers_ok_stage_files var_name tc lc oc vc time_filter chunk_size max_rows files :
  forall st, headers_ok st ->
  headers_ok (fold_left (stage_file var_name tc lc oc vc time_filter chunk_size max_rows)
                files st).
Proof.
  induction files as [|f files IH]; intros st Hst; simpl; [done|].
  apply IH. by apply headers_ok_stage_file.
Qed.

Lemma header_of_add_chunk max_rows st chunk :
  header_of (add_chunk max_rows st chunk)
  = match header_of st with
    | Some h => Some h
    | None => Some (columns chunk)
    end.
Proof.
  unfold add_chunk, header_of.
  destruct (_ <=? _)%Z; simpl.
  - destruct (staged st) as [o|]; simpl; [done|].
    by destruct (all_chunks st).
  - destruct (staged st) as [o|]; [done|]. by destruct (all_chunks st).
Qed.

Lemma header_of_add_chunks max_rows cks : forall st,
  header_of (fold_left (add_chunk max_rows) cks st)
  = match header_of st with
    | Some h => Some h
    | None => match cks with c :: _ => Some (columns c) | [] => None end
    end.
Proof.
  induction cks as [|c cks IH]; intros st; simpl.
  - by destruct (header_of st).
  - rewrite IH, header_of_add_chunk. by destruct (header_of st).
Qed.

Lemma chunks_nil_iff {A : Type} (n : nat) (l : list A) : chunks n l = [] <-> l = [].
Proof. split; [apply SorterFacts.chunks_nil_inv|by intros ->]. Qed.

(** The file a state ends in is given by its header and its rows. *)
Lemma finish_spec st :
  finish st = match header_of st with
              | Some h => Some (mkDF h (content st))
              | None => None
              end.
Proof.
  unfold finish, header_of, content, flush.
  destruct (all_chunks st) as [|c cs]; destruct (staged st) as [[h rs]|]; simpl;
    rewrite ?app_nil_r; done.
Qed.

(** The intermediate file of a variable holds the rows it had when the
    run began and then the rows of the variable's files, in the order of
    the files, whatever the chunk size and the row limit were. *)
Lemma stage_variable_spec var_name tc lc oc vc time_filter chunk_size max_rows old files sf :
  (forall o, old = Some o -> staged_header (columns o)) ->
  stage_variable var_name tc lc oc vc time_filter chunk_size max_rows old files = Some sf ->
  rows sf = match old with Some o => rows o | None => [] end
            ++ flat_map (file_rows var_name tc lc oc vc time_filter chunk_size) files
  /\ staged_header (columns sf).
Proof.
  intros Hold. unfold stage_variable.
  set (st := fold_left _ files _).
  assert (content st
          = match old with Some o => rows o | None => [] end
            ++ flat_map (file_rows var_name tc lc oc vc time_filter chunk_size) files)
    as Hc.
  { unfold st. rewrite content_stage_files. unfold content at 1. cbn [staged all_chunks].
    simpl. by rewrite app_nil_r. }
  assert (headers_ok st) as Hh.
  { unfold st. apply headers_ok_stage_files. split; [constructor|done]. }
  rewrite <- Hc. destruct (all_chunks st) as [|c cs] eqn:E.
  - intros Hs. unfold content. rewrite Hs, E. simpl. rewrite app_nil_r.
    split; [done|]. by apply Hh.
  - intros Hs. rewrite <- content_flush. unfold content at 1. rewrite Hs. simpl.
    rewrite app_nil_r. split; [done|].
    assert (headers_ok (flush st)) as [_ Hf]; [|by apply Hf].
    destruct Hh as [Hchunks Hst]. split; [constructor|]. simpl. intros s.
    destruct (staged st) as [o|]; simpl; intros [= <-]; simpl; [by apply Hst|].
    rewrite E. simpl. rewrite E in Hchunks. by inversion Hchunks.
Qed.

(** The intermediate file exists after the staging when it existed before
    or a file of the variable gave a row. *)
Lemma header_of_stage_file var_name tc lc oc vc time_filter chunk_size max_rows st f :
  header_of (stage_file var_name tc lc oc vc time_filter chunk_size max_rows st f) = None
  <-> header_of st = None
      /\ file_rows var_name tc lc oc vc time_filter chunk_size f = [].
Proof.
  unfold stage_file, file_rows. destruct f as [df|]; [|tauto].
  destruct (resolve_columns var_name tc lc oc vc df) as [[[[tc' lc'] oc'] vc']|]; [|tauto].
  destruct (Z.leb_spec chunk_size 0); [tauto|].
  rewrite header_of_add_chunks. destruct (header_of st); [split; [done|by intros []]|].
  set (nf := normalize_file time_filter tc' lc' oc' vc' df).
  destruct (rows nf) as [|r rs] eqn:Er; [done|].
  destruct (chunks (Z.to_nat chunk_size) (r :: rs)) as [|c k] eqn:E;
    [by apply chunks_nil_iff in E|].
  simpl. split; [done|by intros []].
Qed.

Lemma header_of_stage_files var_name tc lc oc vc time_filter chunk_size max_rows files :
  forall st,
  header_of (fold_left (stage_file var_name tc lc oc vc time_filter chunk_size max_rows)
               files st) = None
  <-> header_of st = None
      /\ flat_map (file_rows var_name tc lc oc vc time_filter chunk_size) files = [].
Proof.
  induction files as [|f files IH]; intros st; simpl; [tauto|].
  rewrite IH, header_of_stage_file. split.
  - intros [[H1 H2] H3]. split; [done|]. by rewrite H2, H3.
  - intros [H1 H2]. apply app_eq_nil in H2 as [H2 H3]. done.
Qed.

Lemma stage_variable_None var_name tc lc oc vc time_filter chunk_size max_rows old files :
  stage_variable var_name tc lc oc vc time_filter chunk_size max_rows old files = None
  <-> old = None
      /\ flat_map (file_rows var_name tc lc oc vc time_filter chunk_size) files = [].
Proof.
  change (stage_variable var_name tc lc oc vc time_filter chunk_size max_rows old files)
    with (finish (fold_left (stage_file var_name tc lc oc vc time_filter chunk_size
                               max_rows) files (mkStage [] 0 old))).
  rewrite finish_spec.
  pose proof (header_of_stage_files var_name tc lc oc vc time_filter chunk_size max_rows
                files (mkStage [] 0 old)) as H.
  destruct (header_of (fold_left _ files _)) as [h|].
  - split; [done|]. intros [-> Hf]. destruct H as [_ H].
    by specialize (H (conj eq_refl Hf)).
  - destruct H as [H _]. destruct (H eq_refl) as [Ho Hf]. split; [|done].
    intros _. split; [|done]. unfold header_of in Ho. simpl in Ho. by destruct old.
Qed.

(** A renamed header that has the three key labels is the standard one. *)
Lemma staged_header_keys h :
  staged_header h ->
  forallb (fun c => has_col c h) key_columns = true ->
  h = ["time"; "latitude"; "longitude"; "value"].
Proof.
  intros (tc & lc & oc & vc & ->). unfold rename_label. simpl.
  rewrite !String.eqb_refl.
  destruct (String.eqb tc vc), (String.eqb tc oc), (String.eqb tc lc),
    (String.eqb lc vc), (String.eqb lc oc), (String.eqb oc vc); simpl; try done.
Qed.

Lemma file_rows_length var_name tc lc oc vc time_filter chunk_size f r :
  In r (file_rows var_name tc lc oc vc time_filter chunk_size f) -> length r = 4%nat.
Proof.
  unfold file_rows. destruct f as [df|]; [|done].
  destruct (resolve_columns var_name tc lc oc vc df) as [[[[tc' lc'] oc'] vc']|]; [|done].
  destruct (_ <=? 0)%Z; [done|]. unfold normalize_file. simpl.
  intros Hin.
  assert (In r (List.map (fun r0 => List.map (fun c => get_cell (columns df) c r0)
                                      [tc'; lc'; oc'; vc']) (rows df))) as Hr.
  { destruct time_filter; [|done]. apply filter_In in Hin. tauto. }
  apply in_map_iff in Hr as (r0 & <- & _). done.
Qed.

(** Reading a standard intermediate file back for the merge changes the
    label of the value column and nothing else. *)
Lemma read_variable_rows v sf var_df :
  staged_header (columns sf) ->
  (forall r, In r (rows sf) -> length r = 4%nat) ->
  read_variable v sf = Some var_df ->
  columns sf = ["time"; "latitude"; "longitude"; "value"] /\ rows var_df = rows sf.
Proof.
  intros Hh Hlen. unfold read_variable.
  destruct (has_col v key_columns) eqn:Ev; [done|].
  intros Hsel. apply select_cols_Some in Hsel as (Hhas & _ & Hrows).
  assert (forallb (fun c => has_col c (columns sf)) key_columns = true) as Hkeys.
  { apply forallb_forall. intros c Hc.
    rewrite forallb_forall in Hhas.
    specialize (Hhas c (in_or_app _ _ _ (or_introl Hc))).
    apply has_col_true in Hhas. unfold rename_column in Hhas. simpl in Hhas.
    apply in_map_iff in Hhas as (c0 & Hc0 & Hin).
    destruct (String.eqb c0 "value"); [|subst; by apply has_col_true].
    subst c. apply has_col_true in Hc. congruence. }
  pose proof (staged_header_keys _ Hh Hkeys) as Hcols.
  split; [done|].
  rewrite Hrows. unfold rename_column. rewrite Hcols. simpl.
  assert (String.eqb v "time" = false /\ String.eqb v "latitude" = false
          /\ String.eqb v "longitude" = false) as (E1 & E2 & E3).
  { unfold has_col in Ev. simpl in Ev.
    destruct (String.eqb v "time"), (String.eqb v "latitude"), (String.eqb v "longitude");
      done. }
  rewrite <- (map_id (rows sf)) at 2. apply map_ext_in. intros r Hr.
  unfold get_cell. simpl. rewrite E1, E2, E3, String.eqb_refl. simpl.
  specialize (Hlen r Hr). destruct r as [|a [|b [|c [|d [|e r]]]]]; done.
Qed.

Lemma stage_all_entry var_metadata time_filter chunk_size max_rows temp var_files v f :
  In (v, f) (stage_all var_metadata time_filter chunk_size max_rows temp var_files).1 ->
  exists files meta tc lc oc vc,
    In (v, files) var_files
    /\ dict_get v var_metadata = Some meta
    /\ truthy (time_col meta) = Some tc
    /\ truthy (lat_col meta) = Some lc
    /\ truthy (lon_col meta) = Some oc
    /\ truthy (value_col meta) = Some vc
    /\ f = stage_variable v tc lc oc vc time_filter chunk_size max_rows (temp !! v) files.
Proof.
  induction var_files as [|[v0 files0] rest IH]; simpl; [done|].
  destruct (stage_all var_metadata time_filter chunk_size max_rows temp rest) as [out log].
  simpl in IH.
  assert (In (v, f) out ->
          exists files meta tc lc oc vc,
            ((v0, files0) = (v, files) \/ In (v, files) rest)
            /\ dict_get v var_metadata = Some meta
            /\ truthy (time_col meta) = Some tc
            /\ truthy (lat_col meta) = Some lc
            /\ truthy (lon_col meta) = Some oc
            /\ truthy (value_col meta) = Some vc
            /\ f = stage_variable v tc lc oc vc time_filter chunk_size max_rows
                     (temp !! v) files) as IH'.
  { intros Hin. destruct (IH Hin) as (files & meta & tc & lc & oc & vc & H & Hrest).
    exists files, meta, tc, lc, oc, vc. split; [by right|done]. }
  destruct (dict_get v0 var_metadata) as [meta|] eqn:Em; [|done].
  destruct (truthy (time_col meta)) as [tc|] eqn:Et; [|done].
  destruct (truthy (lat_col meta)) as [lc|] eqn:El; [|done].
  destruct (truthy (lon_col meta)) as [oc|] eqn:Eo; [|done].
  destruct (truthy (value_col meta)) as [vc|] eqn:Ev; [|done].
  simpl. intros [[= <- <-]|Hin]; [|by apply IH'].
  exists files0, meta, tc, lc, oc, vc. by repeat split; auto.
Qed.

Lemma select_variables_In var_files excluded_vars include_vars vf :
  In vf (select_variables var_files excluded_vars include_vars) -> In vf var_files.
Proof.
  unfold select_variables. intros H. apply filter_In in H as [H _].
  destruct include_vars; [apply filter_In in H; tauto|done].
Qed.

(** *** The variables that reach the merge *)

Lemma NoDup_map_filter {A B : Type} (f : A -> B) (p : A -> bool) (l : list A) :
  List.NoDup (List.map f l) -> List.NoDup (List.map f (List.filter p l)).
Proof.
  induction l as [|x l IH]; simpl; [done|].
  intros Hnd. apply List.NoDup_cons_iff in Hnd as [Hhd Hnd].
  destruct (p x); simpl; [|by apply IH].
  constructor; [|by apply IH].
  rewrite in_map_iff. intros (y & Hy & Hin). apply Hhd.
  apply in_map_iff. exists y. split; [done|].
  apply filter_In in Hin. tauto.
Qed.

Lemma select_variables_NoDup var_files excluded_vars include_vars :
  List.NoDup (List.map fst var_files) ->
  List.NoDup (List.map fst (select_variables var_files excluded_vars include_vars)).
Proof.
  intros Hnd. unfold select_variables. apply NoDup_map_filter.
  destruct include_vars; [by apply NoDup_map_filter|done].
Qed.

Lemma stage_all_names var_metadata time_filter chunk_size max_rows temp var_files v :
  In v (List.map fst
          (stage_all var_metadata time_filter chunk_size max_rows temp var_files).1) ->
  In v (List.map fst var_files).
Proof.
  induction var_files as [|[v0 files] rest IH]; simpl; [done|].
  destruct (stage_all var_metadata time_filter chunk_size max_rows temp rest) as [out log].
  simpl in IH.
  destruct (dict_get v0 var_metadata) as [meta|]; [|by auto].
  destruct (truthy (time_col meta)), (truthy (lat_col meta)), (truthy (lon_col meta));
    try by auto.
  destruct (truthy (value_col meta)); [|by auto].
  simpl. intros [<-|Hin]; auto.
Qed.

Lemma stage_all_NoDup var_metadata time_filter chunk_size max_rows temp var_files :
  List.NoDup (List.map fst var_files) ->
  List.NoDup (List.map fst
                (stage_all var_metadata time_filter chunk_size max_rows temp var_files).1).
Proof.
  induction var_files as [|[v0 files] rest IH]; simpl; [done|].
  intros Hnd. apply List.NoDup_cons_iff in Hnd as [Hhd Hnd].
  pose proof (stage_all_names var_metadata time_filter chunk_size max_rows temp rest v0)
    as Hn.
  destruct (stage_all var_metadata time_filter chunk_size max_rows temp rest) as [out log].
  simpl in *. specialize (IH Hnd).
  destruct (dict_get v0 var_metadata) as [meta|]; [|done].
  destruct (truthy (time_col meta)), (truthy (lat_col meta)), (truthy (lon_col meta));
    try done.
  destruct (truthy (value_col meta)); [|done].
  simpl. constructor; [|done]. intros Hin. by apply Hhd, Hn.
Qed.

(** *** The result of the merge *)

Lemma merge_all_ok mr vofs max_rows save_fails :
  ok (merge_all mr vofs max_rows save_fails) = true <->
  exists base_var base_file later,
    vofs = (base_var, Some base_file) :: later
    /\ forallb (fun c => has_col c (columns base_file)) key_columns = true
    /\ (1 <= max_rows)%Z
    /\ save_fails = false.
Proof.
  unfold merge_all. split.
  - destruct vofs as [|[bv [bf|]] later]; try done.
    destruct (Z.ltb_spec max_rows 1); [done|].
    destruct (select_cols key_columns bf) as [coords|] eqn:Es; [|done].
    apply select_cols_Some in Es as (Hk & _).
    destruct (fold_left _ _ _) as [b l]. destruct save_fails; [done|].
    intros _. by exists bv, bf, later.
  - intros (bv & bf & later & -> & Hk & Hm & ->).
    destruct (Z.ltb_spec max_rows 1); [lia|].
    unfold select_cols. rewrite Hk.
    by destruct (fold_left _ _ _) as [b l].
Qed.

Lemma merge_all_output mr vofs max_rows save_fails out :
  output (merge_all mr vofs max_rows save_fails) = Some out ->
  exists base_var base_file later coords,
    vofs = (base_var, Some base_file) :: later
    /\ select_cols key_columns base_file = Some coords
    /\ out = frame_after mr (drop_duplicates coords) vofs
    /\ log (merge_all mr vofs max_rows save_fails)
       = (fold_left (merge_variable mr) vofs (drop_duplicates coords, [])).2.
Proof.
  unfold merge_all.
  destruct vofs as [|[bv [bf|]] later]; try done.
  destruct (Z.ltb_spec max_rows 1); [done|].
  destruct (select_cols key_columns bf) as [coords|] eqn:Es; [|done].
  destruct (fold_left _ _ _) as [b l] eqn:Ef. destruct save_fails; [done|].
  cbn [output log]. intros [= <-]. exists bv, bf, later, coords.
  split; [done|]. split; [done|]. unfold frame_after. by rewrite Ef.
Qed.

Lemma merge_all_ok_output mr vofs max_rows save_fails :
  ok (merge_all mr vofs max_rows save_fails) = true <->
  exists out, output (merge_all mr vofs max_rows save_fails) = Some out.
Proof.
  unfold merge_all.
  destruct vofs as [|[bv [bf|]] later]; simpl; try (split; [done|by intros [? ?]]).
  destruct (max_rows <? 1)%Z; simpl; try (split; [done|by intros [? ?]]).
  destruct (select_cols key_columns bf); simpl; try (split; [done|by intros [? ?]]).
  destruct (fold_left _ _ _) as [b l].
  destruct save_fails; simpl; [split; [done|by intros [? ?]]|].
  split; [by exists b|done].
Qed.

Lemma join_ok temp mr var_files var_metadata excluded_vars join_cols chunk_size
    time_filter include_vars max_rows save_fails :
  ok (join_data_incrementally temp mr var_files var_metadata excluded_vars join_cols
        chunk_size time_filter include_vars max_rows save_fails)
  = ok (merge_all mr (var_output_files_of temp var_files var_metadata excluded_vars
                        chunk_size time_filter include_vars max_rows)
          max_rows save_fails).
Proof.
  unfold join_data_incrementally, var_output_files_of. by destruct (stage_all _ _ _ _ _ _).
Qed.

Lemma join_output temp mr var_files var_metadata excluded_vars join_cols chunk_size
    time_filter include_vars max_rows save_fails :
  output (join_data_incrementally temp mr var_files var_metadata excluded_vars join_cols
            chunk_size time_filter include_vars max_rows save_fails)
  = output (merge_all mr (var_output_files_of temp var_files var_metadata excluded_vars
                            chunk_size time_filter include_vars max_rows)
              max_rows save_fails).
Proof.
  unfold join_data_incrementally, var_output_files_of. by destruct (stage_all _ _ _ _ _ _).
Qed.

Lemma join_log temp mr var_files var_metadata excluded_vars join_cols chunk_size
    time_filter include_vars max_rows save_fails :
  log (join_data_incrementally temp mr var_files var_metadata excluded_vars join_cols
         chunk_size time_filter include_vars max_rows save_fails)
  = (stage_all var_metadata time_filter chunk_size max_rows temp
       (select_variables var_files excluded_vars include_vars)).2
    ++ log (merge_all mr (var_output_files_of temp var_files var_metadata excluded_vars
                            chunk_size time_filter include_vars max_rows)
              max_rows save_fails).
Proof.
  unfold join_data_incrementally, var_output_files_of. by destruct (stage_all _ _ _ _ _ _).
Qed.

Lemma joined_names_eq mr bv bf later coords :
  select_cols key_columns bf = Some coords ->
  joined_names mr ((bv, Some bf) :: later)
  = merged_names mr (drop_duplicates coords) ((bv, Some bf) :: later).
Proof. unfold joined_names. by intros ->. Qed.

(** The frame the merge loop starts from, and what it ends with. *)
Lemma merged_frame mr vofs coords base_file out :
  select_cols key_columns base_file = Some coords ->
  out = frame_after mr (drop_duplicates coords) vofs ->
  columns out = key_columns ++ merged_names mr (drop_duplicates coords) vofs
  /\ well_formed out
  /\ (forall k, In k (keys_of out) <-> In k (keys_of base_file))
  /\ (length (rows (drop_duplicates coords)) <= length (rows out))%nat.
Proof.
  intros Hsel ->.
  destruct (select_key_columns _ _ Hsel) as (Hc & Hwf & Hk).
  set (b0 := drop_duplicates coords).
  assert (well_formed b0) as Hwf0 by (by apply drop_duplicates_well_formed).
  assert (columns b0 = key_columns) as Hc0 by done.
  destruct (frame_after_spec mr vofs b0 Hwf0) as (Hcols & Hw & Hpre & Hcov & Hlen).
  rewrite Hc0 in Hcols, Hpre, Hcov.
  split; [done|]. split; [done|]. split; [|done].
  intros k. rewrite <- Hk, <- (drop_duplicates_keys coords k). fold b0.
  unfold keys_of at 1 2. rewrite Hcols, Hc0, !in_map_iff. split.
  - intros (r' & <- & Hr'). exists (firstn (length key_columns) r').
    split; [|by apply Hpre]. by rewrite row_key_app.
  - intros (r & <- & Hr). destruct (Hcov r Hr) as (r' & Hr' & <-).
    exists r'. split; [|done]. by rewrite row_key_app.
Qed.

Lemma mergeable_fresh mr b v vofs :
  In v (merged_names mr b vofs) -> has_col v key_columns = false.
Proof.
  intros H. apply merged_names_inv in H as (sf & var_df & _ & Hrd).
  unfold read_variable in Hrd. by destruct (has_col v key_columns).
Qed.

Lemma merged_names_NoDup mr vofs : forall b,
  List.NoDup (List.map fst vofs) -> List.NoDup (merged_names mr b vofs).
Proof.
  induction vofs as [|vf vofs IH]; intros b Hnd; cbn [merged_names]; [constructor|].
  apply List.NoDup_cons_iff in Hnd as [Hhd Hnd].
  destruct (merges mr b vf); [|by apply IH].
  constructor; [|by apply IH]. intros H. apply Hhd. by eapply merged_names_names.
Qed.


Lemma read_variable_columns v sf var_df :
  read_variable v sf = Some var_df -> columns var_df = key_columns ++ [v].
Proof.
  unfold read_variable. destruct (has_col v key_columns); [done|].
  intros H. by apply select_cols_Some in H as (_ & -> & _).
Qed.

Lemma merge_fold_log_mono mr vofs : forall acc e,
  In e acc.2 -> In e (fold_left (merge_variable mr) vofs acc).2.
Proof.
  induction vofs as [|[v f] vofs IH]; intros [b l] e He; simpl; [done|].
  apply IH. simpl in *. destruct f as [sf|]; simpl.
  - destruct (read_variable v sf); simpl; [|apply in_or_app; by left].
    destruct (mr b _); simpl; [apply in_or_app; by left|done].
  - apply in_or_app. by left.
Qed.

(** A variable that the loop does not merge is logged. *)
Lemma merge_fold_log mr vofs : forall acc v f,
  In (v, f) vofs -> ~ In v (merged_names mr acc.1 vofs) ->
  In (skip_event v f) (fold_left (merge_variable mr) vofs acc).2.
Proof.
  induction vofs as [|[v0 f0] vofs IH]; intros [b l] v f Hin Hm; [done|].
  cbn [merged_names fst] in Hm. cbn [fold_left].
  destruct Hin as [[= -> ->]|Hin].
  - apply merge_fold_log_mono. unfold merges in Hm. cbn [fst snd] in Hm.
    destruct f as [sf|]; simpl; [|apply in_or_app; right; by left].
    destruct (read_variable v sf); [|simpl; apply in_or_app; right; by left].
    destruct (mr b _); simpl; [apply in_or_app; right; by left|].
    exfalso. apply Hm. by left.
  - apply IH; [done|]. rewrite merge_variable_frame. cbn [fst].
    intros H. apply Hm. destruct (merges mr b (v0, f0)); [by right|done].
Qed.

(** *** What joins leave in [temp_joins] *)

Lemma temp_ok_empty : temp_ok ∅.
Proof. intros v old H. by rewrite lookup_empty in H. Qed.

Lemma temp_ok_removed (vofs : list (string * option DataFrame)) : forall t,
  temp_ok t -> temp_ok (fold_left (fun t vf => delete vf.1 t) vofs t).
Proof.
  induction vofs as [|vf vofs IH]; intros t Ht; [done|].
  simpl. apply IH. intros v old H. apply lookup_delete_Some in H as [_ H].
  by apply (Ht v).
Qed.

Lemma temp_ok_left (vofs : list (string * option DataFrame)) : forall t,
  temp_ok t ->
  (forall v sf, In (v, Some sf) vofs -> staged_table sf) ->
  temp_ok (fold_left (fun t vf => match vf.2 with
                                  | Some sf => <[vf.1 := sf]> t
                                  | None => t
                                  end) vofs t).
Proof.
  induction vofs as [|[v0 f0] vofs IH]; intros t Ht Hall; [done|].
  simpl. apply IH; [|intros v sf Hin; apply (Hall v); by right].
  destruct f0 as [sf0|]; [|done].
  intros v old H. apply lookup_insert_Some in H as [[<- <-]|[_ H]].
  - apply (Hall v0). by left.
  - by apply (Ht v).
Qed.

Section JoinTheorems.
Variables (temp_joins : temp_dir) (merge_raises : DataFrame -> DataFrame -> bool)
          (var_files : var_files_t) (var_metadata : var_metadata_t)
          (excluded_vars : list string) (join_cols : join_cols_t)
          (chunk_size : Z) (time_filter : option (cell -> bool))
          (include_vars : option (list string)) (max_rows_in_memory : Z)
          (save_fails : bool).

#[local] Abbreviation var_output_files :=
  (var_output_files_of temp_joins var_files var_metadata excluded_vars chunk_size
     time_filter include_vars max_rows_in_memory).

#[local] Abbreviation the_join :=
  (join_data_incrementally temp_joins merge_raises var_files var_metadata excluded_vars
     join_cols chunk_size time_filter include_vars max_rows_in_memory save_fails).

#[local] Abbreviation staged_rows_of :=
  (staged_rows temp_joins var_metadata time_filter chunk_size).

#[local] Abbreviation variable_rows_of :=
  (variable_rows var_metadata time_filter chunk_size).

Lemma var_output_files_NoDup :
  List.NoDup (List.map fst var_files) -> List.NoDup (List.map fst var_output_files).
Proof. intros H. by apply stage_all_NoDup, select_variables_NoDup. Qed.

(** A variable that passes the column checks: its metadata, and the
    intermediate file the staging leaves for it. *)
Lemma staged_entry v f :
  In (v, f) var_output_files ->
  exists files meta tc lc oc vc,
    In (v, files) var_files
    /\ dict_get v var_metadata = Some meta
    /\ truthy (time_col meta) = Some tc
    /\ truthy (lat_col meta) = Some lc
    /\ truthy (lon_col meta) = Some oc
    /\ truthy (value_col meta) = Some vc
    /\ f = stage_variable v tc lc oc vc time_filter chunk_size max_rows_in_memory
             (temp_joins !! v) files
    /\ variable_rows_of v files
       = flat_map (file_rows v tc lc oc vc time_filter chunk_size) files.
Proof.
  intros Hin.
  destruct (stage_all_entry _ _ _ _ _ _ _ _ Hin)
    as (files & meta & tc & lc & oc & vc & Hfiles & Hm & Ht & Hl & Ho & Hv & Hst).
  exists files, meta, tc, lc, oc, vc.
  split; [by eapply select_variables_In|]. repeat (split; [done|]).
  unfold variable_rows. by rewrite Hm, Ht, Hl, Ho, Hv.
Qed.

(** A variable that reaches the merge has an intermediate file with the
    header of a renamed frame; its rows are those the file had when the run
    began, then those of the variable's files. *)
Lemma staged_variable_spec v sf :
  temp_ok temp_joins ->
  In (v, Some sf) var_output_files ->
  exists files,
    In (v, files) var_files
    /\ staged_header (columns sf)
    /\ rows sf = staged_rows_of v files
    /\ forall r, In r (rows sf) -> length r = 4%nat.
Proof.
  intros Hok Hin.
  destruct (staged_entry _ _ Hin)
    as (files & meta & tc & lc & oc & vc & Hfiles & Hm & Ht & Hl & Ho & Hv & Hst & Hvr).
  symmetry in Hst. apply stage_variable_spec in Hst as [Hrows Hhead].
  2:{ intros o Ho'. by apply (Hok v o). }
  exists files. split; [done|]. split; [done|].
  assert (rows sf = staged_rows_of v files) as Hr.
  { unfold staged_rows. by rewrite Hvr. }
  split; [done|]. intros r Hr'. rewrite Hrows in Hr'. apply in_app_or in Hr' as [Hr'|Hr'].
  - destruct (temp_joins !! v) as [o|] eqn:E; [|done]. by apply (Hok v o E).
  - apply in_flat_map in Hr' as (f & _ & Hf). by eapply file_rows_length.
Qed.

(** The intermediate file of a variable is missing exactly when no earlier
    join left one and the variable's files give no row. *)
Lemma staged_file_exists v f :
  In (v, f) var_output_files ->
  exists files,
    In (v, files) var_files
    /\ (f = None <-> temp_joins !! v = None /\ variable_rows_of v files = []).
Proof.
  intros Hin.
  destruct (staged_entry _ _ Hin)
    as (files & meta & tc & lc & oc & vc & Hfiles & Hm & Ht & Hl & Ho & Hv & Hst & Hvr).
  exists files. split; [done|]. rewrite Hst, Hvr. apply stage_variable_None.
Qed.

Lemma temp_ok_after :
  temp_ok temp_joins ->
  temp_ok (temp_joins_after temp_joins merge_raises var_files var_metadata excluded_vars
             join_cols chunk_size time_filter include_vars max_rows_in_memory save_fails).
Proof.
  intros Hok. unfold temp_joins_after. destruct (ok _).
  - by apply temp_ok_removed.
  - apply temp_ok_left; [done|]. intros v sf Hin.
    destruct (staged_variable_spec v sf Hok Hin) as (_ & _ & Hh & _ & Hlen). by split.
Qed.

(** The frame a join returns. *)
Lemma joined_frame (out : DataFrame) :
  output the_join = Some out ->
  exists base_var base_file later coords,
    var_output_files = (base_var, Some base_file) :: later
    /\ select_cols key_columns base_file = Some coords
    /\ out = frame_after merge_raises (drop_duplicates coords) var_output_files
    /\ joined_names merge_raises var_output_files
       = merged_names merge_raises (drop_duplicates coords) var_output_files
    /\ columns out = key_columns ++ joined_names merge_raises var_output_files
    /\ well_formed out
    /\ (forall k, In k (keys_of out) <-> In k (keys_of base_file))
    /\ (List.NoDup (List.map fst var_files) -> List.NoDup (columns out)).
Proof.
  intros Hout. rewrite join_output in Hout.
  destruct (merge_all_output _ _ _ _ _ Hout)
    as (bv & bf & later & coords & Hvofs & Hsel & Hfold & _).
  destruct (merged_frame _ _ _ _ _ Hsel Hfold) as (Hcols & Hwf & Hkeys & _).
  exists bv, bf, later, coords.
  assert (joined_names merge_raises var_output_files
          = merged_names merge_raises (drop_duplicates coords) var_output_files) as Hn.
  { rewrite Hvofs. by apply joined_names_eq. }
  rewrite Hn. repeat (split; [done|]). intros Hnd.
  rewrite Hcols. apply List.NoDup_app.
  - repeat constructor; simpl; intuition discriminate.
  - by apply merged_names_NoDup, var_output_files_NoDup.
  - intros c Hc Hm. apply mergeable_fresh in Hm. apply has_col_true in Hc. congruence.
Qed.

(** The column of a merged variable, in terms of its intermediate file. *)
Lemma merged_variable_spec (out : DataFrame) v :
  List.NoDup (List.map fst var_files) ->
  temp_ok temp_joins ->
  output the_join = Some out ->
  In v (joined_names merge_raises var_output_files) ->
  exists files sf,
    In (v, files) var_files
    /\ In (v, Some sf) var_output_files
    /\ columns sf = ["time"; "latitude"; "longitude"; "value"]
    /\ rows sf = staged_rows_of v files
    /\ forall r, In r (rows out) ->
         value_from (rows sf) (row_key (columns out) r) (get_cell (columns out) v r).
Proof.
  intros Hnd Hok Hout Hv.
  destruct (joined_frame out Hout)
    as (bv & bf & later & coords & Hvofs & Hsel & Hfold & Hn & _).
  rewrite Hn in Hv.
  destruct (merged_names_inv _ _ _ _ Hv) as (sf & var_df & Hin & Hrd).
  destruct (staged_variable_spec _ _ Hok Hin) as (files & Hfiles & Hhead & Hrows & Hlen).
  destruct (read_variable_rows _ _ _ Hhead Hlen Hrd) as [Hsfcols Hvrows].
  pose proof (read_variable_columns _ _ _ Hrd) as Hvcols.
  exists files, sf. repeat (split; [done|]). intros r Hr.
  destruct (select_key_columns _ _ Hsel) as (Hc & Hwfc & _).
  pose proof (frame_after_values merge_raises var_output_files (drop_duplicates coords))
    as Hval.
  cbn zeta in Hval. rewrite <- Hfold in Hval.
  assert (cell_from var_df v (row_key (columns out) r) (get_cell (columns out) v r))
    as Hcell.
  { apply (Hval (drop_duplicates_well_formed _ Hwfc)) with (sf := sf); try done.
    - by rewrite drop_duplicates_columns, Hc.
    - by apply var_output_files_NoDup.
    - intros v' Hv'. rewrite drop_duplicates_columns, Hc. by eapply mergeable_fresh. }
  assert (has_col v key_columns = false) as Hfresh by (by eapply mergeable_fresh).
  assert (forall rd, row_key (columns var_df) rd = coords_of rd
                     /\ get_cell (columns var_df) v rd = nth 3 rd Null) as Hread.
  { intros rd. rewrite Hvcols. unfold row_key, get_cell, coords_of.
    unfold has_col in Hfresh. simpl in Hfresh. simpl.
    destruct (String.eqb v "time"), (String.eqb v "latitude"),
      (String.eqb v "longitude"); try done.
    by rewrite String.eqb_refl. }
  rewrite <- Hvrows.
  destruct Hcell as [[Hnot ->]|(rd & Hrd' & Hk & Hx)].
  - left. split; [|done]. intros Hk. apply Hnot. unfold keys_of.
    apply in_map_iff in Hk as (rd & Hk & Hrd'). apply in_map_iff.
    exists rd. split; [|done]. by rewrite (proj1 (Hread rd)).
  - right. exists rd. split; [done|].
    by rewrite <- (proj1 (Hread rd)), <- (proj2 (Hread rd)).
Qed.

(** The keys of the base file are the coordinates of its rows. *)
Lemma base_file_keys base_var base_file later :
  temp_ok temp_joins ->
  var_output_files = (base_var, Some base_file) :: later ->
  forallb (fun c => has_col c (columns base_file)) key_columns = true ->
  exists files,
    In (base_var, files) var_files
    /\ rows base_file = staged_rows_of base_var files
    /\ keys_of base_file = List.map coords_of (rows base_file).
Proof.
  intros Hok Hvofs Hhas.
  assert (In (base_var, Some base_file) var_output_files) as Hbase
    by (rewrite Hvofs; by left).
  destruct (staged_variable_spec _ _ Hok Hbase) as (files & Hfiles & Hhead & Hrows & _).
  exists files. split; [done|]. split; [done|].
  unfold keys_of. rewrite (staged_header_keys _ Hhead Hhas). by apply map_ext.
Qed.


(** C8.  Whatever the columns of the input files are called, the columns
    of a joined table are [time], [latitude], [longitude] and then one
    column for each merged variable, named after the variable; no name
    comes twice.  The rows taken from a file that has the columns named in
    the variable's metadata are the cells of these columns, and the column
    of a merged variable holds, on each row, a value of the variable's
    intermediate file on the key of the row, or the missing value where
    the file has none. *)
Theorem joined_columns_named_after_variables (out : DataFrame) :
  List.NoDup (List.map fst var_files) ->
  output the_join = Some out ->
  columns out
  = "time" :: "latitude" :: "longitude" :: joined_names merge_raises var_output_files
  /\ List.NoDup (columns out)
  /\ (forall v, In v (joined_names merge_raises var_output_files) ->
        exists files meta tc lc oc vc,
          In (v, files) var_files
          /\ dict_get v var_metadata = Some meta
          /\ truthy (time_col meta) = Some tc
          /\ truthy (lat_col meta) = Some lc
          /\ truthy (lon_col meta) = Some oc
          /\ truthy (value_col meta) = Some vc
          /\ variable_rows_of v files
             = flat_map (file_rows v tc lc oc vc time_filter chunk_size) files
          /\ forall df, (0 < chunk_size)%Z ->
               has_coords tc lc oc (columns df) = true ->
               has_col vc (columns df) = true ->
               file_rows v tc lc oc vc time_filter chunk_size (Some df)
               = rows (normalize_file time_filter tc lc oc vc df))
  /\ (temp_ok temp_joins ->
      forall v, In v (joined_names merge_raises var_output_files) ->
        exists files,
          In (v, files) var_files
          /\ forall r, In r (rows out) ->
               value_from (staged_rows_of v files)
                          (row_key (columns out) r) (get_cell (columns out) v r)).
Proof.
  intros Hnd Hout.
  destruct (joined_frame out Hout)
    as (bv & bf & later & coords & Hvofs & Hsel & Hfold & Hn & Hcols & Hwf & Hkeys & Hndc).
  split; [done|]. split; [by apply Hndc|]. split.
  - intros v Hv. rewrite Hn in Hv.
    destruct (merged_names_inv _ _ _ _ Hv) as (sf & var_df & Hin & _).
    destruct (staged_entry _ _ Hin)
      as (files & meta & tc & lc & oc & vc & Hfiles & Hm & Ht & Hl & Ho & Hvc & _ & Hvr).
    exists files, meta, tc, lc, oc, vc. repeat (split; [done|]).
    intros df. apply file_rows_direct.
  - intros Hok v Hv.
    destruct (merged_variable_spec out v Hnd Hok Hout Hv)
      as (files & sf & Hfv & _ & _ & Hsf & Hval).
    exists files. split; [done|]. by rewrite <- Hsf.
Qed.

(** C3, as the code has it.  The join of a unit succeeds exactly when
    some variable passes the column checks, the first such variable (the
    base) has an intermediate file with the three key columns, the row
    limit is positive and the output can be written.  The intermediate
    file of a variable is missing exactly when no earlier join left one
    and the variable's files give no row.  When the join succeeds, the
    columns are the keys and the variables whose turn in the merge loop
    went well; every other variable that passed the column checks has no
    column and is logged. *)
Theorem join_succeeds_iff_base_ready :
  List.NoDup (List.map fst var_files) ->
  (ok the_join = true <->
     exists base_var base_file later,
       var_output_files = (base_var, Some base_file) :: later
       /\ forallb (fun c => has_col c (columns base_file)) key_columns = true
       /\ (1 <= max_rows_in_memory)%Z
       /\ save_fails = false)
  /\ (forall v f, In (v, f) var_output_files ->
        exists files,
          In (v, files) var_files
          /\ (f = None <-> temp_joins !! v = None /\ variable_rows_of v files = []))
  /\ (ok the_join = true ->
       exists out base_var base_file later coords,
         output the_join = Some out
         /\ var_output_files = (base_var, Some base_file) :: later
         /\ select_cols key_columns base_file = Some coords
         /\ columns out = key_columns ++ joined_names merge_raises var_output_files
         /\ (forall v, In v (joined_names merge_raises var_output_files) <->
               merged_at merge_raises (drop_duplicates coords) var_output_files v)
         /\ forall v f, In (v, f) var_output_files ->
              ~ In v (joined_names merge_raises var_output_files) ->
              (In v (columns out) -> In v key_columns)
              /\ In (skip_event v f) (log the_join)).
Proof.
  intros Hnd. rewrite join_ok. split; [apply merge_all_ok|].
  split; [apply staged_file_exists|].
  intros Hok. apply merge_all_ok_output in Hok as [out Hout].
  rewrite <- (join_output _ _ _ _ _ join_cols) in Hout.
  destruct (joined_frame out Hout)
    as (bv & bf & later & coords & Hvofs & Hsel & Hfold & Hn & Hcols & _).
  exists out, bv, bf, later, coords. repeat (split; [done|]). split.
  { intros v. rewrite Hn. apply merged_names_iff. }
  intros v f Hin Hm. split.
  - rewrite Hcols. intros Hc. by apply in_app_or in Hc as [Hc|Hc].
  - rewrite join_log. apply in_or_app. right.
    rewrite join_output in Hout.
    destruct (merge_all_output _ _ _ _ _ Hout)
      as (bv' & bf' & later' & coords' & Hvofs' & Hsel' & _ & Hlogs).
    rewrite Hlogs. apply merge_fold_log; [done|]. cbn [fst].
    rewrite Hvofs in Hvofs'. injection Hvofs' as <- <- <-.
    rewrite Hsel in Hsel'. injection Hsel' as <-. by rewrite <- Hn.
Qed.
End JoinTheorems.

(** C4, as the code has it.  [identify_join_columns] picks, for each of
    time, latitude and longitude, the first met of the names that come
    most often among the variables' detected columns, or the default when
    there is none.  The join does not use that choice: its result is the
    same whatever [join_cols] it is given.  The columns detected for a
    variable that passes the column checks are, in its first file, the
    first column called time, time1 or time2, the first called latitude or
    lat and the first called longitude or lon, whatever the case of the
    letters, and the rows taken from that file are the cells of these
    columns and of the value column; a variable whose first file has no
    such time, latitude or longitude column is not staged.  Every
    intermediate file that is merged has the columns [time], [latitude],
    [longitude] and [value], the joined table has the key columns [time],
    [latitude] and [longitude] with the keys of the base file, and the
    column of a merged variable holds a value of its file on the key of
    the row, or the missing value. *)
Theorem join_keys_have_fixed_names (temp_joins : temp_dir)
    (merge_raises : DataFrame -> DataFrame -> bool) (var_files : var_files_t)
    (excluded_vars : list string) (time_filter : option (cell -> bool))
    (include_vars : option (list string)) (chunk_size max_rows : Z) (save_fails : bool)
    (out : DataFrame) :
  let var_metadata := get_variable_metadata var_files in
  let chosen := identify_join_columns var_metadata in
  let vofs := var_output_files_of temp_joins var_files var_metadata excluded_vars
                chunk_size time_filter include_vars max_rows in
  List.NoDup (List.map fst var_files) ->
  temp_ok temp_joins ->
  output (join_data_incrementally temp_joins merge_raises var_files var_metadata
            excluded_vars chosen chunk_size time_filter include_vars max_rows save_fails)
  = Some out ->
  picked_name "time" (all_cols_of time_col var_metadata) (jc_time chosen)
  /\ picked_name "latitude" (all_cols_of lat_col var_metadata) (jc_lat chosen)
  /\ picked_name "longitude" (all_cols_of lon_col var_metadata) (jc_lon chosen)
  /\ (forall other,
        join_data_incrementally temp_joins merge_raises var_files var_metadata
          excluded_vars other chunk_size time_filter include_vars max_rows save_fails
        = join_data_incrementally temp_joins merge_raises var_files var_metadata
            excluded_vars chosen chunk_size time_filter include_vars max_rows save_fails)
  /\ (forall v f, In (v, f) vofs ->
        exists df rest meta tc lc oc vc,
          In (v, Some df :: rest) var_files
          /\ dict_get v var_metadata = Some meta
          /\ truthy (time_col meta) = Some tc
          /\ truthy (lat_col meta) = Some lc
          /\ truthy (lon_col meta) = Some oc
          /\ truthy (value_col meta) = Some vc
          /\ first_label ["time"; "time1"; "time2"] (columns df) tc
          /\ first_label ["latitude"; "lat"] (columns df) lc
          /\ first_label ["longitude"; "lon"] (columns df) oc
          /\ In vc (columns df)
          /\ ((0 < chunk_size)%Z ->
              file_rows v tc lc oc vc time_filter chunk_size (Some df)
              = rows (normalize_file time_filter tc lc oc vc df)))
  /\ (forall v df rest, In (v, Some df :: rest) var_files ->
        (forall c, In c (columns df) -> ~ In (lower c) ["time"; "time1"; "time2"])
        \/ (forall c, In c (columns df) -> ~ In (lower c) ["latitude"; "lat"])
        \/ (forall c, In c (columns df) -> ~ In (lower c) ["longitude"; "lon"]) ->
        ~ In v (List.map fst vofs))
  /\ columns out
     = "time" :: "latitude" :: "longitude" :: joined_names merge_raises vofs
  /\ exists base_var base_file later,
       vofs = (base_var, Some base_file) :: later
       /\ (forall k, In k (keys_of out) <-> In k (List.map coords_of (rows base_file)))
       /\ forall v, In v (joined_names merge_raises vofs) ->
            exists files sf,
              In (v, files) var_files
              /\ In (v, Some sf) vofs
              /\ columns sf = ["time"; "latitude"; "longitude"; "value"]
              /\ rows sf = staged_rows temp_joins var_metadata time_filter chunk_size
                             v files
              /\ forall r, In r (rows out) ->
                   value_from (rows sf) (row_key (columns out) r)
                              (get_cell (columns out) v r).
Proof.
  intros var_metadata chosen vofs Hnd Hok Hout.
  split; [apply most_common_picked|].
  split; [apply most_common_picked|].
  split; [apply most_common_picked|].
  split; [done|].
  split.
  { intros v f Hin.
    destruct (staged_entry _ _ _ _ _ _ _ _ _ _ Hin)
      as (files & meta & tc & lc & oc & vc & Hfiles & Hm & Ht & Hl & Ho & Hv & _).
    destruct (get_variable_metadata_inv _ _ _ Hm) as (df & rest & Hdf & Hins).
    destruct (sample_file_columns _ _ _ _ _ _ _ Hins Ht Hl Ho Hv)
      as (Ft & Fl & Fo & Hco & Hvc).
    exists df, rest, meta, tc, lc, oc, vc. repeat (split; [done|]).
    split; [by apply has_col_true|]. intros Hcs. by apply file_rows_direct. }
  split.
  { intros v df rest Hdf Hnone Hin.
    apply in_map_iff in Hin as ([v' f] & <- & Hin).
    destruct (staged_entry _ _ _ _ _ _ _ _ _ _ Hin)
      as (files & meta & tc & lc & oc & vc & _ & Hm & Ht & Hl & Ho & _).
    cbn [fst] in *. unfold var_metadata in Hm.
    rewrite (get_variable_metadata_get _ _ _ _ Hnd Hdf) in Hm.
    injection Hm as <-. cbn [time_col lat_col lon_col] in *.
    destruct Hnone as [H|[H|H]].
    - apply (truthy_no_label ["time"; "time1"; "time2"]) in H;
        [|simpl; intuition discriminate].
      unfold is_time_label in Ht. congruence.
    - apply (truthy_no_label ["latitude"; "lat"]) in H; [|simpl; intuition discriminate].
      unfold is_lat_label in Hl. congruence.
    - apply (truthy_no_label ["longitude"; "lon"]) in H; [|simpl; intuition discriminate].
      unfold is_lon_label in Ho. congruence. }
  destruct (joined_frame _ _ _ _ _ _ _ _ _ _ _ out Hout)
    as (bv & bf & later & coords & Hvofs & Hsel & Hfold & Hn & Hcols & Hwf & Hkeys & Hndc).
  split; [done|].
  pose proof Hsel as Hhas. apply select_cols_Some in Hhas as (Hhas & _).
  destruct (base_file_keys _ _ _ _ _ _ _ _ _ _ _ Hok Hvofs Hhas)
    as (files & Hfiles & Hrows & Hbk).
  exists bv, bf, later. split; [done|]. split; [by rewrite <- Hbk|].
  intros v Hv. by apply (merged_variable_spec _ _ _ _ _ _ _ _ _ _ _ out v Hnd Hok Hout).
Qed.

(** *** The demo units *)

Example demo_join :
  output (main ∅ never_raises demo_unit DEFAULT_EXCLUDE_VARS None 2 3 false)
  = Some (mkDF ["time"; "latitude"; "longitude"; "2t"; "10u"]
       [ [Str "2021-05-01 00:00"; Num 325; Num (-970); Num 290; Num 5];
         [Str "2021-05-01 00:00"; Num 325; Num (-970); Num 299; Num 5];
         [Str "2021-05-01 00:00"; Num 330; Num (-970); Num 291; Null];
         [Str "2021-05-01 01:00"; Num 325; Num (-970); Num 292; Null] ]).
Proof. vm_compute. reflexivity. Qed.

Example demo_join_log :
  log (main ∅ never_raises demo_unit DEFAULT_EXCLUDE_VARS None 2 3 false)
  = [WarnMissingCoordinates "sp"; WarnVariableFileMissing "sd"].
Proof. vm_compute. reflexivity. Qed.

(** A wind file whose time column holds numbers: [pd.merge] raises on it,
    the variable is logged and has no column, and the join goes on. *)
Example clash_join :
  option_map columns
    (output (main ∅ key_dtype_clash clash_unit DEFAULT_EXCLUDE_VARS None 2 3 false))
  = Some ["time"; "latitude"; "longitude"; "2t"; "10v"]
  /\ log (main ∅ key_dtype_clash clash_unit DEFAULT_EXCLUDE_VARS None 2 3 false)
     = [ErrorMerging "10u"].
Proof. split; vm_compute; reflexivity. Qed.

Lemma demo_unit_NoDup : List.NoDup (List.map fst demo_unit).
Proof. repeat constructor; simpl; intuition discriminate. Qed.

Lemma mixed_unit_NoDup : List.NoDup (List.map fst mixed_unit).
Proof. repeat constructor; simpl; intuition discriminate. Qed.


Lemma joined_columns_named_after_variables_witness :
  exists out,
    output (main ∅ never_raises demo_unit DEFAULT_EXCLUDE_VARS None 2 3 false) = Some out
    /\ columns out = ["time"; "latitude"; "longitude"; "2t"; "10u"].
Proof.
  eexists. split; [vm_compute; reflexivity|].
  destruct (joined_columns_named_after_variables ∅ never_raises demo_unit
              (get_variable_metadata demo_unit) DEFAULT_EXCLUDE_VARS
              (identify_join_columns (get_variable_metadata demo_unit))
              2 None None 3 false
              (mkDF ["time"; "latitude"; "longitude"; "2t"; "10u"]
                 [ [Str "2021-05-01 00:00"; Num 325; Num (-970); Num 290; Num 5];
                   [Str "2021-05-01 00:00"; Num 325; Num (-970); Num 299; Num 5];
                   [Str "2021-05-01 00:00"; Num 330; Num (-970); Num 291; Null];
                   [Str "2021-05-01 01:00"; Num 325; Num (-970); Num 292; Null] ])
              demo_unit_NoDup)
    as (Hcols & _).
  - vm_compute. reflexivity.
  - reflexivity.
Defined.

Lemma join_succeeds_iff_base_ready_witness :
  ok (main ∅ never_raises demo_unit DEFAULT_EXCLUDE_VARS None 2 3 false) = true.
Proof.
  apply (join_succeeds_iff_base_ready ∅ never_raises demo_unit
           (get_variable_metadata demo_unit)
           DEFAULT_EXCLUDE_VARS (identify_join_columns (get_variable_metadata demo_unit))
           2 None None 3 false demo_unit_NoDup).
  eexists _, _, _. split; [vm_compute; reflexivity|].
  split; [reflexivity|]. split; [lia|reflexivity].
Defined.

Lemma join_keys_have_fixed_names_witness :
  exists out,
    output (main ∅ never_raises mixed_unit DEFAULT_EXCLUDE_VARS None 2 3 false) = Some out
    /\ first_most_frequent ["time"; "time1"; "time1"] "time1"
    /\ columns out = ["time"; "latitude"; "longitude"; "sp"; "10u"; "10v"].
Proof.
  eexists. split; [vm_compute; reflexivity|].
  destruct (join_keys_have_fixed_names ∅ never_raises mixed_unit DEFAULT_EXCLUDE_VARS
              None None 2 3 false
              (mkDF ["time"; "latitude"; "longitude"; "sp"; "10u"; "10v"]
                 [ [Str "2021-05-01 00:00"; Num 325; Num (-970); Num 2; Num 1; Num 1] ])
              mixed_unit_NoDup temp_ok_empty)
    as (Htime & _).
  - vm_compute. reflexivity.
  - split; [exact Htime|reflexivity].
Defined.

(** The unit whose first variable has a header and no rows: the join fails
    on the missing base file, although the join of the other variable alone
    succeeds, so that variable is joinable. *)
Lemma join_fails_with_joinable_variable :
  main ∅ never_raises empty_first_unit DEFAULT_EXCLUDE_VARS None 2 3 false
  = mkJoin false None [ErrorBaseFileMissing "sd"]
  /\ ok (main ∅ never_raises [("2t", [file_2t])] DEFAULT_EXCLUDE_VARS None 2 3 false)
     = true
  /\ mergeable ("2t", stage_variable "2t" "time" "latitude" "longitude" "t2m"
                        None 2 3 None [file_2t]) = true.
Proof. repeat split; vm_compute; reflexivity. Qed.

(** Two variables say [time1], one says [time], one has [valid_time] only:
    the name picked is [time1], the key column of the joined table is
    [time], and the variable with [valid_time] is left out. *)
Lemma join_key_is_not_the_plurality_name :
  jc_time (identify_join_columns (get_variable_metadata mixed_unit)) = "time1"
  /\ option_map columns
       (output (main ∅ never_raises mixed_unit DEFAULT_EXCLUDE_VARS None 2 3 false))
     = Some ["time"; "latitude"; "longitude"; "sp"; "10u"; "10v"]
  /\ log (main ∅ never_raises mixed_unit DEFAULT_EXCLUDE_VARS None 2 3 false)
     = [WarnMissingCoordinates "2d"].
Proof. repeat split; vm_compute; reflexivity. Qed.


End JoinerFacts.

(** ** Further properties of the sorter *)

Module SorterRuns.
Import Sorter SorterFacts.

Lemma error_log_path_ne_backup d p : error_log_path d p <> backup_path p.
Proof.
  destruct p as [d' n]. unfold error_log_path, backup_path, path_join. simpl.
  intros [= _ E]. apply (f_equal String.length) in E.
  rewrite !length_string_app in E. simpl in E. lia.
Qed.

Section MoreRuns.
Variable is_datetime64_any_dtype : list cell -> bool.
Variable to_datetime : list cell -> option (list cell).
Variable read_csv : Z -> list string -> list (list row) -> exn + DataFrame.

#[local] Abbreviation sort_file :=
  (sort_file_chronologically is_datetime64_any_dtype to_datetime read_csv).
#[local] Abbreviation try_sort := (Sorter.try_sort is_datetime64_any_dtype to_datetime read_csv).
#[local] Abbreviation normalize_time := (Sorter.normalize_time is_datetime64_any_dtype to_datetime).
#[local] Abbreviation read_table := (Sorter.read_table read_csv).

Lemma os_replace_other flt src dst fs q :
  q <> src -> q <> dst -> (os_replace flt src dst fs).1 !! q = fs !! q.
Proof.
  intros Hs Hd. unfold os_replace.
  destruct (fs !! src); [|done]. destruct (replace_fails flt); [done|].
  simpl. by rewrite lookup_insert_ne, lookup_delete_ne.
Qed.

Lemma try_sort_other a flt fs q :
  q <> file_path a -> q <> temp_path (file_path a) ->
  (try_sort a flt fs).1 !! q = fs !! q.
Proof.
  intros Hf Ht. unfold Sorter.try_sort.
  destruct (read_table _ _ _) as [e|df]; [done|].
  destruct (negb (has_col _ _)); [done|].
  destruct (sort_values _) as [e|sorted]; [done|].
  pose proof (save_sorted_other a flt sorted fs q Ht) as Hs.
  destruct (save_sorted a flt sorted fs) as [fs1 [e|]]; [done|].
  pose proof (os_replace_other flt (temp_path (file_path a)) (file_path a) fs1 q Ht Hf) as Hr.
  destruct (os_replace _ _ _ _) as [fs2 [e|]]; simpl in *; congruence.
Qed.

(** X1.  A run reads and writes four places at most: the file it sorts,
    the temporary file beside it, the backup copy when one is asked for,
    and the error log when a log directory is given.  Every other file is
    after the run what it was before, however the run ends. *)
Theorem sorter_leaves_other_files a flt fs q :
  q <> file_path a ->
  q <> temp_path (file_path a) ->
  (backup a = true -> q <> backup_path (file_path a)) ->
  (forall d, log_dir a = Some d -> q <> error_log_path d (file_path a)) ->
  (sort_file a flt fs).2 !! q = fs !! q.
Proof.
  intros Hf Ht Hb Hl. unfold sort_file_chronologically.
  destruct (make_backup a flt fs) as [fs0|] eqn:Eb; [|done].
  assert (fs0 !! q = fs !! q) as H0.
  { unfold make_backup in Eb. destruct (backup a); [|congruence].
    destruct (fs !! file_path a); [|done]. destruct (backup_fails flt); [done|].
    injection Eb as <-. rewrite lookup_insert_ne; [done|].
    intros E. by apply Hb. }
  pose proof (try_sort_other a flt fs0 q Hf Ht) as H1.
  destruct (try_sort a flt fs0) as [fs1 [e|r]]; simpl in *; [|congruence].
  destruct (log_dir a) as [d|]; [|simpl; congruence].
  destruct (log_fails flt); simpl; [congruence|].
  rewrite lookup_insert_ne; [congruence|]. intros E. by apply (Hl d).
Qed.

(** X2.  With a backup asked for, every run that returns a result, sorted
    or not, leaves under [backup/] a copy of the file as it was when the
    run began. *)
Theorem sorter_backup_holds_original a flt fs r fs' :
  backup a = true ->
  sort_file a flt fs = (Returned r, fs') ->
  is_Some (fs !! file_path a)
  /\ fs' !! backup_path (file_path a) = fs !! file_path a.
Proof.
  intros Hb. unfold sort_file_chronologically, make_backup. rewrite Hb.
  destruct (fs !! file_path a) as [f|]; [|done].
  destruct (backup_fails flt); [done|].
  set (fs0 := <[backup_path (file_path a) := f]> fs).
  assert ((try_sort a flt fs0).1 !! backup_path (file_path a) = Some f) as H1.
  { rewrite try_sort_other.
    - apply lookup_insert_eq.
    - apply backup_path_ne.
    - apply backup_path_ne_temp. }
  destruct (try_sort a flt fs0) as [fs1 [e|r']]; simpl in H1.
  - destruct (log_dir a) as [d|].
    + destruct (log_fails flt); [done|]. intros [= _ <-]. split; [done|].
      rewrite lookup_insert_ne; [done|]. apply error_log_path_ne_backup.
    + intros [= _ <-]. done.
  - intros [= _ <-]. done.
Qed.

Lemma try_sort_no_exn_message a flt fs fs' r e :
  try_sort a flt fs = (fs', inr r) -> error r <> Some (ExnMessage e).
Proof.
  unfold Sorter.try_sort.
  destruct (read_table _ _ _) as [e'|df]; [done|].
  destruct (negb (has_col _ _)); [by intros [= _ <-]|].
  destruct (sort_values _) as [e'|sorted]; [done|].
  destruct (save_sorted _ _ _ _) as [fs1 [e'|]]; [done|].
  destruct (os_replace _ _ _ _) as [fs2 [e'|]]; [done|].
  by intros [= _ <-].
Qed.

(** X4.  When the body of the run raises and a log directory is given,
    the failure the run returns comes with a log file
    [error_<file name>.log] in that directory. *)
Theorem sorter_failure_is_logged a flt fs r fs' e d :
  sort_file a flt fs = (Returned r, fs') ->
  error r = Some (ExnMessage e) ->
  log_dir a = Some d ->
  success r = false
  /\ fs' !! error_log_path d (file_path a) = Some Other.
Proof.
  unfold sort_file_chronologically. intros H He Hd.
  destruct (make_backup a flt fs) as [fs0|]; [|done].
  destruct (try_sort a flt fs0) as [fs1 [e'|r']] eqn:Et.
  - rewrite Hd in H. destruct (log_fails flt); [done|].
    injection H as <- <-. split; [done|]. apply lookup_insert_eq.
  - injection H as -> _. by apply try_sort_no_exn_message with (e := e) in Et.
Qed.

Lemma normalize_time_columns df : columns (normalize_time df) = columns df.
Proof.
  unfold Sorter.normalize_time.
  destruct (is_datetime64_any_dtype _); [done|]. by destruct (to_datetime _).
Qed.

Lemma normalize_time_nil df : rows df = [] -> rows (normalize_time df) = [].
Proof.
  intros H. unfold Sorter.normalize_time.
  destruct (is_datetime64_any_dtype _); [done|].
  destruct (to_datetime _); [|done]. unfold set_column. simpl. by rewrite H.
Qed.

Lemma sort_values_nil df :
  rows df = [] ->
  forallb (fun c => has_col c (columns df)) key_columns = true ->
  sort_values df = inr df.
Proof.
  intros Hr Hc. simpl in Hc.
  apply andb_prop in Hc as [H1 Hc]. apply andb_prop in Hc as [H2 Hc].
  apply andb_prop in Hc as [H3 _].
  unfold sort_values, column. rewrite H1, H2, H3, Hr. simpl.
  destruct df; simpl in *; by subst.
Qed.

(** X3.  A CSV file with a header and no rows cannot be sorted: the loop
    that writes the temporary file has nothing to write, and the move that
    follows finds no file.  With the key columns there and nothing going
    wrong on the disk, the failure returned is the one of the move. *)
Theorem sorter_empty_csv_fails a flt fs df :
  is_parquet (file_path a) = false ->
  fs !! file_path a = Some (Table df) ->
  rows df = [] ->
  fs !! temp_path (file_path a) = None ->
  succeeded (sort_file a flt fs).1 = false
  /\ (backup_fails flt = false -> read_fails flt = false -> log_fails flt = false ->
      (1 <= chunk_size a)%Z -> max_memory_rows a <> 0%Z ->
      forallb (fun c => has_col c (columns df)) key_columns = true ->
      (sort_file a flt fs).1
      = Returned (mkResult (file_path a) false (Some (ExnMessage ReplaceError)))).
Proof.
  intros Hp Hdf Hrows Htmp.
  assert (forall fs0, make_backup a flt fs = Some fs0 ->
            fs0 !! file_path a = Some (Table df)
            /\ fs0 !! temp_path (file_path a) = None) as Hfs0.
  { intros fs0 Hb. split.
    - rewrite (make_backup_keeps _ _ _ _ Hb); [done|].
      intros E. by apply (backup_path_ne (file_path a)).
    - rewrite (make_backup_keeps _ _ _ _ Hb); [done|].
      intros E. by apply (backup_path_ne_temp (file_path a)). }
  assert (forall fs0 sorted fs1, fs0 !! temp_path (file_path a) = None ->
            rows sorted = [] ->
            save_sorted a flt sorted fs0 = (fs1, None) ->
            fs1 !! temp_path (file_path a) = None) as Hsave.
  { intros fs0 sorted fs1 H0 Hs. unfold save_sorted. rewrite Hp, Hs.
    destruct (_ =? 0)%Z; [done|]. destruct (_ <? 0)%Z; [by intros [= <-]|].
    unfold chunks. simpl. by intros [= <-]. }
  split.
  - destruct (sort_file a flt fs) as [[r|] fs'] eqn:E; [|done]. simpl.
    destruct (success r) eqn:Hr; [exfalso|done].
    destruct (sort_file_success _ _ _ _ _ _ _ _ E Hr) as (fs0 & Hb & Ht).
    destruct (try_sort_success _ _ _ _ _ _ _ _ Ht Hr)
      as (df' & sorted & fs1 & f & Hread & _ & Hsort & Hsv & Hf & _).
    destruct (Hfs0 _ Hb) as [Hdf0 Htmp0].
    assert (df' = df) as ->.
    { revert Hread. unfold Sorter.read_table. rewrite Hdf0.
      destruct (read_fails flt); [done|]. destruct (_ && _); [done|]. by intros [= ->]. }
    apply sort_values_inr in Hsort.
    assert (rows sorted = []) as Hs.
    { subst sorted. simpl. by rewrite (normalize_time_nil _ Hrows). }
    rewrite (Hsave _ _ _ Htmp0 Hs Hsv) in Hf. done.
  - intros Hbf Hrf Hlf Hcs Hmm Hcols.
    unfold sort_file_chronologically.
    assert (exists fs0, make_backup a flt fs = Some fs0) as [fs0 Hb].
    { unfold make_backup. rewrite Hdf, Hbf. destruct (backup a); eauto. }
    rewrite Hb. destruct (Hfs0 _ Hb) as [Hdf0 Htmp0].
    unfold Sorter.try_sort, Sorter.read_table. rewrite Hrf, Hp, Hdf0.
    assert ((chunk_size a <? 1)%Z = false) as -> by (apply Z.ltb_ge; lia).
    simpl.
    assert (has_col "time" (columns df) = true) as ->.
    { simpl in Hcols. by apply andb_prop in Hcols as [-> _]. }
    simpl.
    rewrite (sort_values_nil (normalize_time df)); cycle 1.
    { by apply normalize_time_nil. }
    { by rewrite normalize_time_columns. }
    destruct (save_sorted a flt (normalize_time df) fs0) as [fs1 oe] eqn:Es.
    assert (oe = None /\ fs1 = fs0) as [-> ->].
    { revert Es. unfold save_sorted. rewrite Hp, (normalize_time_nil _ Hrows).
      destruct (Z.eqb_spec (Z.min (chunk_size a) (max_memory_rows a)) 0); [lia|].
      destruct (_ <? 0)%Z; [by intros [= <- <-]|].
      unfold chunks. simpl. by intros [= <- <-]. }
    unfold os_replace. rewrite Htmp0.
    destruct (log_dir a); [by rewrite Hlf|done].
Qed.

(** X7.  The same empty CSV file beside a [.sorted] file left by an
    earlier run: the loop writes nothing, the move takes the file that was
    left, and the run reports success with that file in the place of the
    input. *)
Theorem sorter_empty_csv_takes_leftover a fs df f :
  is_parquet (file_path a) = false ->
  fs !! file_path a = Some (Table df) ->
  rows df = [] ->
  forallb (fun c => has_col c (columns df)) key_columns = true ->
  (1 <= chunk_size a)%Z -> max_memory_rows a <> 0%Z ->
  fs !! temp_path (file_path a) = Some f ->
  (sort_file a no_faults fs).1 = Returned (mkResult (file_path a) true None)
  /\ (sort_file a no_faults fs).2 !! file_path a = Some f
  /\ (sort_file a no_faults fs).2 !! temp_path (file_path a) = None.
Proof.
  intros Hp Hdf Hrows Hcols Hcs Hmm Htmp.
  unfold sort_file_chronologically.
  assert (exists fs0, make_backup a no_faults fs = Some fs0) as [fs0 Hb].
  { unfold make_backup. rewrite Hdf. simpl. destruct (backup a); eauto. }
  rewrite Hb.
  assert (fs0 !! file_path a = Some (Table df)) as Hdf0.
  { rewrite (make_backup_keeps _ _ _ _ Hb); [done|].
    intros E. by apply (backup_path_ne (file_path a)). }
  assert (fs0 !! temp_path (file_path a) = Some f) as Htmp0.
  { rewrite (make_backup_keeps _ _ _ _ Hb); [done|].
    intros E. by apply (backup_path_ne_temp (file_path a)). }
  unfold Sorter.try_sort, Sorter.read_table. simpl read_fails. cbv iota. rewrite Hp, Hdf0.
  assert ((chunk_size a <? 1)%Z = false) as -> by (apply Z.ltb_ge; lia).
  simpl.
  assert (has_col "time" (columns df) = true) as ->.
  { simpl in Hcols. by apply andb_prop in Hcols as [-> _]. }
  simpl.
  rewrite (sort_values_nil (normalize_time df)); cycle 1.
  { by apply normalize_time_nil. }
  { by rewrite normalize_time_columns. }
  destruct (save_sorted a no_faults (normalize_time df) fs0) as [fs1 oe] eqn:Es.
  assert (oe = None /\ fs1 = fs0) as [-> ->].
  { revert Es. unfold save_sorted. rewrite Hp, (normalize_time_nil _ Hrows).
    destruct (Z.eqb_spec (Z.min (chunk_size a) (max_memory_rows a)) 0); [lia|].
    destruct (_ <? 0)%Z; [by intros [= <- <-]|].
    unfold chunks. simpl. by intros [= <- <-]. }
  unfold os_replace. rewrite Htmp0. simpl.
  split; [done|]. split; [apply lookup_insert_eq|].
  rewrite lookup_insert_ne by (intros E; by apply (temp_path_ne (file_path a))).
  apply lookup_delete_eq.
Qed.

End MoreRuns.

#[local] Abbreviation demo_sort :=
  (sort_file_chronologically demo_is_datetime demo_to_datetime demo_read_csv).

Lemma sorter_leaves_other_files_witness :
  (demo_sort (demo_args true) no_faults SorterCases.two_files).2 !! SorterCases.next_path
  = Some (Table SorterCases.leftover_table).
Proof.
  rewrite (sorter_leaves_other_files demo_is_datetime demo_to_datetime demo_read_csv
             (demo_args true) no_faults SorterCases.two_files SorterCases.next_path).
  - vm_compute. reflexivity.
  - vm_compute. discriminate.
  - vm_compute. discriminate.
  - intros _. vm_compute. discriminate.
  - intros d [= <-]. vm_compute. discriminate.
Defined.

Lemma sorter_backup_holds_original_witness :
  is_Some (SorterCases.two_files !! file_path (demo_args true))
  /\ (demo_sort (demo_args true) no_faults SorterCases.two_files).2
       !! backup_path (file_path (demo_args true))
     = SorterCases.two_files !! file_path (demo_args true).
Proof.
  apply (sorter_backup_holds_original demo_is_datetime demo_to_datetime demo_read_csv
           (demo_args true) no_faults SorterCases.two_files
           (mkResult demo_path true None)).
  - reflexivity.
  - apply pair_from_fst. vm_compute. reflexivity.
Defined.

Lemma sorter_empty_csv_fails_witness :
  (demo_sort (demo_args false) no_faults {[ demo_path := Table SorterCases.empty_table ]}).1
  = Returned (mkResult demo_path false (Some (ExnMessage ReplaceError))).
Proof.
  destruct (sorter_empty_csv_fails demo_is_datetime demo_to_datetime demo_read_csv
              (demo_args false) no_faults
              {[ demo_path := Table SorterCases.empty_table ]} SorterCases.empty_table)
    as [_ H].
  - vm_compute. reflexivity.
  - vm_compute. reflexivity.
  - reflexivity.
  - vm_compute. reflexivity.
  - apply H; try reflexivity; simpl; lia.
Defined.

Lemma sorter_empty_csv_takes_leftover_witness :
  (demo_sort (demo_args false) no_faults
     {[ demo_path := Table SorterCases.empty_table;
        temp_path demo_path := Table SorterCases.leftover_table ]}).2 !! demo_path
  = Some (Table SorterCases.leftover_table).
Proof.
  destruct (sorter_empty_csv_takes_leftover demo_is_datetime demo_to_datetime demo_read_csv
              (demo_args false)
              {[ demo_path := Table SorterCases.empty_table;
                 temp_path demo_path := Table SorterCases.leftover_table ]}
              SorterCases.empty_table (Table SorterCases.leftover_table))
    as (_ & H & _).
  - vm_compute. reflexivity.
  - vm_compute. reflexivity.
  - reflexivity.
  - reflexivity.
  - simpl. lia.
  - simpl. lia.
  - vm_compute. reflexivity.
  - exact H.
Defined.

Lemma sorter_failure_is_logged_witness :
  let a := demo_args false in
  let fs : gmap path file := {[ demo_path := Table SorterCases.no_latitude_table ]} in
  success (mkResult demo_path false (Some (ExnMessage (KeyError "latitude")))) = false
  /\ (demo_sort a no_faults fs).2 !! error_log_path ["logs"] (file_path a) = Some Other.
Proof.
  intros a fs.
  apply (sorter_failure_is_logged demo_is_datetime demo_to_datetime demo_read_csv
           a no_faults fs _ _ (KeyError "latitude") ["logs"]).
  - apply pair_from_fst. vm_compute. reflexivity.
  - reflexivity.
  - reflexivity.
Defined.

End SorterRuns.

(** ** Further properties of the joiner *)

Module JoinerRuns.
Import Joiner JoinerFacts.

Lemma select_variables_spec var_files excluded_vars include_vars vf :
  In vf (select_variables var_files excluded_vars include_vars) <->
  In vf var_files
  /\ ~ In vf.1 excluded_vars
  /\ forall inc, include_vars = Some inc -> In vf.1 inc.
Proof.
  unfold select_variables. rewrite filter_In, negb_true_iff, has_col_false.
  destruct include_vars as [inc|].
  - rewrite filter_In, has_col_true. split.
    + intros [[H1 H2] H3]. split; [done|]. split; [done|]. by intros ? [= <-].
    + intros (H1 & H2 & H3). split; [|done]. split; [done|]. by apply H3.
  - split; [|tauto]. intros [H1 H2]. split; [done|]. split; [done|]. done.
Qed.

(** Among rows with distinct keys at most one has a given key. *)
Lemma filter_key_unique {A K : Type} `{EqDecision K} (key : A -> K) (k : K) (l : list A) :
  List.NoDup (List.map key l) ->
  (length (List.filter (fun x => bool_decide (key x = k)) l) <= 1)%nat.
Proof.
  induction l as [|x l IH]; simpl; [lia|].
  intros Hnd. apply List.NoDup_cons_iff in Hnd as [Hhd Hnd]. specialize (IH Hnd).
  destruct (bool_decide (key x = k)) eqn:E; [|done].
  apply bool_decide_eq_true in E. simpl.
  assert (List.filter (fun y => bool_decide (key y = k)) l = []) as ->; [|simpl; lia].
  destruct (List.filter _ l) as [|y ys] eqn:Ef; [done|].
  exfalso. apply Hhd. apply in_map_iff. exists y.
  assert (In y (List.filter (fun y => bool_decide (key y = k)) l)) as Hy
    by (rewrite Ef; by left).
  apply filter_In in Hy as [Hy Hk]. apply bool_decide_eq_true in Hk. split; congruence.
Qed.

(** A left merge with a table that has every key once adds a cell to each
    row and no row. *)
Lemma map_flat_map_single {A B C : Type} (g : A -> list B) (k : B -> C) (k0 : A -> C) l :
  (forall x, In x l -> List.map k (g x) = [k0 x]) ->
  List.map k (flat_map g l) = List.map k0 l.
Proof.
  induction l as [|x l IH]; intros H; simpl; [done|].
  rewrite List.map_app, H by (by left). simpl. f_equal.
  apply IH. intros y Hy. apply H. by right.
Qed.

Lemma merge_left_keys base_df v var_df :
  well_formed base_df ->
  forallb (fun c => has_col c (columns base_df)) key_columns = true ->
  List.NoDup (keys_of var_df) ->
  keys_of (merge_left base_df v var_df) = keys_of base_df.
Proof.
  intros Hwf Hkeys Hnd. unfold keys_of, merge_left. cbn [rows columns].
  apply map_flat_map_single. intros r Hr.
  assert (forall x, row_key (columns base_df ++ [v]) (r ++ [x])
                    = row_key (columns base_df) r) as Hkey.
  { intros x. rewrite row_key_app by done.
    by rewrite (firstn_snoc r x _ (Hwf r Hr)). }
  pose proof (filter_key_unique (row_key (columns var_df))
                (row_key (columns base_df) r) (rows var_df) Hnd) as Hle.
  destruct (List.filter _ (rows var_df)) as [|m [|m' ms]]; simpl in *; try lia;
    by rewrite Hkey.
Qed.

Lemma frame_after_keys mr vofs : forall b,
  well_formed b ->
  forallb (fun c => has_col c (columns b)) key_columns = true ->
  (forall v sf var_df, In (v, Some sf) vofs -> read_variable v sf = Some var_df ->
     In v (merged_names mr b vofs) -> List.NoDup (keys_of var_df)) ->
  keys_of (frame_after mr b vofs) = keys_of b.
Proof.
  induction vofs as [|[v f] vofs IH]; intros b Hwf Hkeys Hnd; [done|].
  rewrite frame_after_cons.
  pose proof (frame_after_step mr b (v, f)) as H1. cbn [fst snd] in H1.
  cbn [merged_names] in Hnd.
  set (b1 := frame_after mr b [(v, f)]) in *. clearbody b1.
  assert (forall v' sf var_df, In (v', Some sf) vofs -> read_variable v' sf = Some var_df ->
            In v' (merged_names mr b1 vofs) -> List.NoDup (keys_of var_df)) as Hnd'.
  { intros v' sf var_df Hin Hrd Hv'. apply (Hnd v' sf); [by right|done|].
    destruct (merges mr b (v, f)); [by right|done]. }
  destruct (merges mr b (v, f)) eqn:Em; [|subst b1; by rewrite IH].
  unfold merges in Em. cbn [fst snd] in Em.
  destruct f as [sf|]; [|done].
  destruct (read_variable v sf) as [var_df|] eqn:Erd; [|done].
  rewrite IH; [| rewrite H1; by apply merge_left_well_formed
               | rewrite H1; unfold merge_left; cbn [columns]; by apply keys_present_app
               | done].
  rewrite H1. apply merge_left_keys; [done|done|].
  apply (Hnd v sf); [by left|done|by left].
Qed.

Section MoreJoins.
Variables (temp_joins : temp_dir) (merge_raises : DataFrame -> DataFrame -> bool)
          (var_files : var_files_t) (var_metadata : var_metadata_t)
          (excluded_vars : list string) (join_cols : join_cols_t)
          (chunk_size : Z) (time_filter : option (cell -> bool))
          (include_vars : option (list string)) (max_rows_in_memory : Z)
          (save_fails : bool).

#[local] Abbreviation var_output_files :=
  (var_output_files_of temp_joins var_files var_metadata excluded_vars chunk_size
     time_filter include_vars max_rows_in_memory).

#[local] Abbreviation the_join :=
  (join_data_incrementally temp_joins merge_raises var_files var_metadata excluded_vars
     join_cols chunk_size time_filter include_vars max_rows_in_memory save_fails).

(** X8.  The selection of variables holds for the output: every column of
    a joined table other than the three keys is the name of a variable of
    the unit that is not on the exclusion list and, when an inclusion list
    is given, is on that list. *)
Theorem joined_columns_respect_selection (out : DataFrame) :
  output the_join = Some out ->
  forall c, In c (columns out) ->
    In c key_columns
    \/ (In c (List.map fst var_files)
        /\ ~ In c excluded_vars
        /\ forall inc, include_vars = Some inc -> In c inc).
Proof.
  intros Hout c Hc.
  destruct (joined_frame _ _ _ _ _ _ _ _ _ _ _ out Hout)
    as (bv & bf & later & coords & Hvofs & Hsel & Hfold & Hn & Hcols & _).
  rewrite Hcols, Hn in Hc. apply in_app_or in Hc as [Hc|Hc]; [by left|right].
  apply merged_names_names, stage_all_names in Hc.
  apply in_map_iff in Hc as (vf & <- & Hvf).
  apply select_variables_spec in Hvf as (H1 & H2 & H3).
  split; [|done]. apply in_map_iff. by exists vf.
Qed.

(** X9.  When the intermediate file of no merged variable has two rows
    on one key (the rows an earlier join that failed left in it, then the
    rows of the variable's files), the joined table has no two rows on one
    key: it has exactly one row for each key of the base variable's
    intermediate file. *)
Theorem joined_rows_one_per_key (out : DataFrame) :
  List.NoDup (List.map fst var_files) ->
  temp_ok temp_joins ->
  output the_join = Some out ->
  (forall v files, In v (joined_names merge_raises var_output_files) ->
     In (v, files) var_files ->
     List.NoDup (List.map coords_of
                   (staged_rows temp_joins var_metadata time_filter chunk_size v files))) ->
  List.NoDup (keys_of out).
Proof.
  intros Hnd Hok Hout Huniq.
  destruct (joined_frame _ _ _ _ _ _ _ _ _ _ _ out Hout)
    as (bv & bf & later & coords & Hvofs & Hsel & Hfold & Hn & _).
  destruct (select_key_columns _ _ Hsel) as (Hc & Hwfc & _).
  rewrite Hfold, frame_after_keys.
  - apply drop_duplicates_NoDup.
  - by apply drop_duplicates_well_formed.
  - by rewrite drop_duplicates_columns, Hc.
  - intros v sf var_df Hin Hrd Hv. rewrite <- Hn in Hv.
    destruct (staged_variable_spec temp_joins var_files var_metadata excluded_vars
                chunk_size time_filter include_vars max_rows_in_memory v sf Hok Hin)
      as (files & Hfiles & Hhead & Hrows & Hlen).
    destruct (read_variable_rows _ _ _ Hhead Hlen Hrd) as [_ Hvrows].
    pose proof (read_variable_columns _ _ _ Hrd) as Hvcols.
    assert (has_col v key_columns = false) as Hfresh.
    { rewrite Hn in Hv. by eapply mergeable_fresh. }
    specialize (Huniq v files Hv Hfiles).
    unfold keys_of. rewrite Hvrows, Hrows, Hvcols.
    erewrite map_ext; [exact Huniq|].
    intros rd. unfold row_key, get_cell, coords_of.
    unfold has_col in Hfresh. simpl in Hfresh. simpl.
    by destruct (String.eqb v "time"), (String.eqb v "latitude"),
      (String.eqb v "longitude").
Qed.

End MoreJoins.

(** *** The chunk size and the row limit do not show in the result *)

Import JoinerStaging.

(** One file staged under two settings: header and rows agree after it
    when they agreed before. *)
Lemma stage_file_settings var_name tc lc oc vc time_filter cs1 cs2 m1 m2 st1 st2 f :
  (0 < cs1)%Z -> (0 < cs2)%Z ->
  header_of st1 = header_of st2 -> content st1 = content st2 ->
  let st1' := stage_file var_name tc lc oc vc time_filter cs1 m1 st1 f in
  let st2' := stage_file var_name tc lc oc vc time_filter cs2 m2 st2 f in
  header_of st1' = header_of st2' /\ content st1' = content st2'.
Proof.
  intros H1 H2 Hh Hc st1' st2'. split.
  - unfold st1', st2', stage_file. destruct f as [df|]; [|done].
    destruct (resolve_columns var_name tc lc oc vc df) as [[[[tc' lc'] oc'] vc']|]; [|done].
    destruct (Z.leb_spec cs1 0); [lia|]. destruct (Z.leb_spec cs2 0); [lia|].
    rewrite !header_of_add_chunks, Hh. destruct (header_of st2); [done|].
    set (nf := normalize_file time_filter tc' lc' oc' vc' df).
    destruct (rows nf) as [|r rs] eqn:Er; [done|].
    destruct (chunks (Z.to_nat cs1) (r :: rs)) as [|c1 k1] eqn:E1;
      [by apply chunks_nil_iff in E1|].
    destruct (chunks (Z.to_nat cs2) (r :: rs)) as [|c2 k2] eqn:E2;
      [by apply chunks_nil_iff in E2|].
    done.
  - unfold st1', st2'. rewrite !content_stage_file, Hc. f_equal.
    unfold file_rows. destruct f as [df|]; [|done].
    destruct (resolve_columns var_name tc lc oc vc df) as [[[[tc' lc'] oc'] vc']|]; [|done].
    destruct (Z.leb_spec cs1 0); [lia|]. by destruct (Z.leb_spec cs2 0); [lia|].
Qed.

Lemma stage_files_settings var_name tc lc oc vc time_filter cs1 cs2 m1 m2 files :
  (0 < cs1)%Z -> (0 < cs2)%Z ->
  forall st1 st2,
  header_of st1 = header_of st2 -> content st1 = content st2 ->
  let st1' := fold_left (stage_file var_name tc lc oc vc time_filter cs1 m1) files st1 in
  let st2' := fold_left (stage_file var_name tc lc oc vc time_filter cs2 m2) files st2 in
  header_of st1' = header_of st2' /\ content st1' = content st2'.
Proof.
  intros H1 H2. induction files as [|f files IH]; intros st1 st2 Hh Hc; [done|].
  simpl.
  destruct (stage_file_settings var_name tc lc oc vc time_filter cs1 cs2 m1 m2 st1 st2 f
              H1 H2 Hh Hc) as [Hh' Hc'].
  by apply IH.
Qed.

Lemma stage_variable_settings var_name tc lc oc vc time_filter cs1 cs2 m1 m2 old files :
  (0 < cs1)%Z -> (0 < cs2)%Z ->
  stage_variable var_name tc lc oc vc time_filter cs1 m1 old files
  = stage_variable var_name tc lc oc vc time_filter cs2 m2 old files.
Proof.
  intros H1 H2.
  change (finish (fold_left (stage_file var_name tc lc oc vc time_filter cs1 m1) files
                    (mkStage [] 0 old))
          = finish (fold_left (stage_file var_name tc lc oc vc time_filter cs2 m2) files
                      (mkStage [] 0 old))).
  rewrite !finish_spec.
  destruct (stage_files_settings var_name tc lc oc vc time_filter cs1 cs2 m1 m2 files
              H1 H2 (mkStage [] 0 old) (mkStage [] 0 old) eq_refl eq_refl) as [-> ->].
  done.
Qed.

Lemma stage_all_settings var_metadata time_filter cs1 cs2 m1 m2 temp var_files :
  (0 < cs1)%Z -> (0 < cs2)%Z ->
  stage_all var_metadata time_filter cs1 m1 temp var_files
  = stage_all var_metadata time_filter cs2 m2 temp var_files.
Proof.
  intros H1 H2. induction var_files as [|[v files] rest IH]; simpl; [done|].
  rewrite IH. destruct (stage_all var_metadata time_filter cs2 m2 temp rest) as [out log].
  destruct (dict_get v var_metadata) as [meta|]; [|done].
  destruct (truthy (time_col meta)), (truthy (lat_col meta)), (truthy (lon_col meta));
    try done.
  destruct (truthy (value_col meta)); [|done].
  by rewrite (stage_variable_settings v _ _ _ _ time_filter cs1 cs2 m1 m2 _ files H1 H2).
Qed.

(** X10.  The chunk size and the row limit bound the memory the join
    takes and nothing else: with any positive chunk size and any row limit
    of at least one, the join of a unit returns the same verdict, the same
    table and the same log, whatever earlier joins left in [temp_joins]
    and whichever merges raise. *)
Theorem join_independent_of_memory_limits temp_joins merge_raises var_files var_metadata
    excluded_vars join_cols time_filter include_vars save_fails cs1 cs2 m1 m2 :
  (0 < cs1)%Z -> (0 < cs2)%Z -> (1 <= m1)%Z -> (1 <= m2)%Z ->
  join_data_incrementally temp_joins merge_raises var_files var_metadata excluded_vars
    join_cols cs1 time_filter include_vars m1 save_fails
  = join_data_incrementally temp_joins merge_raises var_files var_metadata excluded_vars
      join_cols cs2 time_filter include_vars m2 save_fails.
Proof.
  intros H1 H2 Hm1 Hm2. unfold join_data_incrementally.
  rewrite (stage_all_settings var_metadata time_filter cs1 cs2 m1 m2 _ _ H1 H2).
  destruct (stage_all _ _ _ _ _ _) as [vofs warnings].
  assert (merge_all merge_raises vofs m1 save_fails
          = merge_all merge_raises vofs m2 save_fails) as ->; [|done].
  unfold merge_all. destruct vofs as [|[bv [bf|]] later]; try done.
  destruct (Z.ltb_spec m1 1); [lia|]. by destruct (Z.ltb_spec m2 1); [lia|].
Qed.

(** X11.  The four columns the joiner takes from a file it does not skip
    are columns of that file, so the selection of lines 315-316 finds
    each of them. *)
Theorem selected_columns_exist var_name tc lc oc vc df tc' lc' oc' vc' :
  resolve_columns var_name tc lc oc vc df = Some (tc', lc', oc', vc') ->
  In tc' (columns df) /\ In lc' (columns df)
  /\ In oc' (columns df) /\ In vc' (columns df).
Proof.
  unfold resolve_columns.
  set (sel := if negb (has_coords tc lc oc (columns df)) then _ else _).
  destruct sel as [[[t l] o] w].
  destruct (has_coords t l o (columns df)) eqn:Hco; [|done]. simpl.
  unfold has_coords in Hco.
  apply andb_prop in Hco as [Hco Ho]. apply andb_prop in Hco as [Ht Hl].
  apply has_col_true in Ht, Hl, Ho.
  destruct (has_col w (columns df)) eqn:Hw; simpl.
  - intros [= <- <- <- <-]. apply has_col_true in Hw. done.
  - destruct (last_opt _) as [x|] eqn:Ex; [|done].
    intros [= <- <- <- <-]. repeat split; try done.
    unfold last_opt in Ex.
    assert (In x (rev (List.filter
              (fun c => negb (has_col c [t; l; o; "number"; "step"; "surface"]))
              (columns df)))) as Hin.
    { destruct (rev _) as [|y ys]; [done|]. injection Ex as ->. by left. }
    apply in_rev, filter_In in Hin. tauto.
Qed.


(** *** The demo units again *)

Lemma joined_columns_respect_selection_witness :
  exists out,
    output (join_data_incrementally ∅ never_raises demo_unit
              (get_variable_metadata demo_unit) ["2t"]
              (identify_join_columns (get_variable_metadata demo_unit)) 2 None
              (Some ["2t"; "10u"]) 3 false) = Some out
    /\ forall c, In c (columns out) ->
         In c key_columns
         \/ (In c (List.map fst demo_unit)
             /\ ~ In c ["2t"]
             /\ forall inc, Some ["2t"; "10u"] = Some inc -> In c inc).
Proof.
  eexists. split.
  - vm_compute. reflexivity.
  - apply (joined_columns_respect_selection ∅ never_raises demo_unit
             (get_variable_metadata demo_unit)
             ["2t"] (identify_join_columns (get_variable_metadata demo_unit)) 2 None
             (Some ["2t"; "10u"]) 3 false).
    vm_compute. reflexivity.
Defined.

Lemma joined_rows_one_per_key_witness :
  exists out,
    output (join_data_incrementally ∅ never_raises unique_unit
              (get_variable_metadata unique_unit) []
              (identify_join_columns (get_variable_metadata unique_unit)) 2 None
              None 3 false) = Some out
    /\ List.NoDup (keys_of out).
Proof.
  eexists. split.
  - vm_compute. reflexivity.
  - apply (joined_rows_one_per_key ∅ never_raises unique_unit
             (get_variable_metadata unique_unit) []
             (identify_join_columns (get_variable_metadata unique_unit)) 2 None
             None 3 false).
    + repeat (constructor; [simpl; intuition discriminate|]). constructor.
    + exact temp_ok_empty.
    + vm_compute. reflexivity.
    + intros v files _ [[= <- <-]|[[= <- <-]|[]]]; vm_compute;
        repeat (constructor; [simpl; intuition discriminate|]); constructor.
Defined.

(** The rows a failed join left are read again by the next join of the
    same unit, which then has every key twice. *)
Example rerun_after_failed_join :
  let left :=
    temp_joins_after ∅ never_raises unique_unit (get_variable_metadata unique_unit) []
      (identify_join_columns (get_variable_metadata unique_unit)) 2 None None 3 true in
  option_map (fun out => length (rows out))
    (output (join_data_incrementally ∅ never_raises unique_unit
               (get_variable_metadata unique_unit) []
               (identify_join_columns (get_variable_metadata unique_unit)) 2 None None 3
               false)) = Some 2%nat
  /\ option_map (fun out => length (rows out))
       (output (join_data_incrementally left never_raises unique_unit
                  (get_variable_metadata unique_unit) []
                  (identify_join_columns (get_variable_metadata unique_unit)) 2 None None 3
                  false)) = Some 6%nat.
Proof. split; vm_compute; reflexivity. Qed.

Lemma join_independent_of_memory_limits_witness :
  join_data_incrementally ∅ never_raises demo_unit (get_variable_metadata demo_unit)
    DEFAULT_EXCLUDE_VARS
    (identify_join_columns (get_variable_metadata demo_unit)) 2 None None 3 false
  = join_data_incrementally ∅ never_raises demo_unit (get_variable_metadata demo_unit)
      DEFAULT_EXCLUDE_VARS
      (identify_join_columns (get_variable_metadata demo_unit)) 100000 None None 1000000
      false.
Proof. apply join_independent_of_memory_limits; lia. Defined.

Lemma selected_columns_exist_witness :
  In "time1" ["time1"; "lat"; "lon"; "u10"] /\ In "lat" ["time1"; "lat"; "lon"; "u10"]
  /\ In "lon" ["time1"; "lat"; "lon"; "u10"] /\ In "u10" ["time1"; "lat"; "lon"; "u10"].
Proof.
  apply (selected_columns_exist "10u" "time" "latitude" "longitude" "value"
           (mkDF ["time1"; "lat"; "lon"; "u10"] [])).
  vm_compute. reflexivity.
Defined.

End JoinerRuns.

(** ** Further properties of the extractor *)

Module ExtractorRuns.
Import Extractor ExtractorFacts ExtractorChunks.

(** How many pieces a list is cut into. *)
Lemma chunks_fuel_length {A : Type} (c : nat) :
  (0 < c)%nat ->
  forall fuel (l : list A), (length l <= fuel)%nat ->
  length (chunks_fuel fuel c l) = ((length l + c - 1) / c)%nat.
Proof.
  intros Hc. induction fuel as [|fuel IH]; intros l Hl.
  - destruct l; [|simpl in Hl; lia]. simpl.
    symmetry. apply Nat.div_small. lia.
  - destruct l as [|x l].
    { simpl. symmetry. apply Nat.div_small. lia. }
    set (l0 := x :: l) in *.
    assert (0 < length l0)%nat as Hpos by (unfold l0; simpl; lia).
    change (chunks_fuel (S fuel) c l0)
      with (firstn c l0 :: chunks_fuel fuel c (skipn c l0)).
    change (length (firstn c l0 :: chunks_fuel fuel c (skipn c l0)))
      with (S (length (chunks_fuel fuel c (skipn c l0)))).
    assert (length l0 <= S fuel)%nat as Hl0 by exact Hl.
    rewrite IH by (rewrite length_skipn; lia).
    rewrite length_skipn. clearbody l0.
    destruct (Nat.le_gt_cases c (length l0)) as [Hge|Hlt].
    + replace (length l0 + c - 1)%nat with ((length l0 - c + c - 1) + 1 * c)%nat by lia.
      rewrite Nat.div_add by lia. lia.
    + replace (length l0 - c)%nat with 0%nat by lia.
      rewrite (Nat.div_small (0 + c - 1) c) by lia.
      apply Nat.div_unique with (r := (length l0 - 1)%nat); lia.
Qed.

Lemma chunks_length {A : Type} (c : nat) (l : list A) :
  (0 < c)%nat -> length (chunks c l) = ((length l + c - 1) / c)%nat.
Proof. intros Hc. by apply chunks_fuel_length. Qed.

Lemma decode_steps_app a b :
  decode_steps (a ++ b)
  = match decode_steps a, decode_steps b with
    | Some x, Some y => Some (x ++ y)
    | _, _ => None
    end.
Proof.
  induction a as [|[rs|] a IH]; simpl.
  - by destruct (decode_steps b).
  - rewrite IH. destruct (decode_steps a), (decode_steps b); simpl; try done.
    by rewrite app_assoc.
  - done.
Qed.

(** When the whole decodes, every piece does, and the pieces put together
    are the whole. *)
Lemma decoded_prefix_all pieces rows_all :
  decode_steps (concat pieces) = Some rows_all ->
  length (decoded_prefix pieces) = length pieces
  /\ concat (decoded_prefix pieces) = rows_all.
Proof.
  revert rows_all. induction pieces as [|p ps IH]; intros rows_all; simpl.
  - by intros [= <-].
  - rewrite decode_steps_app. destruct (decode_steps p) as [rs|]; [|done].
    destruct (decode_steps (concat ps)) as [rest|] eqn:E; [|done].
    intros [= <-]. destruct (IH rest eq_refl) as [Hlen Hcat]. simpl.
    by rewrite Hlen, Hcat.
Qed.

Lemma decoded_prefix_short pieces :
  decode_steps (concat pieces) = None ->
  (length (decoded_prefix pieces) < length pieces)%nat.
Proof.
  induction pieces as [|p ps IH]; simpl; [done|].
  rewrite decode_steps_app. destruct (decode_steps p) as [rs|]; [|simpl; lia].
  destruct (decode_steps (concat ps)) as [rest|] eqn:E; [done|].
  intros _. simpl. specialize (IH eq_refl). lia.
Qed.

Lemma combine_map_fst {A A' B : Type} (f : A -> A') (l : list A) (l' : list B) :
  combine (List.map f l) l' = List.map (fun ab => (f ab.1, ab.2)) (combine l l').
Proof.
  revert l'. induction l as [|a l IH]; intros [|b l']; simpl; try done.
  by rewrite IH.
Qed.

Section MoreExtractorRuns.
Variable round_value : Z -> cell -> cell.

Lemma written_bind {A B : Type} (m : M A) (k : A -> M B) :
  written (bind m k)
  = written m ++ match m.2 with Some x => written (k x) | None => [] end.
Proof.
  unfold written. rewrite bind_fst, flat_map_app. by destruct m.2.
Qed.

(** The loop over the pieces: a file for each piece before the first one
    that does not decode, and success when there is no such piece. *)
Lemma write_time_chunks_spec cfg da output_dir year month v pieces :
  forall j,
  let c := time_chunk_size cfg in
  let run := write_time_chunks round_value cfg da
               (var_output_dir output_dir year month v) year month v
               (length (da_steps da)) (j * c) pieces in
  written run
  = List.map (fun kr => chunk_output round_value cfg da output_dir year month v
                          (j + kr.1) kr.2)
      (combine (seq 0 (length (decoded_prefix pieces))) (decoded_prefix pieces))
  /\ (run.2 = Some tt <-> length (decoded_prefix pieces) = length pieces).
Proof.
  induction pieces as [|piece pieces IH]; intros j c run.
  - by split.
  - subst run. cbn [write_time_chunks decoded_prefix].
    unfold mbind, M_bind, to_dataframe.
    destruct (decode_steps piece) as [rs|] eqn:Ed.
    + destruct (IH (S j)) as [Hw Hr]. fold c in Hw, Hr.
      assert (S j * c = j * c + time_chunk_size cfg)%nat as Ej by (unfold c; lia).
      rewrite Ej in Hw, Hr.
      rewrite written_bind, bind_snd. cbn [ret fst snd].
      rewrite written_bind, bind_snd. cbn [tell fst snd].
      unfold written at 1 2, ret, tell. cbn [fst flat_map app].
      split.
      * rewrite Hw. cbn [length seq combine List.map fst snd]. f_equal.
        { unfold chunk_output. rewrite Nat.add_0_r. done. }
        rewrite <- seq_shift, combine_map_fst, List.map_map.
        apply map_ext. intros [k r]. cbn [fst snd]. by rewrite Nat.add_succ_r.
      * rewrite Hr. cbn [length]. lia.
    + rewrite written_bind, bind_snd. cbn [raise fst snd written flat_map app length].
      split; [done|]. split; [done|lia].
Qed.

(** X12.  A variable with a time dimension is written as one file for
    each piece of [time_chunk_size] steps, named after the range of steps
    it holds, the last one ending at the number of steps.  The files hold
    the rows of the pieces that decode before the first one that does not;
    the run succeeds exactly when every piece decodes, and then the files
    hold every decoded row once, in order. *)
Theorem time_chunks_tile da year month v output_dir cfg tdim :
  time_dim_of (da_dims da) = Some tdim ->
  (0 < time_chunk_size cfg)%nat ->
  let run := process_variable_data round_value da year month v output_dir cfg in
  let c := time_chunk_size cfg in
  let n := length (da_steps da) in
  let parts := decoded_prefix (chunks c (da_steps da)) in
  written run
  = List.map (fun kr => chunk_output round_value cfg da output_dir year month v kr.1 kr.2)
      (combine (seq 0 (length parts)) parts)
  /\ (run.2 = Some tt <-> decode_steps (da_steps da) <> None)
  /\ forall rows_all, decode_steps (da_steps da) = Some rows_all ->
       concat parts = rows_all /\ length parts = ((n + c - 1) / c)%nat.
Proof.
  intros Ht Hc run c n parts. subst run c n. unfold process_variable_data. rewrite Ht.
  destruct (Nat.eqb_spec (time_chunk_size cfg) 0) as [E|_]; [lia|].
  destruct (write_time_chunks_spec cfg da output_dir year month v
              (chunks (time_chunk_size cfg) (da_steps da)) 0) as [Hw Hr].
  change (0 * time_chunk_size cfg)%nat with 0%nat in Hw, Hr.
  fold parts in Hw, Hr.
  assert (concat (chunks (time_chunk_size cfg) (da_steps da)) = da_steps da) as Hcat
    by (apply chunks_concat; lia).
  split; [exact Hw|]. split.
  - rewrite Hr. split.
    + intros Hlen Hnone. rewrite <- Hcat in Hnone.
      apply decoded_prefix_short in Hnone. fold parts in Hnone. lia.
    + intros Hsome. destruct (decode_steps (da_steps da)) as [rows_all|] eqn:E; [|done].
      rewrite <- Hcat in E. by apply decoded_prefix_all in E as [? _].
  - intros rows_all E. rewrite <- Hcat in E.
    apply decoded_prefix_all in E as [Hlen Hall]. fold parts in Hlen, Hall.
    split; [done|]. rewrite Hlen. by apply chunks_length.
Qed.

(** *** Rounding of the coordinates *)

Lemma combine_map_self {A B : Type} (f : A -> B) (l : list A) :
  combine l (List.map f l) = List.map (fun x => (x, f x)) l.
Proof. induction l as [|x l IH]; simpl; [done|]. by rewrite IH. Qed.

Lemma round_column_rows p df c0 :
  has_col c0 (columns df) && is_numeric_dtype (column df c0) = true ->
  round_column round_value p df c0
  = mkDF (columns df)
         (List.map (fun r => set_cell (columns df) c0 r
                               (round_value p (get_cell (columns df) c0 r)))
                   (rows df)).
Proof.
  intros H. unfold round_column. rewrite H. unfold set_column, column.
  by rewrite List.map_map, combine_map_self, List.map_map.
Qed.

Lemma get_cell_set_cell_ne cols c c0 (r : row) x :
  c <> c0 -> get_cell cols c (set_cell cols c0 r x) = get_cell cols c r.
Proof.
  intros Hne. unfold get_cell, set_cell.
  destruct (col_index c0 cols) as [i|] eqn:Ei; [|done].
  destruct (col_index c cols) as [j|] eqn:Ej; [|done].
  apply SorterFacts.nth_insert_ne. intros ->.
  apply col_index_Some in Ei as [_ Hi]. apply col_index_Some in Ej as [_ Hj].
  congruence.
Qed.

Lemma nth_insert_eq (r : row) i x :
  (i < length r)%nat -> nth i (<[i:=x]> r) Null = x.
Proof.
  revert i. induction r as [|y r IH]; intros [|i] Hi; simpl in *; try lia; [done|].
  apply IH. lia.
Qed.

Lemma get_cell_set_cell_eq cols c (r : row) x :
  has_col c cols = true -> length r = length cols ->
  get_cell cols c (set_cell cols c r x) = x.
Proof.
  intros Hc Hlen. unfold get_cell, set_cell.
  destruct (col_index_is_Some c cols Hc) as [i Hi]. rewrite Hi.
  apply nth_insert_eq. apply col_index_Some in Hi as [Hi _]. lia.
Qed.

Lemma set_cell_length cols c (r : row) x : length (set_cell cols c r x) = length r.
Proof. unfold set_cell. destruct (col_index c cols); [apply length_insert|done]. Qed.

(** One step of the rounding. *)
Lemma round_column_spec p df c0 :
  columns (round_column round_value p df c0) = columns df
  /\ length (rows (round_column round_value p df c0)) = length (rows df)
  /\ (forall c, c <> c0 -> column (round_column round_value p df c0) c = column df c)
  /\ (well_formed df -> well_formed (round_column round_value p df c0))
  /\ (well_formed df ->
      column (round_column round_value p df c0) c0
      = if has_col c0 (columns df) && is_numeric_dtype (column df c0)
        then List.map (round_value p) (column df c0)
        else column df c0).
Proof.
  destruct (has_col c0 (columns df) && is_numeric_dtype (column df c0)) eqn:E.
  - rewrite (round_column_rows p df c0 E). cbn [columns rows].
    split; [done|]. split; [by rewrite length_map|]. split; [|split].
    + intros c Hc. unfold column. cbn [columns rows]. rewrite List.map_map.
      apply map_ext. intros r. by apply get_cell_set_cell_ne.
    + intros Hwf r Hr. cbn [columns rows] in *.
      apply in_map_iff in Hr as (r0 & <- & Hr0). rewrite set_cell_length. by apply Hwf.
    + intros Hwf. unfold column. cbn [columns rows]. rewrite !List.map_map.
      apply map_ext_in. intros r Hr. apply get_cell_set_cell_eq; [|by apply Hwf].
      by apply andb_prop in E as [-> _].
  - unfold round_column. rewrite E. done.
Qed.

Lemma round_columns_spec p names : forall df,
  List.NoDup names ->
  let out := fold_left (round_column round_value p) names df in
  columns out = columns df
  /\ length (rows out) = length (rows df)
  /\ (forall c, ~ In c names -> column out c = column df c)
  /\ (well_formed df -> well_formed out)
  /\ (well_formed df -> forall c, In c names ->
      column out c
      = if has_col c (columns df) && is_numeric_dtype (column df c)
        then List.map (round_value p) (column df c)
        else column df c).
Proof.
  induction names as [|n names IH]; intros df Hnd out.
  - by repeat split.
  - apply List.NoDup_cons_iff in Hnd as [Hn Hnd].
    subst out. cbn [fold_left].
    destruct (round_column_spec p df n) as (Hc1 & Hl1 & Ho1 & Hw1 & Hs1).
    destruct (IH (round_column round_value p df n) Hnd) as (Hc & Hl & Ho & Hw & Hs).
    split; [congruence|]. split; [congruence|]. split; [|split].
    + intros c Hc'. rewrite Ho by (intros H; apply Hc'; by right).
      apply Ho1. intros ->. apply Hc'. by left.
    + auto.
    + intros Hwf c [<-|Hin].
      * rewrite Ho by done. by apply Hs1.
      * assert (c <> n) as Hne by (by intros ->).
        rewrite (Hs (Hw1 Hwf) c Hin), Hc1, (Ho1 c Hne). done.
Qed.

(** X13.  Rounding the coordinates keeps the columns and the number of
    rows, and changes no column other than the eight it names.  In a
    table whose rows are complete, each of those eight that is there and
    numeric has every value rounded, and each that holds text is left as
    it is. *)
Theorem round_coordinates_touches_coordinates_only p df :
  let names := ["latitude"; "lat"; "Latitude"; "Lat";
                "longitude"; "lon"; "Longitude"; "Lon"] in
  columns (round_coordinates round_value p df) = columns df
  /\ length (rows (round_coordinates round_value p df)) = length (rows df)
  /\ (forall c, ~ In c names -> column (round_coordinates round_value p df) c = column df c)
  /\ (well_formed df -> forall c, In c names ->
      column (round_coordinates round_value p df) c
      = if has_col c (columns df) && is_numeric_dtype (column df c)
        then List.map (round_value p) (column df c)
        else column df c).
Proof.
  intros names.
  destruct (round_columns_spec p names df) as (H1 & H2 & H3 & _ & H5).
  { repeat (constructor; [simpl; intuition discriminate|]). constructor. }
  by repeat split.
Qed.

(** *** Where the files of one raw file go *)

Lemma process_era5_variable_under raw output_dir variable_name cfg now :
  let ym := period (splitext_root (basename (grib_path raw))) now in
  Forall (under_period output_dir ym.1 ym.2)
    (process_era5_variable round_value raw output_dir variable_name cfg now).1.
Proof.
  intros ym. rewrite process_era5_variable_fst. fold ym.
  apply Forall_app. split.
  - rewrite extract_year_month_fst. destruct (name_period _); by repeat constructor.
  - apply Forall_app. split; [apply decode_and_write_under|].
    destruct (decode_and_write _ _ _ _ _ _ _).2; by repeat constructor.
Qed.

Lemma under_period_of_call_mono output_dir base clock n m o :
  (n <= m)%nat -> under_period_of_call output_dir base clock n o ->
  under_period_of_call output_dir base clock m o.
Proof.
  intros Hle. destruct o as [p df|e]; [|done].
  intros (i & v & Hi & Hd). exists i, v. split; [lia|done].
Qed.

(** The outputs of the loop from position [i] on, against a clock that
    counts from that position. *)
Lemma process_each_under raw output_dir cfg clock vars : forall i,
  let base := splitext_root (basename (grib_path raw)) in
  Forall (under_period_of_call output_dir base (fun j => clock (i + j)%nat) (length vars))
    (process_each round_value raw output_dir cfg clock i vars).1.
Proof.
  induction vars as [|v vars IH]; intros i base; [constructor|].
  cbn [process_each]. unfold mbind, M_bind.
  apply bind_Forall.
  - eapply List.Forall_impl; [|apply process_era5_variable_under].
    intros [p df|e]; [|done]. intros [w Hw]. exists 0%nat, w. split; [simpl; lia|].
    by rewrite Nat.add_0_r.
  - intros ok _. apply bind_Forall; [|intros [successful failed] _; constructor].
    eapply List.Forall_impl; [|apply (IH (S i))].
    intros [p df|e]; [|done]. intros (j & w & Hj & Hw).
    exists (S j), w. split; [simpl; lia|].
    by replace (i + S j)%nat with (S i + j)%nat by lia.
Qed.

Lemma process_era5_file_under_call raw output_dir variables exclude_variables cfg clock :
  let base := splitext_root (basename (grib_path raw)) in
  let todo := variables_to_process raw variables exclude_variables in
  Forall (under_period_of_call output_dir base clock (length todo))
    (process_era5_file round_value raw output_dir variables exclude_variables cfg clock).1.
Proof.
  intros base todo. unfold process_era5_file. fold todo.
  destruct todo as [|v0 vars] eqn:E.
  - unfold mbind, M_bind. apply bind_Forall; [by repeat constructor|].
    intros; constructor.
  - rewrite <- E. unfold mbind, M_bind. apply bind_Forall.
    + apply (process_each_under raw output_dir cfg clock todo 0).
    + intros [successful failed] _.
      apply bind_Forall; [|intros; constructor].
      destruct failed; by repeat constructor.
Qed.

(** When the name gives the period, every call files under it. *)
Lemma process_era5_file_under raw output_dir variables exclude_variables cfg clock ym :
  name_period (splitext_root (basename (grib_path raw))) = Some ym ->
  Forall (under_period output_dir ym.1 ym.2)
    (process_era5_file round_value raw output_dir variables exclude_variables cfg clock).1.
Proof.
  intros Hn.
  eapply List.Forall_impl; [|apply process_era5_file_under_call].
  intros [p df|e]; [|done]. intros (i & v & _ & Hd). exists v.
  revert Hd. unfold period. by rewrite Hn.
Qed.


End MoreExtractorRuns.

Lemma time_chunks_tile_witness :
  let run := process_variable_data no_rounding five_hours "2021" "05" "2t" ["out"]
               two_hour_chunks in
  List.map fst (written run)
  = [ (["out"; "2021"; "05"; "2t"], "202105_2t_chunk_0_2.csv");
      (["out"; "2021"; "05"; "2t"], "202105_2t_chunk_2_4.csv");
      (["out"; "2021"; "05"; "2t"], "202105_2t_chunk_4_5.csv") ]
  /\ run.2 = Some tt.
Proof.
  intros run.
  destruct (time_chunks_tile no_rounding five_hours "2021" "05" "2t" ["out"]
              two_hour_chunks "time") as (Hw & Hr & _).
  - reflexivity.
  - simpl. lia.
  - split.
    + unfold run. rewrite Hw. vm_compute. reflexivity.
    + apply Hr. discriminate.
Defined.

(** The fourth hour does not decode: the file of the first two hours is
    there, and the variable has failed. *)
Example broken_hours_leave_a_file :
  let run := process_variable_data no_rounding broken_hours "2021" "05" "2t" ["out"]
               two_hour_chunks in
  List.map fst (written run) = [ (["out"; "2021"; "05"; "2t"], "202105_2t_chunk_0_2.csv") ]
  /\ run.2 = None.
Proof. split; vm_compute; reflexivity. Qed.


(** The month turns while a raw file without a period in its name is
    processed: the files of its two variables go under two months. *)
Example one_raw_file_two_months :
  List.map (fun w => dirname w.1)
    (written (process_era5_file no_rounding unnamed_raw ["out"] None None
                two_hour_chunks turning_clock))
  = [ ["out"; "2026"; "11"; "2t"]; ["out"; "2026"; "11"; "2t"]; ["out"; "2026"; "11"; "2t"];
      ["out"; "2026"; "12"; "10u"] ].
Proof. vm_compute. reflexivity. Qed.

End ExtractorRuns.

(** ** The log formatter *)

Module LoggingFacts.
Import Logging.

Lemma length_substring n m s :
  String.length (substring n m s) = Nat.min m (String.length s - n).
Proof.
  revert n m. induction s as [|c s IH]; intros [|n] [|m]; simpl;
    rewrite ?IH, ?Nat.sub_0_r; done.
Qed.

Lemma prefix_app (s t : string) : String.prefix s (s +:+ t) = true.
Proof.
  induction s as [|c s IH]; simpl; [by destruct t|].
  destruct (ascii_dec c c); [done|congruence].
Qed.

(** X15.  The formatter shortens a message of more than 500 characters
    that has both square brackets or the word [array] in it to its first
    200 characters, a mark, and its last 100 characters, 332 characters in
    all.  Every other message goes to the log as it is, however long it
    is.  Formatting a message twice gives what formatting it once gives. *)
Theorem long_array_messages_are_cut msg :
  ((String.length msg <= 500)%nat -> format_message msg = msg)
  /\ (looks_like_array msg = false -> format_message msg = msg)
  /\ ((500 < String.length msg)%nat -> looks_like_array msg = true ->
      format_message msg = substring 0 200 msg +:+ truncation_mark +:+ last_chars 100 msg
      /\ String.length (format_message msg) = 332%nat
      /\ String.prefix (substring 0 200 msg) (format_message msg) = true
      /\ String.length (substring 0 200 msg) = 200%nat
      /\ String.length (last_chars 100 msg) = 100%nat)
  /\ format_message (format_message msg) = format_message msg.
Proof.
  assert ((500 < String.length msg)%nat -> looks_like_array msg = true ->
          format_message msg
          = substring 0 200 msg +:+ truncation_mark +:+ last_chars 100 msg
          /\ String.length (format_message msg) = 332%nat) as Hcut.
  { intros Hlen Harr. unfold format_message.
    rewrite (proj2 (Nat.ltb_lt _ _) Hlen), Harr. simpl andb. cbv iota.
    split; [done|].
    rewrite !length_string_app. unfold last_chars.
    rewrite !length_substring. simpl String.length. lia. }
  split; [|split; [|split]].
  - intros Hlen. unfold format_message.
    by rewrite (proj2 (Nat.ltb_ge _ _) Hlen).
  - intros Harr. unfold format_message. by rewrite Harr, andb_false_r.
  - intros Hlen Harr. destruct (Hcut Hlen Harr) as [Heq Hl].
    split; [done|]. split; [done|]. split; [|split].
    + rewrite Heq. apply prefix_app.
    + rewrite length_substring. lia.
    + unfold last_chars. rewrite length_substring. lia.
  - destruct ((500 <? String.length msg)%nat && looks_like_array msg) eqn:E.
    + apply andb_prop in E as [Hlen Harr]. apply Nat.ltb_lt in Hlen.
      destruct (Hcut Hlen Harr) as [_ Hl].
      unfold format_message at 1.
      by rewrite (proj2 (Nat.ltb_ge 500 _)) by lia.
    + unfold format_message. rewrite E. unfold format_message. by rewrite E.
Qed.

Example format_message_examples :
  format_message "values: [1, 2, 3]" = "values: [1, 2, 3]"
  /\ looks_like_array "An ARRAY of numbers" = true
  /\ looks_like_array "no brackets here" = false
  /\ looks_like_array "an opening [ only" = false.
Proof. repeat split; vm_compute; reflexivity. Qed.

End LoggingFacts.

(** ** The files of a unit *)

Module JoinerFilesFacts.
Import Joiner JoinerFacts JoinerFiles.

Lemma group_add_keys v p groups :
  List.map fst (group_add v p groups)
  = if has_col v (List.map fst groups) then List.map fst groups
    else List.map fst groups ++ [v].
Proof.
  induction groups as [|[v' ps] groups IH]; simpl; [done|].
  destruct (String.eqb v v') eqn:E; simpl; [done|].
  rewrite IH. by destruct (has_col v (List.map fst groups)).
Qed.

Lemma group_add_NoDup v p groups :
  List.NoDup (List.map fst groups) -> List.NoDup (List.map fst (group_add v p groups)).
Proof.
  intros Hnd. rewrite group_add_keys.
  destruct (has_col v (List.map fst groups)) eqn:E; [done|].
  apply has_col_false in E.
  apply List.NoDup_app; [done|constructor; [by intros []|constructor]|].
  intros x Hx [<-|[]]. done.
Qed.

Lemma dict_get_group_add v p groups v' :
  dict_get v' (group_add v p groups)
  = if String.eqb v' v
    then Some (match dict_get v groups with Some ps => ps | None => [] end ++ [p])
    else dict_get v' groups.
Proof.
  induction groups as [|[v0 ps] groups IH]; simpl.
  - by destruct (String.eqb v' v).
  - destruct (String.eqb v v0) eqn:E1; simpl.
    + apply String.eqb_eq in E1 as ->.
      destruct (String.eqb v' v0) eqn:E2; done.
    + rewrite IH. destruct (String.eqb v' v0) eqn:E2; [|done].
      apply String.eqb_eq in E2 as ->.
      by rewrite String.eqb_sym, E1.
Qed.

(** The groups after a run of the loop over [l], started with none. *)
Lemma group_files_spec l : forall groups done_,
  List.NoDup (List.map fst groups) ->
  (forall v, dict_get v groups
             = match List.filter (fun p => String.eqb (var_name_of p) v) (eligible done_) with
               | [] => None
               | ps => Some ps
               end) ->
  let out := fold_left group_file l groups in
  List.NoDup (List.map fst out)
  /\ forall v, dict_get v out
               = match List.filter (fun p => String.eqb (var_name_of p) v)
                         (eligible (done_ ++ l)) with
                 | [] => None
                 | ps => Some ps
                 end.
Proof.
  induction l as [|p l IH]; intros groups done_ Hnd Hget out.
  - rewrite app_nil_r. by split.
  - subst out. cbn [fold_left].
    replace (done_ ++ p :: l) with ((done_ ++ [p]) ++ l) by (by rewrite <- app_assoc).
    apply IH.
    + unfold group_file. destruct (4 <=? _)%nat; [by apply group_add_NoDup|done].
    + intros v. unfold group_file.
      assert (eligible (done_ ++ [p])
              = eligible done_ ++ if (4 <=? length (parts p))%nat then [p] else []) as ->.
      { unfold eligible. rewrite List.filter_app. cbn [List.filter].
        by destruct (4 <=? length (parts p))%nat. }
      destruct (4 <=? length (parts p))%nat eqn:E4.
      * rewrite dict_get_group_add, List.filter_app. cbn [List.filter].
        rewrite (String.eqb_sym v).
        destruct (String.eqb (var_name_of p) v) eqn:Ev.
        -- apply String.eqb_eq in Ev as <-. rewrite Hget.
           destruct (List.filter _ (eligible done_)) as [|q qs]; done.
        -- rewrite app_nil_r. apply Hget.
      * rewrite !app_nil_r. apply Hget.
Qed.

Section FindFacts.
Variable glob_csv : list string -> list path.

(** X16.  [find_csv_files] puts every file that has four path components
    or more under the name of the directory it lies in, each file once and
    in the order the search gave; no name comes twice and no name has an
    empty list.  A file higher in the tree is left out.  A month given
    without a year does not narrow the search. *)
Theorem csv_files_are_grouped_by_directory base_dir year month :
  let found := glob_csv (search_root base_dir year month) in
  let var_files := find_csv_files glob_csv base_dir year month in
  List.NoDup (List.map fst var_files)
  /\ (forall v files, In (v, files) var_files <->
        files <> []
        /\ files = List.filter (fun p => String.eqb (var_name_of p) v) (eligible found))
  /\ (forall p, In p found -> (length (parts p) < 4)%nat ->
        forall v files, In (v, files) var_files -> ~ In p files)
  /\ (forall read_csv,
        List.NoDup (List.map fst (read_unit glob_csv read_csv base_dir year month)))
  /\ search_root base_dir None month = base_dir.
Proof.
  intros found var_files.
  destruct (group_files_spec found [] []) as [Hnd Hget]; [constructor|done|].
  simpl in Hget. fold (find_csv_files glob_csv base_dir year month) in Hnd, Hget.
  fold var_files in Hnd, Hget.
  assert (forall v files, In (v, files) var_files <->
            files <> []
            /\ files = List.filter (fun p => String.eqb (var_name_of p) v) (eligible found))
    as Hin.
  { intros v files. split.
    - intros H. apply (dict_get_In _ _ _ Hnd) in H. rewrite Hget in H.
      destruct (List.filter _ (eligible found)) as [|q qs]; [done|].
      injection H as <-. done.
    - intros [Hne ->]. apply dict_get_Some. rewrite Hget.
      by destruct (List.filter _ (eligible found)). }
  split; [done|]. split; [done|]. split; [|split].
  - intros p Hp Hshort v files Hvf Hpf. apply Hin in Hvf as [_ ->].
    apply filter_In in Hpf as [Hpf _]. apply filter_In in Hpf as [_ H4].
    apply Nat.leb_le in H4. lia.
  - intros read_csv. unfold read_unit. rewrite List.map_map. simpl. exact Hnd.
  - done.
Qed.

End FindFacts.

Example may_files_grouped :
  find_csv_files may_files ["p"] (Some "2021") (Some "5")
  = [ ("2t", [ (["p"; "2021"; "05"; "2t"], "202105_2t_chunk_0_24.csv");
               (["p"; "2021"; "05"; "2t"], "202105_2t_chunk_24_48.csv") ]);
      ("10u", [ (["p"; "2021"; "05"; "10u"], "202105_10u_chunk_0_24.csv") ]) ].
Proof. vm_compute. reflexivity. Qed.

End JoinerFilesFacts.

(** ** The pipeline *)

Module PipelineFacts.
Import Pipeline.

#[global] Instance period_cmp_lawful : LawfulCmp period_cmp.
Proof. unfold period_cmp. apply _. Qed.

Lemma period_leb_refl k : period_leb k k = true.
Proof. apply (cmp_leb_refl period_cmp). Qed.

Lemma period_leb_total k k' : period_leb k k' = false -> period_leb k' k = true.
Proof. apply (cmp_leb_total period_cmp). Qed.

Lemma period_leb_trans k1 k2 k3 :
  period_leb k1 k2 = true -> period_leb k2 k3 = true -> period_leb k1 k3 = true.
Proof. apply (cmp_leb_trans period_cmp). Qed.

Lemma in_omap {A B : Type} (f : A -> option B) (l : list A) (y : B) :
  In y (omap f l) <-> exists x, In x l /\ f x = Some y.
Proof.
  induction l as [|a l IH]; simpl.
  - split; [done|]. by intros (x & [] & _).
  - destruct (f a) as [b|] eqn:E; simpl; rewrite IH; split.
    + intros [<-|(x & Hx & Hf)]; [exists a; auto|exists x; auto].
    + intros (x & [<-|Hx] & Hf); [left; congruence|right; by exists x].
    + intros (x & Hx & Hf). exists x; auto.
    + intros (x & [<-|Hx] & Hf); [congruence|by exists x].
Qed.

Section FindFacts.
Variable glob_ext : string -> list path.

(** X17.  [find_grib_files] returns the files in the order of their
    year and month; files of one month stay in the order the search gave
    them.  Each entry is a file of the search with the year and month read
    for it, the year within the range when a range is given, and no such
    file is left out or comes twice. *)
Theorem grib_files_sorted_by_period year_range :
  let found := omap (file_info year_range) (all_grib_files glob_ext) in
  let out := find_grib_files glob_ext year_range in
  StronglySorted (fun a b => period_leb (info_period a) (info_period b) = true) out
  /\ Permutation found out
  /\ (forall k, List.filter (fun x => bool_decide (info_period x = k)) out
                = List.filter (fun x => bool_decide (info_period x = k)) found)
  /\ forall x, In x out ->
       In (info_file x) (all_grib_files glob_ext)
       /\ file_period (info_file x) = Some (info_period x)
       /\ in_year_range year_range (info_period x).1 = true.
Proof.
  intros found out. split; [|split; [|split]].
  - apply Sorted_StronglySorted.
    + intros a b c. apply period_leb_trans.
    + apply (stable_sort_sorted info_period period_leb period_leb_total).
  - apply stable_sort_perm.
  - intros k. apply stable_sort_filter; [apply period_leb_refl|].
    intros x y Hx Hy. apply bool_decide_eq_true in Hx, Hy. congruence.
  - intros x Hx.
    apply (Permutation_in _ (Permutation_sym (stable_sort_perm info_period period_leb found)))
      in Hx.
    apply in_omap in Hx as (p & Hp & Hf). unfold file_info in Hf.
    destruct (file_period p) as [[y m]|] eqn:E; [|done].
    destruct (in_year_range year_range y) eqn:Er; [|done].
    injection Hf as <-. unfold info_file, info_period. simpl. done.
Qed.

End FindFacts.

Example demo_gribs_found :
  find_grib_files demo_gribs (Some (2021, 2021)%Z)
  = [ ((["in"], "era5_2021_05.grib"), 2021, 5)%Z;
      ((["in"], "202105_b.grib"), 2021, 5)%Z;
      ((["in"], "202107.grib"), 2021, 7)%Z ]
  /\ find_grib_files demo_gribs None
     = [ ((["in"; "2020"; "11"], "winds.grib"), 2020, 11)%Z;
         ((["in"], "era5_2021_05.grib"), 2021, 5)%Z;
         ((["in"], "202105_b.grib"), 2021, 5)%Z;
         ((["in"], "202107.grib"), 2021, 7)%Z ].
Proof. split; vm_compute; reflexivity. Qed.

(** *** Year and month between the scripts *)

Lemma digit_cases c :
  Extractor.is_digit c = true ->
  In c ["0"; "1"; "2"; "3"; "4"; "5"; "6"; "7"; "8"; "9"]%char.
Proof.
  destruct c as [[] [] [] [] [] [] [] []]; vm_compute; intros H;
    first [discriminate H | auto 12].
Qed.

Lemma uint_of_digits l :
  forallb Extractor.is_digit l = true ->
  exists d, NilEmpty.uint_of_string (text l) = Some d.
Proof.
  unfold text. induction l as [|c l IH]; simpl; [by exists Decimal.Nil|].
  intros H. apply andb_prop in H as [Hc Hl]. destruct (IH Hl) as [d Hd].
  rewrite Hd.
  apply digit_cases in Hc. simpl in Hc.
  repeat (destruct Hc as [<-|Hc]; [eexists; reflexivity|]). done.
Qed.

Lemma str_of_int_of_nat n : str_of_int (Z.of_nat n) = Extractor.str_of_nat n.
Proof.
  unfold str_of_int. destruct (Z.ltb_spec (Z.of_nat n) 0); [lia|].
  by rewrite Nat2Z.id.
Qed.

(** Printing the number read from digits that do not start with a zero
    gives the digits back. *)
Lemma str_of_int_of_digits c l :
  forallb Extractor.is_digit (c :: l) = true -> c <> "0"%char ->
  str_of_int (int_of_digits (text (c :: l))) = text (c :: l).
Proof.
  intros Hd Hc. destruct (uint_of_digits _ Hd) as [d Hu].
  unfold int_of_digits. rewrite Hu, str_of_int_of_nat.
  unfold Extractor.str_of_nat. rewrite Unsigned.to_of.
  assert (Decimal.unorm d = d) as ->; [|by apply NilEmpty.sus].
  simpl in Hd. apply andb_prop in Hd as [Hd _]. apply digit_cases in Hd.
  unfold text in Hu. simpl in Hu.
  destruct (NilEmpty.uint_of_string (string_of_list_ascii l)) as [d'|];
    [|by destruct c as [[] [] [] [] [] [] [] []]].
  simpl in Hd.
  repeat (destruct Hd as [<-|Hd]; [first [done | by injection Hu as <-]|]). done.
Qed.

Lemma month_of_digits m1 m2 :
  Extractor.is_digit m1 = true -> Extractor.is_digit m2 = true ->
  JoinerFiles.zfill2 (str_of_int (int_of_digits (text [m1; m2]))) = text [m1; m2]
  /\ pad2_int (int_of_digits (text [m1; m2])) = text [m1; m2].
Proof.
  intros H1 H2. apply digit_cases in H1, H2. simpl in H1, H2.
  repeat (destruct H1 as [<-|H1];
          [repeat (destruct H2 as [<-|H2]; [split; vm_compute; reflexivity|]); done|]).
  done.
Qed.

(** [int] takes a text of digits. *)
Lemma digit_not_special c :
  Extractor.is_digit c = true ->
  Extractor.is_space c = false /\ Extractor.is_sign c = false
  /\ Extractor.is_underscore c = false /\ is_dot c = false.
Proof.
  intros H. apply digit_cases in H. simpl in H.
  repeat (destruct H as [<-|H]; [by vm_compute|]). done.
Qed.

Lemma lstrip_digit c l :
  Extractor.is_digit c = true -> Extractor.lstrip (c :: l) = c :: l.
Proof. intros H. simpl. by destruct (digit_not_special c H) as [-> _]. Qed.

Lemma digits_ok_digits l b :
  forallb Extractor.is_digit l = true -> (l <> [] \/ b = true) ->
  Extractor.digits_ok b l = true.
Proof.
  revert b. induction l as [|c l IH]; intros b Hd Hb; simpl.
  - by destruct Hb.
  - simpl in Hd. apply andb_prop in Hd as [Hc Hl]. rewrite Hc.
    apply IH; [done|by right].
Qed.

Lemma int_parses_digits c l :
  forallb Extractor.is_digit (c :: l) = true ->
  Extractor.int_parses (text (c :: l)) = true.
Proof.
  intros Hd. unfold Extractor.int_parses, text.
  rewrite list_ascii_of_string_of_list_ascii.
  assert (Extractor.strip (c :: l) = c :: l) as ->.
  { unfold Extractor.strip.
    pose proof Hd as Hd'. simpl in Hd'. apply andb_prop in Hd' as [Hc _].
    rewrite (lstrip_digit c l Hc).
    destruct (rev (c :: l)) as [|x xs] eqn:Er.
    { apply (f_equal (@length ascii)) in Er. rewrite length_rev in Er. done. }
    assert (Extractor.is_digit x = true) as Hx.
    { rewrite forallb_forall in Hd. apply Hd. apply in_rev. rewrite Er. by left. }
    by rewrite (lstrip_digit x xs Hx), <- Er, rev_involutive. }
  pose proof Hd as Hd'. simpl in Hd'. apply andb_prop in Hd' as [Hc _].
  unfold Extractor.drop_sign.
  destruct (digit_not_special c Hc) as (_ & -> & _).
  apply digits_ok_digits; [done|by left].
Qed.

(** The extension is what follows the last dot, and the root what comes
    before it. *)
Lemma string_app_cons c (s t : string) : String c s +:+ t = String c (s +:+ t).
Proof. reflexivity. Qed.

Lemma string_app_nil_r (s : string) : s +:+ EmptyString = s.
Proof. induction s as [|c s IH]; [done|]. by rewrite string_app_cons, IH. Qed.

Lemma splitext_ext_suffix s : forall seen,
  exists pre, s = pre +:+ splitext_ext seen s
    /\ (splitext_ext seen s = EmptyString \/ exists e, splitext_ext seen s = String "." e).
Proof.
  induction s as [|c s IH]; intros seen.
  - exists EmptyString. split; [done|by left].
  - cbn [splitext_ext]. destruct (contains_dot s).
    + destruct (IH (seen || negb (is_dot c))) as (pre & Hpre & Hext).
      exists (String c pre). split; [|done]. by rewrite string_app_cons, <- Hpre.
    + destruct (is_dot c && seen) eqn:E.
      * exists EmptyString. split; [done|]. right. exists s.
        apply andb_prop in E as [E _]. unfold is_dot in E.
        apply Ascii.eqb_eq in E. by subst.
      * exists (String c s). split; [by rewrite string_app_nil_r|by left].
Qed.

Lemma substring_prefix (a b : string) : substring 0 (String.length a) (a +:+ b) = a.
Proof.
  induction a as [|c a IH]; [by destruct b|].
  rewrite string_app_cons. simpl. by rewrite IH.
Qed.

Lemma splitext_root_spec s :
  exists ext, s = Extractor.splitext_root s +:+ ext
    /\ (ext = EmptyString \/ exists e, ext = String "." e).
Proof.
  destruct (splitext_ext_suffix s false) as (pre & Hpre & Hext).
  exists (splitext_ext false s). split; [|done].
  unfold Extractor.splitext_root.
  remember (splitext_ext false s) as ext eqn:E. clear E Hext. subst s.
  by rewrite length_string_app, Nat.add_sub, substring_prefix.
Qed.

(** A name that starts with six digits keeps them in its root. *)
Lemma splitext_root_digits d1 d2 d3 d4 d5 d6 rest :
  forallb Extractor.is_digit [d1; d2; d3; d4; d5; d6] = true ->
  exists rest',
    Extractor.splitext_root (text [d1; d2; d3; d4; d5; d6] +:+ rest)
    = text [d1; d2; d3; d4; d5; d6] +:+ rest'.
Proof.
  intros Hd.
  destruct (splitext_root_spec (text [d1; d2; d3; d4; d5; d6] +:+ rest))
    as (ext & Hs & Hext).
  revert Hs. generalize (Extractor.splitext_root (text [d1; d2; d3; d4; d5; d6] +:+ rest)).
  intros root Hs. unfold text in *. cbn [string_of_list_ascii] in *.
  rewrite !string_app_cons in Hs. change (EmptyString +:+ rest) with rest in Hs.
  simpl in Hd. repeat (apply andb_prop in Hd as [? Hd]).
  assert (forall c r, Extractor.is_digit c = true -> String c r <> ext) as Hno.
  { intros c r Hc E. destruct Hext as [->|[e ->]]; [done|].
    injection E as -> _. by vm_compute in Hc. }
  repeat (destruct root as [|? root];
          [exfalso; change (EmptyString +:+ ext) with ext in Hs;
           eapply Hno; [|exact Hs]; assumption
          |rewrite string_app_cons in Hs; injection Hs as <- Hs]).
  exists root. by rewrite !string_app_cons.
Qed.

Lemma six_digits_text d1 d2 d3 d4 d5 d6 rest :
  text [d1; d2; d3; d4; d5; d6] +:+ rest
  = String d1 (String d2 (String d3 (String d4 (String d5 (String d6 rest))))).
Proof. reflexivity. Qed.

Lemma name_period_digits d1 d2 d3 d4 d5 d6 rest :
  forallb Extractor.is_digit [d1; d2; d3; d4; d5; d6] = true ->
  Extractor.name_period (text [d1; d2; d3; d4; d5; d6] +:+ rest)
  = Some (text [d1; d2; d3; d4], text [d5; d6]).
Proof.
  intros Hd. rewrite six_digits_text. unfold Extractor.name_period.
  cbn [substring].
  assert (substring 0 0 rest = EmptyString) as -> by (by destruct rest).
  change (String d1 (String d2 (String d3 (String d4 EmptyString))))
    with (text [d1; d2; d3; d4]).
  change (String d5 (String d6 EmptyString)) with (text [d5; d6]).
  simpl in Hd. repeat (apply andb_prop in Hd as [? Hd]).
  assert (Extractor.int_parses (text [d1; d2; d3; d4]) = true) as ->.
  { apply int_parses_digits. simpl. rewrite !andb_true_iff. tauto. }
  assert (Extractor.int_parses (text [d5; d6]) = true) as ->.
  { apply int_parses_digits. simpl. rewrite !andb_true_iff. tauto. }
  done.
Qed.

Lemma file_period_digits p d1 d2 d3 d4 d5 d6 rest :
  basename p = text [d1; d2; d3; d4; d5; d6] +:+ rest ->
  forallb Extractor.is_digit [d1; d2; d3; d4; d5; d6] = true ->
  file_period p
  = Some (int_of_digits (text [d1; d2; d3; d4]), int_of_digits (text [d5; d6])).
Proof.
  intros Hb Hd. unfold file_period. rewrite Hb, six_digits_text.
  cbn [list_ascii_of_string basic_search]. by rewrite Hd.
Qed.

Lemma joiner_search_root_digits processed_dir d1 d2 d3 d4 d5 d6 :
  forallb Extractor.is_digit [d1; d2; d3; d4; d5; d6] = true ->
  d1 <> "0"%char ->
  joiner_search_root processed_dir (int_of_digits (text [d1; d2; d3; d4]))
    (int_of_digits (text [d5; d6]))
  = processed_dir ++ [text [d1; d2; d3; d4]; text [d5; d6]].
Proof.
  intros Hd H0. simpl in Hd. repeat (apply andb_prop in Hd as [? Hd]).
  unfold joiner_search_root, joiner_period_args.
  rewrite str_of_int_of_digits; [|simpl; rewrite !andb_true_iff; tauto|done].
  destruct (month_of_digits d5 d6) as [-> _]; [done|done|].
  reflexivity.
Qed.

Section Agreement.
Variable round_value : Z -> cell -> cell.

(** X18.  For a raw file whose name starts with a year of four digits,
    the first not a zero, and a month of two digits, the scripts agree on
    where its data lies: the year and month the pipeline reads for the
    file make the joiner search the directory [processed/YYYY/MM], and
    every file the extractor writes for the raw file lies in a variable
    directory right below it. *)
Theorem extractor_and_joiner_agree_on_period raw processed_dir variables
    exclude_variables cfg clock d1 d2 d3 d4 d5 d6 rest :
  basename (Extractor.grib_path raw) = text [d1; d2; d3; d4; d5; d6] +:+ rest ->
  forallb Extractor.is_digit [d1; d2; d3; d4; d5; d6] = true ->
  d1 <> "0"%char ->
  exists year month,
    file_period (Extractor.grib_path raw) = Some (year, month)
    /\ joiner_search_root processed_dir year month
       = processed_dir ++ [text [d1; d2; d3; d4]; text [d5; d6]]
    /\ forall q df,
         In (q, df)
            (Extractor.written
               (Extractor.process_era5_file round_value raw processed_dir variables
                  exclude_variables cfg clock)) ->
         exists v, dirname q = joiner_search_root processed_dir year month ++ [v].
Proof.
  intros Hb Hd H0.
  exists (int_of_digits (text [d1; d2; d3; d4])), (int_of_digits (text [d5; d6])).
  split; [by apply file_period_digits with (rest := rest)|].
  pose proof (joiner_search_root_digits processed_dir d1 d2 d3 d4 d5 d6 Hd H0) as Hroot.
  split; [done|]. intros q df Hin. rewrite Hroot.
  apply ExtractorFacts.in_written in Hin.
  destruct (splitext_root_digits d1 d2 d3 d4 d5 d6 rest Hd) as [rest' Hroot'].
  assert (Extractor.name_period
            (Extractor.splitext_root (basename (Extractor.grib_path raw)))
          = Some (text [d1; d2; d3; d4], text [d5; d6])) as Hn.
  { by rewrite Hb, Hroot', (name_period_digits _ _ _ _ _ _ _ Hd). }
  pose proof (ExtractorRuns.process_era5_file_under round_value raw processed_dir
                variables exclude_variables cfg clock _ Hn) as Hall.
  rewrite List.Forall_forall in Hall. specialize (Hall _ Hin).
  destruct Hall as [v Hv]. exists v. rewrite Hv.
  cbn [fst snd]. by rewrite <- app_assoc.
Qed.

End Agreement.

Lemma extractor_and_joiner_agree_on_period_witness :
  exists year month,
    file_period (Extractor.grib_path ExtractorChunks.may_raw) = Some (year, month)
    /\ joiner_search_root ["processed"] year month = ["processed"] ++ ["2021"; "05"]
    /\ forall q df,
         In (q, df)
            (Extractor.written
               (Extractor.process_era5_file Extractor.no_rounding ExtractorChunks.may_raw
                  ["processed"] None None ExtractorChunks.two_hour_chunks
                  Extractor.demo_clock)) ->
         exists v, dirname q = joiner_search_root ["processed"] year month ++ [v].
Proof.
  apply (extractor_and_joiner_agree_on_period Extractor.no_rounding
           ExtractorChunks.may_raw ["processed"] None None
           ExtractorChunks.two_hour_chunks Extractor.demo_clock
           "2" "0" "2" "1" "0" "5" ".grib").
  - reflexivity.
  - reflexivity.
  - discriminate.
Defined.

(** A name that spells the period with separators: the pipeline reads May
    2021 from it, and the extractor, which looks at the first six
    characters only, files the data under the current month. *)
Example era5_name_periods_differ :
  file_period (["in"], "era5_2021_05.grib") = Some (2021, 5)%Z
  /\ joiner_search_root ["processed"] 2021 5 = ["processed"; "2021"; "05"]
  /\ Extractor.period (Extractor.splitext_root "era5_2021_05.grib") Extractor.demo_now
     = ("2026", "11").
Proof. repeat split; vm_compute; reflexivity. Qed.

(** A year below 1000 loses its zeros on the way to the joiner. *)
Example early_year_periods_differ :
  file_period (["in"], "099912.grib") = Some (999, 12)%Z
  /\ joiner_search_root ["processed"] 999 12 = ["processed"; "999"; "12"]
  /\ Extractor.period (Extractor.splitext_root "099912.grib") Extractor.demo_now
     = ("0999", "12").
Proof. repeat split; vm_compute; reflexivity. Qed.

End PipelineFacts.

(** ** The steps of the pipeline between the scripts *)

Module PipelineStepsFacts.
Import Pipeline PipelineFacts PipelineSteps.

(** *** The formats of year and month can be read back *)

Lemma str_of_nat_parse n :
  exists d, NilEmpty.uint_of_string (Extractor.str_of_nat n) = Some d /\ Nat.of_uint d = n.
Proof.
  exists (Nat.to_uint n). split.
  - apply NilEmpty.usu.
  - apply DecimalNat.Unsigned.of_to.
Qed.

Lemma pad2_parse n :
  exists d, NilEmpty.uint_of_string (Extractor.pad2 n) = Some d /\ Nat.of_uint d = n.
Proof.
  unfold Extractor.pad2. destruct (n <? 10)%nat; [|apply str_of_nat_parse].
  exists (Decimal.D0 (Nat.to_uint n)). split.
  - rewrite string_app_cons. change (EmptyString +:+ ?x) with x.
    cbn [NilEmpty.uint_of_string]. unfold Extractor.str_of_nat.
    by rewrite NilEmpty.usu.
  - change (Nat.of_uint (Decimal.D0 (Nat.to_uint n))) with (Nat.of_uint (Nat.to_uint n)).
    apply DecimalNat.Unsigned.of_to.
Qed.

Lemma minus_not_parsed s : NilEmpty.uint_of_string ("-" +:+ s) = None.
Proof.
  rewrite string_app_cons. change (EmptyString +:+ s) with s.
  cbn [NilEmpty.uint_of_string]. by destruct (NilEmpty.uint_of_string s).
Qed.

Lemma parsed_inj (f : nat -> string) :
  (forall n, exists d, NilEmpty.uint_of_string (f n) = Some d /\ Nat.of_uint d = n) ->
  forall n m, f n = f m -> n = m.
Proof.
  intros Hf n m E.
  destruct (Hf n) as (d & Hd & <-). destruct (Hf m) as (d' & Hd' & <-).
  rewrite E in Hd. congruence.
Qed.

Lemma minus_app_inj s t : "-" +:+ s = "-" +:+ t -> s = t.
Proof. rewrite !string_app_cons. change (EmptyString +:+ ?x) with x. congruence. Qed.

Lemma str_of_int_inj y y' : str_of_int y = str_of_int y' -> y = y'.
Proof.
  unfold str_of_int.
  destruct (Z.ltb_spec y 0), (Z.ltb_spec y' 0); intros E.
  - apply minus_app_inj, (parsed_inj _ str_of_nat_parse) in E. lia.
  - apply (f_equal NilEmpty.uint_of_string) in E. rewrite minus_not_parsed in E.
    destruct (str_of_nat_parse (Z.to_nat y')) as (d & Hd & _). congruence.
  - apply (f_equal NilEmpty.uint_of_string) in E. rewrite minus_not_parsed in E.
    destruct (str_of_nat_parse (Z.to_nat y)) as (d & Hd & _). congruence.
  - apply (parsed_inj _ str_of_nat_parse) in E. lia.
Qed.

Lemma pad2_int_inj m m' : pad2_int m = pad2_int m' -> m = m'.
Proof.
  unfold pad2_int.
  destruct (Z.ltb_spec m 0) as [Hm|Hm], (Z.ltb_spec m' 0) as [Hm'|Hm']; intros E.
  - by apply str_of_int_inj.
  - unfold str_of_int in E. apply Z.ltb_lt in Hm. rewrite Hm in E.
    apply (f_equal NilEmpty.uint_of_string) in E. rewrite minus_not_parsed in E.
    destruct (pad2_parse (Z.to_nat m')) as (d & Hd & _). congruence.
  - unfold str_of_int in E. apply Z.ltb_lt in Hm'. rewrite Hm' in E.
    apply (f_equal NilEmpty.uint_of_string) in E. rewrite minus_not_parsed in E.
    destruct (pad2_parse (Z.to_nat m)) as (d & Hd & _). congruence.
  - apply (parsed_inj _ pad2_parse) in E. lia.
Qed.

(** *** [cleanup_processed_data] *)

Lemma rmtree_lookup removed dir fs p :
  rmtree removed dir fs !! p = if under dir p && removed p then None else fs !! p.
Proof.
  unfold rmtree. rewrite map_lookup_filter.
  destruct (fs !! p) as [f|] eqn:E; simpl; [|by destruct (_ && _)].
  by destruct (under dir p && removed p).
Qed.

Lemma cleanup_lookup keep_processed joined_dir processed_dir year month removed fs p :
  cleanup_processed_data keep_processed joined_dir processed_dir year month removed fs !! p
  = if negb keep_processed && joined_file_found fs joined_dir year month
       && under (processed_dir ++ [str_of_int year; pad2_int month]) p && removed p
    then None else fs !! p.
Proof.
  unfold cleanup_processed_data.
  destruct keep_processed; [done|].
  destruct (joined_file_found _ _ _ _); simpl; [|done].
  apply rmtree_lookup.
Qed.

(** X19. Cleaning up after a month changes nothing but the files below
    the month's directory of processed data: every other path keeps its
    file, no file is created or rewritten, and a file goes only if
    processed data is not kept and a joined file of the month is found. *)
Theorem cleanup_touches_the_month_directory_only keep_processed joined_dir processed_dir
    year month removed fs p :
  cleanup_processed_data keep_processed joined_dir processed_dir year month removed fs !! p
  = fs !! p
  \/ (cleanup_processed_data keep_processed joined_dir processed_dir year month removed fs
        !! p = None
      /\ keep_processed = false
      /\ joined_file_found fs joined_dir year month = true
      /\ under (processed_dir ++ [str_of_int year; pad2_int month]) p = true).
Proof.
  rewrite cleanup_lookup.
  destruct keep_processed; [by left|].
  destruct (joined_file_found _ _ _ _); [|by left].
  destruct (under _ p); [|by left].
  destruct (removed p); [by right|by left].
Qed.

Lemma under_app_inj dir a b a' b' p :
  under (dir ++ [a; b]) p = true -> under (dir ++ [a'; b']) p = true ->
  a = a' /\ b = b'.
Proof.
  unfold under. intros H H'.
  apply bool_decide_eq_true in H. apply bool_decide_eq_true in H'.
  rewrite !length_app in H, H'. simpl in H, H'. rewrite H in H'.
  apply app_inv_head in H'. by injection H'.
Qed.

(** X20. Cleaning up one month leaves the processed data of every other
    month as it is. *)
Theorem cleanup_leaves_other_months keep_processed joined_dir processed_dir
    year month removed fs year' month' p :
  (year, month) <> (year', month') ->
  under (processed_dir ++ [str_of_int year'; pad2_int month']) p = true ->
  cleanup_processed_data keep_processed joined_dir processed_dir year month removed fs !! p
  = fs !! p.
Proof.
  intros Hne Hp. rewrite cleanup_lookup.
  destruct (under (processed_dir ++ [str_of_int year; pad2_int month]) p) eqn:Hu.
  - destruct (under_app_inj _ _ _ _ _ _ Hu Hp) as [Ey Em].
    apply str_of_int_inj in Ey. apply pad2_int_inj in Em. congruence.
  - by rewrite andb_false_r.
Qed.

Lemma prefix_app_both (a b c : string) :
  String.prefix (a +:+ b) (a +:+ c) = String.prefix b c.
Proof.
  induction a as [|x a IH]; [done|].
  rewrite !(string_app_cons x). simpl.
  destruct (ascii_dec x x); [done|congruence].
Qed.

Lemma joined_file_found_intro fs joined_dir year month q f name :
  fs !! q = Some f ->
  entry_of (joined_dir ++ [str_of_int year]) q = Some name ->
  String.prefix ("joined_" +:+ str_of_int year +:+ pad2_int month +:+ ".") name = true ->
  joined_file_found fs joined_dir year month = true.
Proof.
  intros Hq He Hp. unfold joined_file_found.
  apply existsb_exists. exists (q, f). split.
  - apply list_elem_of_In, elem_of_map_to_list, Hq.
  - simpl. by rewrite He.
Qed.

(** X21. Once the file that joining a month writes is there, cleaning up
    the month with processed data not kept removes every file below the
    month's directory that the removal gets to. *)
Theorem cleanup_follows_join joined_dir processed_dir output_format year month
    removed fs f p :
  fs !! joined_output_file joined_dir output_format year month = Some f ->
  under (processed_dir ++ [str_of_int year; pad2_int month]) p = true ->
  removed p = true ->
  cleanup_processed_data false joined_dir processed_dir year month removed fs !! p = None.
Proof.
  intros Hf Hu Hr. rewrite cleanup_lookup, Hu, Hr.
  erewrite joined_file_found_intro; [done|exact Hf| |].
  - unfold entry_of, joined_output_file, path_join, dirname, basename. simpl.
    by rewrite bool_decide_eq_true_2.
  - rewrite !prefix_app_both. by destruct (String.eqb _ _).
Qed.

(** *** The batches of months *)

#[local] Abbreviation grouped_tasks groups :=
  (flat_map (fun g : (Z * Z) * list path =>
               List.map (fun p => (p, g.1.1, g.1.2)) g.2) groups).

Lemma period_group_add_tasks k p groups :
  Permutation (grouped_tasks (period_group_add k p groups))
              ((p, k.1, k.2) :: grouped_tasks groups).
Proof.
  induction groups as [|[k' ps] groups IH]; [done|].
  cbn [period_group_add]. case_bool_decide as E.
  - subst k'. cbn [flat_map fst snd]. rewrite List.map_app. simpl.
    rewrite <- app_assoc. simpl. symmetry. apply Permutation_middle.
  - cbn [flat_map fst snd]. rewrite IH. symmetry. apply Permutation_middle.
Qed.

Lemma period_group_add_keys k p groups :
  List.NoDup (List.map fst groups) ->
  List.NoDup (List.map fst (period_group_add k p groups)).
Proof.
  assert (Hk : forall g, List.map fst (period_group_add k p g) = List.map fst g
                         \/ (~ In k (List.map fst g)
                             /\ List.map fst (period_group_add k p g)
                                = List.map fst g ++ [k])).
  { induction g as [|[k' ps] g IH]; simpl.
    - right. split; [tauto|done].
    - case_bool_decide as E; [by left|]. cbn [List.map fst].
      destruct IH as [->|[Hn ->]]; [by left|].
      right. split; [|done]. intros [?|?]; [congruence|done]. }
  intros Hnd. destruct (Hk groups) as [->|[Hn ->]]; [done|].
  apply List.NoDup_app; [done|constructor; [by intros []|constructor]|].
  intros x Hx [<-|[]]. done.
Qed.

Lemma group_by_period_spec grib_files : forall groups,
  List.NoDup (List.map fst groups) ->
  let groups' :=
    fold_left (fun groups x => period_group_add (info_period x) (info_file x) groups)
              grib_files groups in
  List.NoDup (List.map fst groups')
  /\ Permutation (grouped_tasks groups') (grouped_tasks groups ++ grib_files).
Proof.
  induction grib_files as [|x l IH]; intros groups Hnd; simpl.
  - by rewrite app_nil_r.
  - destruct (IH _ (period_group_add_keys (info_period x) (info_file x) _ Hnd))
      as [Hnd' Hp].
    split; [done|]. rewrite Hp, period_group_add_tasks.
    destruct x as [[q y] m]. simpl. apply Permutation_middle.
Qed.

Lemma conversion_tasks_skip k ps groups keys :
  ~ In k keys -> conversion_tasks ((k, ps) :: groups) keys = conversion_tasks groups keys.
Proof.
  unfold conversion_tasks. induction keys as [|k' keys IH]; intros Hn; [done|].
  cbn [flat_map]. rewrite IH; [|by intros ?; apply Hn; right].
  cbn [period_get].
  rewrite bool_decide_eq_false_2; [done|]. intros ->. apply Hn. by left.
Qed.

Lemma conversion_tasks_keys groups :
  List.NoDup (List.map fst groups) ->
  conversion_tasks groups (List.map fst groups) = grouped_tasks groups.
Proof.
  induction groups as [|[k ps] groups IH]; intros Hnd; [done|].
  inversion Hnd as [|? ? Hn Hnd']; subst.
  change (List.map fst ((k, ps) :: groups)) with (k :: List.map fst groups).
  transitivity (List.map (fun p => (p, k.1, k.2)) (period_get k ((k, ps) :: groups))
                ++ conversion_tasks ((k, ps) :: groups) (List.map fst groups)); [done|].
  cbn [period_get]. rewrite bool_decide_eq_true_2; [|done].
  by rewrite conversion_tasks_skip, IH.
Qed.

Lemma flat_map_concat {A B : Type} (f : A -> list B) (ls : list (list A)) :
  flat_map (flat_map f) ls = flat_map f (concat ls).
Proof.
  induction ls as [|l ls IH]; simpl; [done|]. by rewrite flat_map_app, IH.
Qed.

Lemma chunks_fuel_bounded {A : Type} (n fuel : nat) : forall l : list A,
  Forall (fun c => (length c <= n)%nat) (chunks_fuel fuel n l).
Proof.
  induction fuel as [|fuel IH]; intros l; [constructor|].
  destruct l as [|x l]; [constructor|].
  cbn [chunks_fuel]. constructor; [|apply IH].
  rewrite length_firstn. lia.
Qed.

(** X22. For a batch size of at least one the months of the found files
    are cut into batches that are not empty and hold at most that many
    months; the batches follow each other in the order of time and name
    every month once; and the conversion tasks of all batches together
    are the found files, each of them once. *)
Theorem every_found_file_is_converted_once batch_size grib_files :
  (1 <= batch_size)%Z ->
  exists bs,
    batches batch_size (month_keys (group_by_period grib_files)) = Some bs
    /\ Forall (fun b => b <> [] /\ (Z.of_nat (length b) <= batch_size)%Z) bs
    /\ Sorted (fun k k' => period_leb k k' = true) (concat bs)
    /\ List.NoDup (concat bs)
    /\ Permutation (flat_map (conversion_tasks (group_by_period grib_files)) bs)
                   grib_files.
Proof.
  intros Hb.
  destruct (group_by_period_spec grib_files [] (List.NoDup_nil _)) as [Hnd Hp].
  fold (group_by_period grib_files) in Hnd, Hp. simpl in Hp.
  set (groups := group_by_period grib_files) in *.
  assert (Hperm : Permutation (List.map fst groups) (month_keys groups))
    by apply stable_sort_perm.
  exists (chunks (Z.to_nat batch_size) (month_keys groups)).
  assert (Hc : concat (chunks (Z.to_nat batch_size) (month_keys groups))
               = month_keys groups) by (apply chunks_concat; lia).
  split; [|split; [|split; [|split]]].
  - unfold batches.
    destruct (Z.eqb_spec batch_size 0); [lia|].
    destruct (Z.ltb_spec batch_size 0); [lia|done].
  - apply Forall_and. split.
    + apply chunks_fuel_nonempty. lia.
    + eapply List.Forall_impl; [|apply chunks_fuel_bounded].
      simpl. intros b Hl. lia.
  - rewrite Hc. apply (stable_sort_sorted (fun k => k) period_leb period_leb_total).
  - rewrite Hc. by apply (Permutation_NoDup Hperm).
  - unfold conversion_tasks at 1.
    change (fun batch => flat_map ?f batch) with (flat_map f).
    rewrite flat_map_concat, Hc.
    fold (conversion_tasks groups (month_keys groups)).
    rewrite <- Hp, <- (conversion_tasks_keys groups Hnd).
    unfold conversion_tasks. apply Permutation_flat_map. by symmetry.
Qed.

Lemma cleanup_leaves_other_months_witness :
  cleanup_processed_data false ["joined"] ["processed"] 2021 5 all_removed two_months
    !! (["processed"; "2021"; "06"; "2t"], "202106_2t_chunk_0_24.csv")
  = two_months !! (["processed"; "2021"; "06"; "2t"], "202106_2t_chunk_0_24.csv").
Proof.
  apply (cleanup_leaves_other_months false ["joined"] ["processed"] 2021 5 all_removed
           two_months 2021 6).
  - discriminate.
  - vm_compute. reflexivity.
Defined.

Lemma cleanup_follows_join_witness :
  cleanup_processed_data false ["joined"] ["processed"] 2021 5 all_removed two_months
    !! (["processed"; "2021"; "05"; "2t"], "202105_2t_chunk_0_24.csv")
  = None.
Proof.
  apply (cleanup_follows_join ["joined"] ["processed"] None 2021 5 all_removed
           two_months Other).
  - vm_compute. reflexivity.
  - vm_compute. reflexivity.
  - reflexivity.
Defined.

(** Cleaning up June, of which no joined file is there, removes nothing. *)
Example cleanup_without_joined_file :
  joined_file_found two_months ["joined"] 2021 6 = false
  /\ cleanup_processed_data false ["joined"] ["processed"] 2021 6 all_removed two_months
     = two_months.
Proof. split; [vm_compute; reflexivity|]. reflexivity. Qed.

Lemma every_found_file_is_converted_once_witness :
  exists bs,
    batches 2 (month_keys (group_by_period (find_grib_files demo_gribs None))) = Some bs
    /\ Forall (fun b => b <> [] /\ (Z.of_nat (length b) <= 2)%Z) bs
    /\ Sorted (fun k k' => period_leb k k' = true) (concat bs)
    /\ List.NoDup (concat bs)
    /\ Permutation
         (flat_map (conversion_tasks (group_by_period (find_grib_files demo_gribs None))) bs)
         (find_grib_files demo_gribs None).
Proof.
  apply (every_found_file_is_converted_once 2 (find_grib_files demo_gribs None)). lia.
Defined.

(** The three months of the files found, in batches of two. *)
Example demo_batches :
  batches 2 (month_keys (group_by_period (find_grib_files demo_gribs None)))
  = Some [[(2020, 11); (2021, 5)]; [(2021, 7)]]%Z
  /\ batches 0 (month_keys (group_by_period (find_grib_files demo_gribs None))) = None
  /\ batches (-1) (month_keys (group_by_period (find_grib_files demo_gribs None)))
     = Some [].
Proof. repeat split; vm_compute; reflexivity. Qed.

End PipelineStepsFacts.

(** ** The search for joined files *)

Module JoinedFilesFacts.
Import Logging JoinedFiles PipelineFacts.

Lemma contains_char_cons c x s :
  contains_char c (String x s) = Ascii.eqb c x || contains_char c s.
Proof. done. Qed.

Lemma contains_char_app c s t :
  contains_char c (s +:+ t) = contains_char c s || contains_char c t.
Proof.
  induction s as [|x s IH]; [done|].
  rewrite string_app_cons, !contains_char_cons, IH. apply orb_assoc.
Qed.

Lemma split_on_not_nil c s : split_on c s <> [].
Proof.
  destruct s as [|x s]; simpl; [done|].
  destruct (Ascii.eqb x c); [done|]. by destruct (split_on c s).
Qed.

(** A text without the separator stays in the first piece. *)
Lemma split_on_app c s t :
  contains_char c s = false ->
  split_on c (s +:+ t)
  = (s +:+ nth 0 (split_on c t) EmptyString) :: tail (split_on c t).
Proof.
  induction s as [|x s IH]; intros Hs.
  - change (EmptyString +:+ ?u) with u.
    pose proof (split_on_not_nil c t). by destruct (split_on c t).
  - rewrite contains_char_cons in Hs. apply orb_false_elim in Hs as [Hx Hs].
    rewrite !string_app_cons. cbn [split_on].
    rewrite Ascii.eqb_sym, Hx, (IH Hs). done.
Qed.

Lemma split_on_cons_sep c t : split_on c (String c t) = EmptyString :: split_on c t.
Proof. cbn [split_on]. by rewrite Ascii.eqb_refl. Qed.

Lemma split_on_none c s : contains_char c s = false -> split_on c s = [s].
Proof.
  intros Hs. rewrite <- (string_app_nil_r s) at 1.
  rewrite (split_on_app _ _ _ Hs). simpl. by rewrite string_app_nil_r.
Qed.

Lemma split_on_concat c e exts :
  Forall (fun x => contains_char c x = false) (e :: exts) ->
  split_on c (String.concat (String c EmptyString) (e :: exts)) = e :: exts.
Proof.
  revert e. induction exts as [|e' exts IH]; intros e He.
  - apply split_on_none. by inversion He.
  - inversion He as [|? ? H1 H2]; subst.
    change (String.concat (String c EmptyString) (e :: e' :: exts))
      with (e +:+ String c EmptyString
              +:+ String.concat (String c EmptyString) (e' :: exts)).
    rewrite (split_on_app _ _ _ H1), string_app_cons.
    change (EmptyString +:+ ?u) with u.
    rewrite split_on_cons_sep, (IH _ H2). simpl. by rewrite string_app_nil_r.
Qed.

Lemma contains_char_concat c sep e exts :
  contains_char c sep = false ->
  Forall (fun x => contains_char c x = false) (e :: exts) ->
  contains_char c (String.concat sep (e :: exts)) = false.
Proof.
  intros Hsep. revert e. induction exts as [|e' exts IH]; intros e He.
  - by inversion He.
  - inversion He as [|? ? H1 H2]; subst.
    change (String.concat sep (e :: e' :: exts))
      with (e +:+ sep +:+ String.concat sep (e' :: exts)).
    by rewrite !contains_char_app, H1, Hsep, (IH _ H2).
Qed.

Section FindFacts.
Variable glob_below : list string -> string -> list path.

(** X23. For a pattern with alternatives in braces the search runs once
    for each alternative, with the text before the opening brace in front
    of it: what follows the closing brace is not part of any search, and
    the files of the searches are listed one search after the other. *)
Theorem braces_give_one_search_each input_dir base e exts rest :
  contains_char "{" base = false ->
  Forall (fun x => contains_char "," x = false) (e :: exts) ->
  Forall (fun x => contains_char "{" x = false) (e :: exts) ->
  Forall (fun x => contains_char "}" x = false) (e :: exts) ->
  find_joined_files glob_below input_dir
    (base +:+ "{" +:+ String.concat "," (e :: exts) +:+ "}" +:+ rest)
  = flat_map (fun x => glob_below input_dir (base +:+ x)) (e :: exts).
Proof.
  intros Hb Hc Ho Hcl. unfold find_joined_files, search_patterns.
  set (E := String.concat "," (e :: exts)).
  assert (HEo : contains_char "{" E = false) by by apply contains_char_concat.
  assert (HEc : contains_char "}" E = false) by by apply contains_char_concat.
  replace (contains_char "{" (base +:+ "{" +:+ E +:+ "}" +:+ rest)) with true
    by (rewrite !contains_char_app; simpl; by rewrite orb_true_r).
  replace (contains_char "}" (base +:+ "{" +:+ E +:+ "}" +:+ rest)) with true
    by (rewrite !contains_char_app; simpl; by rewrite !orb_true_r).
  cbn [andb].
  rewrite (split_on_app _ _ _ Hb).
  change ("{" +:+ E +:+ "}" +:+ rest) with (String "{" (E +:+ "}" +:+ rest)).
  rewrite split_on_cons_sep. cbn [nth tail]. rewrite string_app_nil_r.
  rewrite (split_on_app _ _ _ HEo). cbn [nth].
  rewrite (split_on_app _ _ _ HEc).
  change ("}" +:+ ?u) with (String "}" u).
  cbn [nth]. destruct (split_on "{" (String "}" rest)) as [|h t] eqn:Eh.
  { by apply split_on_not_nil in Eh. }
  cbn [nth].
  assert (Hh : exists h', h = String "}" h').
  { cbn [split_on] in Eh. change (Ascii.eqb "}" "{") with false in Eh.
    destruct (split_on "{" rest); injection Eh as <- _; by eexists. }
  destruct Hh as [h' ->]. rewrite split_on_cons_sep. cbn [nth].
  rewrite string_app_nil_r. unfold E. rewrite (split_on_concat _ _ _ Hc).
  by rewrite flat_map_concat_map, List.map_map, <- flat_map_concat_map.
Qed.

End FindFacts.

Lemma braces_give_one_search_each_witness :
  find_joined_files echo_glob ["joined"]
    ("joined_*." +:+ "{" +:+ String.concat "," ["csv"; "parquet"] +:+ "}" +:+ EmptyString)
  = flat_map (fun x => echo_glob ["joined"] ("joined_*." +:+ x)) ["csv"; "parquet"].
Proof.
  apply (braces_give_one_search_each echo_glob ["joined"] "joined_*." "csv" ["parquet"]
           EmptyString).
  - reflexivity.
  - by repeat constructor.
  - by repeat constructor.
  - by repeat constructor.
Defined.

(** The default pattern; a pattern whose extension follows the braces,
    which is searched without it; and a pattern with a closing brace
    only, which is searched as it is. *)
Example search_patterns_examples :
  search_patterns "joined_*.{csv,parquet}" = ["joined_*.csv"; "joined_*.parquet"]
  /\ search_patterns "joined_{2021,2022}*.csv" = ["joined_2021"; "joined_2022"]
  /\ search_patterns "joined_}*.csv" = ["joined_}*.csv"].
Proof. repeat split; vm_compute; reflexivity. Qed.

End JoinedFilesFacts.
